(** * Route planner: segment building, crowd-aware scoring, selection, learning

    A shallow embedding of [planner.py].  The program is dynamically typed and
    works on decoded JSON (the preferences file, the legs returned by the
    route-search provider), so the embedding keeps a [json] universe and a small
    exception-and-state monad:

    - Python [int] is [Z]; Python [float] is idealised as an exact rational [Q]
      (no rounding error, no inf and no nan), and [==] on floats is [Qeq];
      where a property depends on the rounding of the sums, the scoring loop is
      also given on binary64 numbers ([score_route_f64]);
    - a [dict] with string keys is a [gmap string json]; [{**a, **b}] is the
      left-biased union [b ∪ a];
    - a raised exception is the outcome [Raise]; [try/except] is [try_except];
    - the files, the module-level DataFrame caches, the clock and the random
      generator are fields of [World], threaded by the monad [M];
    - a segment, a dict with the seven fixed keys that [paths_to_segs] builds,
      is the record [Segment]. *)

From Stdlib Require Import ZArith QArith Qround Lqa Lia String List Bool.
From Stdlib Require Import PrimFloat.
From Stdlib Require SpecFloat FloatOps.
From stdpp Require Import gmap strings list fin_maps.

Set Warnings "-register-all".
Set Warnings "-inexact-float".

Local Open Scope string_scope.

(** ** Values *)

Inductive json : Type :=
  | JNull
  | JBool (b : bool)
  | JInt (n : Z)
  | JFloat (q : Q)
  | JStr (s : string)
  | JArr (l : list json)
  | JObj (m : gmap string json).

Inductive outcome (A : Type) : Type :=
  | Ok (a : A)
  | Raise.
Arguments Ok {A} a.
Arguments Raise {A}.

Definition obind {A B} (o : outcome A) (k : A -> outcome B) : outcome B :=
  match o with
  | Ok a => k a
  | Raise => Raise
  end.

Notation "'let?' x ':=' o 'in' k" := (obind o (fun x => k))
  (at level 10, x name, o at level 100, k at level 200).

Definition of_option {A} (o : option A) : outcome A :=
  match o with
  | Some a => Ok a
  | None => Raise
  end.

(** Python truthiness, as used by [x or y]. *)
Definition truthy (v : json) : bool :=
  match v with
  | JNull => false
  | JBool b => b
  | JInt n => negb (n =? 0)%Z
  | JFloat q => negb (Qeq_bool q 0)
  | JStr s => negb (String.eqb s "")
  | JArr l => match l with [] => false | _ => true end
  | JObj m => match map_to_list m with [] => false | _ => true end
  end.

(** [a or b] *)
Definition py_or (a b : json) : json := if truthy a then a else b.

(** The number a value stands for in arithmetic and comparisons ([bool] is a
    subclass of [int]); [None] for the values on which they raise TypeError. *)
Definition py_num (v : json) : option Q :=
  match v with
  | JBool b => Some (if b then 1 else 0)%Q
  | JInt n => Some (inject_Z n)
  | JFloat q => Some q
  | _ => None
  end.

(** [a > v] for a number [a]. *)
Definition py_gt (a : Q) (v : json) : outcome bool :=
  match py_num v with
  | Some q => Ok (if Qlt_le_dec q a then true else false)
  | None => Raise
  end.

(** [v == n] for an integer literal [n]. *)
Definition py_eq_int (v : option json) (n : Z) : bool :=
  match v with
  | Some x => match py_num x with
              | Some q => Qeq_bool q (inject_Z n)
              | None => false
              end
  | None => false
  end.

(** [d.get(k, dflt)]: only a dict has [get]. *)
Definition py_get (d : json) (k : string) (dflt : json) : outcome json :=
  match d with
  | JObj m => Ok (default dflt (m !! k))
  | _ => Raise
  end.

(** [d[k]] for a string key. *)
Definition py_item (d : json) (k : string) : outcome json :=
  match d with
  | JObj m => of_option (m !! k)
  | _ => Raise
  end.

(** [v[0]] *)
Definition py_index0 (v : json) : outcome json :=
  match v with
  | JArr (x :: _) => Ok x
  | JStr (String c _) => Ok (JStr (String c ""))
  | _ => Raise
  end.

Fixpoint chars (s : string) : list json :=
  match s with
  | EmptyString => []
  | String c r => JStr (String c "") :: chars r
  end.

(** [for x in v]: the elements of a list, the characters of a string, the
    keys of a dict. *)
Definition py_iter (v : json) : outcome (list json) :=
  match v with
  | JArr l => Ok l
  | JStr s => Ok (chars s)
  | JObj m => Ok (JStr <$> (map_to_list m).*1)
  | _ => Raise
  end.

(** Truncation toward zero, [int(x)] of a float. *)
Definition Qtrunc (q : Q) : Z := Z.quot (Qnum q) (Zpos (Qden q)).

(** [round(x, 2)] of a float: to the nearest multiple of 1/100, ties to even. *)
Definition round_half_even (q : Q) : Z :=
  let f := Qfloor q in
  match (q - inject_Z f) ?= (1 # 2) with
  | Lt => f
  | Gt => (f + 1)%Z
  | Eq => if Z.even f then f else (f + 1)%Z
  end%Q.

Definition round2 (q : Q) : Q := (inject_Z (round_half_even (q * 100)) / 100)%Q.

(** ** The world: files, caches, clock, random generator *)

(** [PREF_FILE]: absent, unreadable or not JSON ([read_bytes] or
    [orjson.loads] raises), or holding a JSON value. *)
Inductive file_state : Type :=
  | NoFile
  | Unreadable
  | Holds (j : json).

(** A crowd CSV on disk: absent, present but rejected by [pd.read_csv], or
    loaded as a DataFrame. *)
Inductive csv_state (F : Type) : Type :=
  | CsvMissing
  | CsvBroken
  | CsvData (f : F).
Arguments CsvMissing {F}.
Arguments CsvBroken {F}.
Arguments CsvData {F} f.

(** The DataFrames are owned by pandas; the program only evaluates one query
    on each: the mean of a column over the rows selected by a key.  A query
    may raise (missing column, wrong cell type); [Ok None] is NaN, the mean of
    an empty selection. *)
Record sub_frame : Type := {
  (* df.loc[(df.DAY_CODE == day) & (df.STATION_NM == station)
            & (df.HHMM == hhmm), "CONGEST_PCT"].mean() *)
  congest_pct_mean : Z -> json -> string -> outcome (option Q)
}.

Record bus_frame : Type := {
  (* df.loc[(df.ROUTE_ID == rid) & (df.HH == hour), "BOARD_NUM"].mean() *)
  board_num_mean : Z -> Z -> outcome (option Q)
}.

Record datetime : Type := {
  weekday : Z;
  hour : Z;
  minute : Z
}.

(** What [save_prefs] meets.  [orjson.dumps] raises on a dict it cannot
    serialise (an int beyond 64 bits, for one) and [write_bytes] raises when
    the file cannot be opened; both leave the file as it was.  A write that
    fails midway leaves a truncated file, which no longer parses. *)
Inductive write_result : Type :=
  | Written
  | Refused
  | Torn.

Record World : Type := {
  pref_file : file_state;
  (* what happens when this dict is serialised and written to PREF_FILE *)
  pref_write : gmap string json -> write_result;
  subway_csv : csv_state sub_frame;
  bus_csv : csv_state bus_frame;
  _sub_df : option sub_frame;
  _bus_df : option bus_frame;
  clock : datetime;
  (* the draws of the random generator, and how many were consumed *)
  rng : nat -> Z;
  rng_pos : nat
}.

Definition M (A : Type) : Type := World -> outcome A * World.

Definition ret {A} (a : A) : M A := fun w => (Ok a, w).

Definition raise {A} : M A := fun w => (Raise, w).

Definition bind {A B} (m : M A) (k : A -> M B) : M B :=
  fun w => match m w with
           | (Ok a, w') => k a w'
           | (Raise, w') => (Raise, w')
           end.

Definition lift {A} (o : outcome A) : M A := fun w => (o, w).

(** [try: m  except: h] *)
Definition try_except {A} (m : M A) (h : M A) : M A :=
  fun w => match m w with
           | (Ok a, w') => (Ok a, w')
           | (Raise, w') => h w'
           end.

Notation "'let!' x ':=' m 'in' k" := (bind m (fun x => k))
  (at level 10, x name, m at level 100, k at level 200).

(** The conversions of Python that are not decided by the shape of the JSON
    value: [float(s)] and [int(s)] of a string ([None]: ValueError), and
    [dict(l)] of a non-empty list, which builds a dict from key/value pairs
    ([None]: it raises, or a key is not a string, in which case [save_prefs]
    cannot serialise the result and the caller raises all the same).  The
    development holds for every behaviour of these three. *)
Class Builtins : Type := {
  str_float : string -> option Q;
  str_int : string -> option Z;
  seq_dict : list json -> option (gmap string json)
}.

Section Model.

Context `{Builtins}.

(** [float(v)] *)
Definition py_float (v : json) : outcome Q :=
  match v with
  | JBool _ | JInt _ | JFloat _ => of_option (py_num v)
  | JStr s => of_option (str_float s)
  | _ => Raise
  end.

(** [int(v)] *)
Definition py_int (v : json) : outcome Z :=
  match v with
  | JBool b => Ok (if b then 1 else 0)%Z
  | JInt n => Ok n
  | JFloat q => Ok (Qtrunc q)
  | JStr s => of_option (str_int s)
  | _ => Raise
  end.

(** [dict(v)] *)
Definition py_dict (v : json) : outcome (gmap string json) :=
  match v with
  | JObj m => Ok m
  | JArr [] => Ok ∅
  | JArr l => of_option (seq_dict l)
  | JStr s => if String.eqb s "" then Ok ∅ else Raise
  | _ => Raise
  end.

(** [round(v, 2)]: an int is returned as it is. *)
Definition py_round2 (v : json) : outcome Q :=
  match v with
  | JBool _ | JInt _ => of_option (py_num v)
  | JFloat q => Ok (round2 q)
  | _ => Raise
  end.

(** ** Preferences *)

Definition DEFAULT_BIAS : gmap string json :=
  {[ "SUBWAY" := JFloat 0; "BUS" := JFloat 0; "WALK" := JFloat 0 ]}.

Definition DEFAULT_PREFS : gmap string json :=
  {[ "crowd_weight" := JFloat 2;
     "max_crowd" := JInt 4;
     "walk_limit_min" := JInt 15;
     "mode_bias" := JObj DEFAULT_BIAS;
     "runs" := JInt 0 ]}.

(** One entry of the migrated bias:
    [float(pref.get(m, 0.0)) - float(pen.get(m, 0.0))]. *)
Definition migrated (pref pen : json) (m : string) : outcome json :=
  let? x := py_get pref m (JFloat 0) in
  let? a := py_float x in
  let? y := py_get pen m (JFloat 0) in
  let? b := py_float y in
  Ok (JFloat (a - b)).

Definition _migrate_bias (p : gmap string json) : outcome (gmap string json) :=
  match p !! "mode_bias" with
  | Some _ => Ok p
  | None =>
      let pen := py_or (default JNull (p !! "mode_penalty")) (JObj ∅) in
      let pref := py_or (default JNull (p !! "mode_preference")) (JObj ∅) in
      let? s := migrated pref pen "SUBWAY" in
      let? b := migrated pref pen "BUS" in
      let? k := migrated pref pen "WALK" in
      Ok (<["mode_bias" := JObj {[ "SUBWAY" := s; "BUS" := b; "WALK" := k ]}]> p)
  end.

Definition load_prefs : M (gmap string json) :=
  fun w =>
    (* try: ... except Exception: data = {} *)
    let data := match pref_file w with
                | Holds j => j
                | NoFile | Unreadable => JObj ∅
                end in
    (* {**DEFAULT_PREFS, **(data or {})}: TypeError unless a mapping *)
    match py_or data (JObj ∅) with
    | JObj m => (_migrate_bias (m ∪ DEFAULT_PREFS), w)
    | _ => (Raise, w)
    end.

Definition set_pref_file (f : file_state) (w : World) : World :=
  {| pref_file := f; pref_write := pref_write w;
     subway_csv := subway_csv w; bus_csv := bus_csv w;
     _sub_df := _sub_df w; _bus_df := _bus_df w;
     clock := clock w; rng := rng w; rng_pos := rng_pos w |}.

Definition set_sub_df (df : option sub_frame) (w : World) : World :=
  {| pref_file := pref_file w; pref_write := pref_write w;
     subway_csv := subway_csv w; bus_csv := bus_csv w;
     _sub_df := df; _bus_df := _bus_df w;
     clock := clock w; rng := rng w; rng_pos := rng_pos w |}.

Definition set_bus_df (df : option bus_frame) (w : World) : World :=
  {| pref_file := pref_file w; pref_write := pref_write w;
     subway_csv := subway_csv w; bus_csv := bus_csv w;
     _sub_df := _sub_df w; _bus_df := df;
     clock := clock w; rng := rng w; rng_pos := rng_pos w |}.

Definition set_rng_pos (n : nat) (w : World) : World :=
  {| pref_file := pref_file w; pref_write := pref_write w;
     subway_csv := subway_csv w; bus_csv := bus_csv w;
     _sub_df := _sub_df w; _bus_df := _bus_df w;
     clock := clock w; rng := rng w; rng_pos := n |}.

(** [PREF_FILE.write_bytes(orjson.dumps(prefs, ...))]: raises when the dict
    cannot be serialised or the file cannot be written; after a successful
    write the file holds the dict. *)
Definition save_prefs (prefs : gmap string json) : M unit :=
  fun w =>
    match pref_write w prefs with
    | Written => (Ok tt, set_pref_file (Holds (JObj prefs)) w)
    | Refused => (Raise, w)
    | Torn => (Raise, set_pref_file Unreadable w)
    end.

(** ** Segments and scoring *)

Record Segment : Type := {
  mode : string;
  name : json;
  distance_m : json;
  duration_min : Q;
  crowd : Z;
  best_car : option Z;
  poly : list (Q * Q)
}.

(** The body of [for s in segs] in [score_route], with the two accumulators. *)
Fixpoint score_loop (prefs : gmap string json) (bias : json) (crowd_w : Q)
    (segs : list Segment) (score total_walk_min : Q) : outcome (Q * Q) :=
  match segs with
  | [] => Ok (score, total_walk_min)
  | s :: rest =>
      let total_walk_min :=
        if String.eqb (mode s) "WALK" then (total_walk_min + duration_min s)%Q
        else total_walk_min in
      let score := (score + duration_min s)%Q in
      let? x := py_get bias (mode s) (JFloat 0) in
      let? b := py_float x in
      let score := (score - b)%Q in
      let score := (score + crowd_w * inject_Z (crowd s - 1))%Q in
      let? over := py_gt (inject_Z (crowd s)) (default (JInt 4) (prefs !! "max_crowd")) in
      let score := if over : bool then (score + 1000)%Q else score in
      score_loop prefs bias crowd_w rest score total_walk_min
  end.

(** The body of [score_route] once [prefs] is merged. *)
Definition score_with (prefs : gmap string json) (segs : list Segment) : outcome Q :=
  let bias := default (JObj ∅) (prefs !! "mode_bias") in
  let? crowd_w := py_float (default (JFloat 0) (prefs !! "crowd_weight")) in
  let? acc := score_loop prefs bias crowd_w segs 0 0 in
  let? over := py_gt (snd acc) (default (JInt 15) (prefs !! "walk_limit_min")) in
  Ok (if over : bool then (fst acc + 999)%Q else fst acc).

(** [prefs = load_prefs()], or [{**load_prefs(), **prefs}] when given. *)
Definition merged_prefs (stored : gmap string json)
    (prefs : option (gmap string json)) : gmap string json :=
  match prefs with
  | None => stored
  | Some p => p ∪ stored
  end.

Definition score_route (segs : list Segment) (prefs : option (gmap string json)) : M Q :=
  let! stored := load_prefs in
  lift (score_with (merged_prefs stored prefs) segs).

(** ** Selection *)

Definition scored_route : Type := Q * Z * list Segment.

Definition key (x : scored_route) : Q := fst (fst x).

(** [scored.sort(key=lambda x: x[0])]: a stable sort.  Insertion from the right
    puts an element before the first one whose key is not smaller, so equal
    keys keep their original order. *)
Fixpoint insert_by_score (x : scored_route) (l : list scored_route) : list scored_route :=
  match l with
  | [] => [x]
  | y :: r =>
      if Qlt_le_dec (fst (fst y)) (fst (fst x)) then y :: insert_by_score x r
      else x :: y :: r
  end.

Fixpoint sort_by_score (l : list scored_route) : list scored_route :=
  match l with
  | [] => []
  | x :: r => insert_by_score x (sort_by_score r)
  end.

(** [[(score_route(r, prefs=prefs), i + 1, r) for i, r in enumerate(routes)]],
    from index [i] on. *)
Fixpoint score_all (routes : list (list Segment)) (prefs : option (gmap string json))
    (i : Z) : M (list scored_route) :=
  match routes with
  | [] => ret []
  | r :: rest =>
      let! s := score_route r prefs in
      let! tl := score_all rest prefs (i + 1) in
      ret ((s, (i + 1)%Z, r) :: tl)
  end.

Definition choose_best_route (routes : list (list Segment))
    (prefs : option (gmap string json)) : M (Z * list Segment) :=
  match routes with
  | [] => ret ((-1)%Z, [])
  | _ =>
      let! scored := score_all routes prefs 0 in
      match sort_by_score scored with
      | (_, best_idx, best_route) :: _ => ret (best_idx, best_route)
      | [] => raise
      end
  end.

(** ** Learning *)

(** [min(a, v)] and [max(a, v)] for a float [a]: [v] itself is returned when it
    is strictly smaller (larger), TypeError when [v] is not a number. *)
Definition py_min_float (a : Q) (v : json) : outcome json :=
  match py_num v with
  | Some q => Ok (if Qlt_le_dec q a then v else JFloat a)
  | None => Raise
  end.

Definition py_max_float (a : Q) (v : json) : outcome json :=
  match py_num v with
  | Some q => Ok (if Qlt_le_dec a q then v else JFloat a)
  | None => Raise
  end.

(** [max(-10.0, min(10.0, v))] *)
Definition clamp (v : json) : outcome json :=
  let? lo := py_min_float 10 v in
  py_max_float (-10) lo.

(** [for m in bias: bias[m] = max(-10.0, min(10.0, bias[m]))] *)
Definition clamp_all (bias : gmap string json) : outcome (gmap string json) :=
  map_fold (fun m v acc =>
              let? done := acc in
              let? c := clamp v in
              Ok (<[m := c]> done))
           (Ok ∅) bias.

(** [{s.get("mode") for s in segs}] *)
Definition used_modes (segs : list Segment) : gset string := list_to_set (mode <$> segs).

(** One round of [for m in ("SUBWAY", "BUS", "WALK")]. *)
Definition nudge (used : gset string) (lr : Q) (bias : gmap string json)
    (m : string) : outcome (gmap string json) :=
  let? b := py_float (default (JFloat 0) (bias !! m)) in
  Ok (<[m := JFloat (if bool_decide (m ∈ used) then b + lr else b - lr / 2)%Q]> bias).

(** The body of [learn_from_choice] between loading and saving. *)
Definition learn_update (prefs : gmap string json) (segs : list Segment) (lr : Q)
    : outcome (gmap string json) :=
  let? bias := py_dict (default (JObj DEFAULT_BIAS) (prefs !! "mode_bias")) in
  let used := used_modes segs in
  let? b1 := nudge used lr bias "SUBWAY" in
  let? b2 := nudge used lr b1 "BUS" in
  let? b3 := nudge used lr b2 "WALK" in
  let? bias := clamp_all b3 in
  let prefs := <["mode_bias" := JObj bias]> prefs in
  let? runs := py_int (default (JInt 0) (prefs !! "runs")) in
  Ok (<["runs" := JInt (runs + 1)]> prefs).

Definition learn_from_choice (segs : list Segment) (lr : Q) : M (gmap string json) :=
  let! prefs := load_prefs in
  let! prefs := lift (learn_update prefs segs lr) in
  let! saved := save_prefs prefs in
  ret prefs.

(** [n] successive calls of [learn_from_choice] on the same chosen route;
    the result of the last one, [last] when there was none. *)
Fixpoint learn_repeatedly (n : nat) (segs : list Segment) (lr : Q)
    (last : option (gmap string json)) : M (option (gmap string json)) :=
  match n with
  | O => ret last
  | S k =>
      let! p := learn_from_choice segs lr in
      learn_repeatedly k segs lr (Some p)
  end.

(** ** Crowd estimators *)

Definition AVG_WALK_SPEED : Q := 1.3.

Definition DAY_TYPE (d : Z) : outcome Z :=
  if ((0 <=? d) && (d <=? 4))%Z then Ok 1%Z
  else if (d =? 5)%Z then Ok 2%Z
  else if (d =? 6)%Z then Ok 3%Z
  else Raise.

Definition _load_sub_df : M sub_frame :=
  fun w =>
    match _sub_df w with
    | Some df => (Ok df, w)
    | None =>
        match subway_csv w with
        | CsvMissing => (Raise, w)          (* raise FileNotFoundError *)
        | CsvBroken => (Raise, w)           (* pd.read_csv raises *)
        | CsvData df => (Ok df, set_sub_df (Some df) w)
        end
    end.

Definition _load_bus_df : M (option bus_frame) :=
  fun w =>
    match _bus_df w with
    | Some df => (Ok (Some df), w)
    | None =>
        match bus_csv w with
        | CsvMissing => (Ok None, w)
        | CsvBroken => (Raise, w)           (* pd.read_csv raises *)
        | CsvData df => (Ok (Some df), set_bus_df (Some df) w)
        end
    end.

Definition pct_to_level (pct : Q) : Z :=
  if Qlt_le_dec pct 70 then 1
  else if Qlt_le_dec pct 100 then 2
  else if Qlt_le_dec pct 150 then 3
  else 4.

Definition digit (n : Z) : string :=
  String (Ascii.ascii_of_nat (48 + Z.to_nat (n mod 10))) "".

(** [strftime("%H%M")] *)
Definition strftime_HHMM (h m : Z) : string :=
  digit (h / 10) ++ digit h ++ digit (m / 10) ++ digit m.

Definition random_draw : M Z :=
  fun w => (Ok (rng w (rng_pos w)), set_rng_pos (S (rng_pos w)) w).

(** [random.choice([a, b])] *)
Definition random_choice (a b : Z) : M Z :=
  let! r := random_draw in
  ret (if Z.even r then a else b).

(** [random.randint(lo, hi)] *)
Definition random_randint (lo hi : Z) : M Z :=
  let! r := random_draw in
  ret (lo + r mod (hi - lo + 1))%Z.

Definition subway_crowd_level (station : json) (now : datetime) : M (Z * Z) :=
  let! lvl :=
    try_except
      (let! df := _load_sub_df in
       let! day := lift (DAY_TYPE (weekday now)) in
       let hhmm := strftime_HHMM (hour now) (if (minute now <? 30)%Z then 0 else 30) in
       let! pct := lift (congest_pct_mean df day station hhmm) in
       ret (match pct with
            | Some p => pct_to_level p
            | None => 2%Z
            end))
      (ret 2%Z) in
  let! best :=
    (if (3 <=? lvl)%Z then random_choice 1 10
     else if (lvl =? 2)%Z then random_choice 2 9
     else random_randint 1 10) in
  ret (lvl, best).

Definition bus_crowd_level (route_id : json) (now : datetime) : M Z :=
  let! df := _load_bus_df in
  match df with
  | None => ret 2%Z
  | Some df =>
      try_except
        (let! rid := lift (py_int route_id) in
         let! b := lift (board_num_mean df rid (hour now)) in
         ret (match b with
              | None => 2%Z
              | Some b =>
                  if Qlt_le_dec b 10 then 1%Z
                  else if Qlt_le_dec b 25 then 2%Z
                  else if Qlt_le_dec b 40 then 3%Z
                  else 4%Z
              end))
        (ret 2%Z)
  end.

(** ** Segment builder *)

(** The variables a branch of [paths_to_segs] sets for one leg. *)
Record leg_vars : Type := {
  v_mode : string;
  v_name : json;
  v_dur : json;
  v_dist : json;
  v_crowd : Z;
  v_best : option Z
}.

Definition allowed : list string := ["SUBWAY"; "BUS"; "WALK"].

Definition classify (sp : gmap string json) (now : datetime) : M leg_vars :=
  let tp := sp !! "trafficType" in
  if py_eq_int tp 1 then
    let! lane0 := lift (py_index0 (default (JArr [JObj ∅]) (sp !! "lane"))) in
    let! name := lift (let? a := py_get lane0 "laneName" JNull in
                       let? b := py_get lane0 "name" JNull in
                       let? c := py_get lane0 "subwayName" JNull in
                       Ok (py_or (py_or (py_or a b) c) (JStr ""))) in
    let dur := default (JInt 0) (sp !! "sectionTime") in
    let dist := default (JInt 0) (sp !! "distance") in
    let! cb := subway_crowd_level name now in
    ret {| v_mode := "SUBWAY"; v_name := name; v_dur := dur; v_dist := dist;
           v_crowd := fst cb; v_best := Some (snd cb) |}
  else if py_eq_int tp 2 then
    let! name := lift (let? lane := of_option (sp !! "lane") in
                       let? lane0 := py_index0 lane in
                       py_item lane0 "busNo") in
    let! dur := lift (of_option (sp !! "sectionTime")) in
    let! dist := lift (of_option (sp !! "distance")) in
    let! rid := lift (let? lane := of_option (sp !! "lane") in
                      let? lane0 := py_index0 lane in
                      py_get lane0 "busID" (JStr "")) in
    let! crowd := bus_crowd_level rid now in
    ret {| v_mode := "BUS"; v_name := name; v_dur := dur; v_dist := dist;
           v_crowd := crowd; v_best := None |}
  else
    let dist := default (JInt 0) (sp !! "distance") in
    let! d := lift (of_option (py_num dist)) in
    ret {| v_mode := "WALK"; v_name := JStr "도보"; v_dur := JFloat (d / AVG_WALK_SPEED / 60);
           v_dist := dist; v_crowd := 1; v_best := None |}.

(** [(float(x["y"]), float(x["x"]))] *)
Definition coord (x : json) : outcome (Q * Q) :=
  let? y := py_item x "y" in
  let? fy := py_float y in
  let? x' := py_item x "x" in
  let? fx := py_float x' in
  Ok (fy, fx).

Fixpoint coords_of (xs : list json) : outcome (list (Q * Q)) :=
  match xs with
  | [] => Ok []
  | x :: r =>
      let? c := coord x in
      let? cs := coords_of r in
      Ok (c :: cs)
  end.

(** The body of [for sp in paths]: [None] is [continue]. *)
Definition build_leg (sp : gmap string json) (now : datetime) : M (option Segment) :=
  let! v := classify sp now in
  if negb (existsb (String.eqb (v_mode v)) allowed) then ret None
  else
    let! coords := lift (let? stops := py_get (default (JObj ∅) (sp !! "passStopList"))
                                              "stations" (JArr []) in
                         let? xs := py_iter stops in
                         coords_of xs) in
    let! dur := lift (py_round2 (v_dur v)) in
    ret (Some {| mode := v_mode v; name := v_name v; distance_m := v_dist v;
                 duration_min := dur; crowd := v_crowd v; best_car := v_best v;
                 poly := coords |}).

Fixpoint build_legs (paths : list (gmap string json)) (now : datetime) : M (list Segment) :=
  match paths with
  | [] => ret []
  | sp :: rest =>
      let! seg := build_leg sp now in
      let! segs := build_legs rest now in
      ret (match seg with
           | Some s => s :: segs
           | None => segs
           end)
  end.

Definition paths_to_segs (paths : list (gmap string json))
    (prefs : option (gmap string json)) : M (list Segment) :=
  fun w =>
    let now := clock w in
    (let! prefs := match prefs with
                   | None => load_prefs
                   | Some p => ret p
                   end in
     build_legs paths now) w.

End Model.

(** ** The cost of a route as the specification words it

    Per segment: [duration_min - mode_bias[mode] + crowd_weight * (crowd - 1)],
    plus 1000 when [crowd > max_crowd]; once per route, 999 when the summed WALK
    duration exceeds [walk_limit_min]. *)







(** The same segment with its crowd level replaced. *)
Definition with_crowd (s : Segment) (c : Z) : Segment :=
  {| mode := mode s; name := name s; distance_m := distance_m s;
     duration_min := duration_min s; crowd := c; best_car := best_car s;
     poly := poly s |}.

(** [max(-10.0, min(10.0, x))] on numbers. *)
Definition clampQ (x : Q) : Q :=
  if Qlt_le_dec x 10 then (if Qlt_le_dec (-10) x then x else (-10)%Q) else 10%Q.

(** Whether some chosen segment has the mode [m]. *)
Definition rides (segs : list Segment) (m : string) : bool :=
  existsb (fun s => String.eqb (mode s) m) segs.

(** What one call of [learn_from_choice] does to the bias [y] of mode [m]:
    plus [lr] when a chosen segment has the mode, minus [lr / 2] when none
    has, then the clamp. *)
Definition bias_step (segs : list Segment) (lr : Q) (m : string) (y : Q) : Q :=
  clampQ (if rides segs m then y + lr else y - lr / 2)%Q.

(** The preferences file holds [p], whose biases are all numbers between -10
    and 10, with the number [f m] for each of the three modes [m], and whose
    [runs] is an int. *)
Definition biased (w : World) (p : gmap string json) (f : string -> Q) : Prop :=
  pref_file w = Holds (JObj p) /\
  exists (bias : gmap string json) (r : Z),
    p !! "mode_bias" = Some (JObj bias) /\
    p !! "runs" = Some (JInt r) /\
    (forall k v, bias !! k = Some v ->
       exists q, py_num v = Some q /\ (-10 <= q <= 10)%Q) /\
    (forall m, In m allowed -> bias !! m = Some (JFloat (f m))).

(** The mode [paths_to_segs] gives a leg: every traffic type other than 1 and
    2 falls into the last branch. *)
Definition leg_mode (sp : gmap string json) : string :=
  if py_eq_int (sp !! "trafficType") 1 then "SUBWAY"
  else if py_eq_int (sp !! "trafficType") 2 then "BUS"
  else "WALK".

(** A number as the clamp leaves it: the bound itself or strictly inside. *)
Definition clamped (x : Q) : Prop :=
  (x = 10%Q \/ (x < 10)%Q) /\ (x = (-10)%Q \/ (-10 < x)%Q).

(** What [load_prefs] merges over the defaults: nothing when the file is
    absent, unreadable or holds a falsy value, the stored object otherwise;
    [None] when the file holds a truthy value that is not an object. *)
Definition stored_object (f : file_state) : option (gmap string json) :=
  match f with
  | NoFile | Unreadable => Some ∅
  | Holds j =>
      if truthy j then match j with JObj m => Some m | _ => None end
      else Some ∅
  end.

(** ** The scoring loop in double precision

    A Python float is an IEEE 754 binary64 number and every operation on floats
    rounds to nearest, ties to even; so does the kernel's [float].
    [score_route_f64] is the body of [score_route] on these numbers, for
    preferences that have been read already: [f_mode_bias m] is
    [float(bias.get(m, 0.0))], [f_crowd_weight] is
    [float(prefs.get("crowd_weight", 0.0))], [f_max_crowd] and
    [f_walk_limit_min] are [prefs.get("max_crowd", 4)], an int, and
    [prefs.get("walk_limit_min", 15)]. *)






(** The bias update of [learn_from_choice] on doubles:
    [float(bias.get(m, 0.0)) + lr], or [- lr/2.0] for a mode that was not
    used, then [max(-10.0, min(10.0, b))]. *)
Definition nudge_f64 (used : bool) (lr b : float) : float :=
  if used then (b + lr)%float else (b - lr / 2)%float.

Definition clamp_f64 (b : float) : float :=
  let lo := if (b <? 10)%float then b else 10%float in
  if (-10 <? lo)%float then lo else (-10)%float.






(** ** Concrete data for the examples *)

(** Stand-in conversions for runs in which no string is converted and no
    list is turned into a dict. *)
Definition no_conversion : Builtins :=
  {| str_float := fun _ => None; str_int := fun _ => None; seq_dict := fun _ => None |}.

Definition monday_morning : datetime := {| weekday := 0; hour := 8; minute := 15 |}.

(** A machine with the given preferences file, on which every dict can be
    written, with no crowd tables and cold caches. *)
Definition world_with (f : file_state) : World :=
  {| pref_file := f; pref_write := fun _ => Written;
     subway_csv := CsvMissing; bus_csv := CsvMissing;
     _sub_df := None; _bus_df := None;
     clock := monday_morning; rng := fun _ => 0%Z; rng_pos := 0 |}.

Definition leg (m : string) (minutes : Q) (c : Z) : Segment :=
  {| mode := m; name := JStr ""; distance_m := JInt 0; duration_min := minutes;
     crowd := c; best_car := None; poly := [] |}.

Definition example_segs : list Segment :=
  [leg "SUBWAY" 10 2; leg "WALK" 5 1; leg "BUS" 8 3].

(** Three candidates: the example route, a short walk, a short bus ride. *)
Definition example_routes : list (list Segment) :=
  [example_segs; [leg "WALK" 5 1]; [leg "BUS" 5 1]].

(** Preferences after many rides by subway only. *)
Definition saturated_prefs : gmap string json :=
  {[ "mode_bias" := JObj {[ "SUBWAY" := JFloat 10; "BUS" := JFloat (-10);
                             "WALK" := JFloat (-10) ]};
     "runs" := JInt 40 ]}.

(** A preferences file that stores a bias for one mode only. *)
Definition partial_bias_file : file_state :=
  Holds (JObj {[ "mode_bias" := JObj {[ "SUBWAY" := JFloat 1 ]} ]}).

(** A machine whose crowd CSVs exist but are rejected by [pd.read_csv]
    (empty files, for instance). *)
Definition broken_csv_world : World :=
  {| pref_file := NoFile; pref_write := fun _ => Written;
     subway_csv := CsvBroken; bus_csv := CsvBroken;
     _sub_df := None; _bus_df := None;
     clock := monday_morning; rng := fun _ => 0%Z; rng_pos := 0 |}.

(** A leg by train, traffic type 4 of the provider's inter-city search. *)
Definition train_leg : gmap string json :=
  {[ "trafficType" := JInt 4; "sectionTime" := JInt 20; "distance" := JInt 1300 ]}.

Definition example_prefs (max_crowd : Z) : gmap string json :=
  {[ "crowd_weight" := JInt 2;
     "max_crowd" := JInt max_crowd;
     "walk_limit_min" := JInt 15;
     "mode_bias" := JObj DEFAULT_BIAS ]}.

(** ** The candidate list of the UI and its summaries ([plannerui.py]) *)

(** [[r for i, r in enumerate(routes, 1) if i != best_idx]], from index [i]. *)
Fixpoint others_from (i best_idx : Z) (routes : list (list Segment))
    : list (list Segment) :=
  match routes with
  | [] => []
  | r :: rest =>
      if (i =? best_idx)%Z then others_from (i + 1) best_idx rest
      else r :: others_from (i + 1) best_idx rest
  end.

(** The re-ranking after a search: the best route first, the others in their
    order. *)
Definition rank_candidates `{Builtins} (routes : list (list Segment))
    (prefs : option (gmap string json)) : M (list (list Segment)) :=
  let! best := choose_best_route routes prefs in
  ret (if (fst best =? -1)%Z then routes
       else snd best :: others_from 1 (fst best) routes).

(** [sum(1 for j in range(1, len(route))
         if route[j]["mode"] != route[j-1]["mode"])] *)
Fixpoint transfers (route : list Segment) : nat :=
  match route with
  | a :: rest =>
      match rest with
      | b :: _ => ((if String.eqb (mode b) (mode a) then 0 else 1) + transfers rest)%nat
      | [] => 0%nat
      end
  | [] => 0%nat
  end.

(** ** Map drawing *)

Definition hex_digit (d : Z) : string :=
  String (Ascii.ascii_of_nat (Z.to_nat (if (d <? 10)%Z then 48 + d else 87 + d))) "".

Fixpoint hex_digits (fuel : nat) (n : Z) : string :=
  match fuel with
  | O => ""
  | S k =>
      if (n <? 16)%Z then hex_digit n
      else hex_digits k (n / 16) ++ hex_digit (n mod 16)
  end.

(** [f"{n:02x}"] *)
Definition format_02x (n : Z) : string :=
  if (n <? 0)%Z then "-" ++ hex_digits (S (Z.to_nat (Z.log2 (- n)))) (- n)
  else
    let h := hex_digits (S (Z.to_nat (Z.log2 n))) n in
    if (String.length h <? 2)%nat then "0" ++ h else h.

Definition crowd_gradient_color (level max_level : Z) : outcome string :=
  if (max_level - 1 =? 0)%Z then Raise           (* ZeroDivisionError *)
  else
    let ratio := (inject_Z (Z.max 0 (Z.min (level - 1) (max_level - 1)))
                  / inject_Z (max_level - 1))%Q in
    let r := Qtrunc (255 * ratio) in
    let g := Qtrunc (255 * (1 - ratio)) in
    Ok ("#" ++ format_02x r ++ format_02x g ++ "00").

Definition SUBWAY_LINE_COLORS : list (string * string) :=
  [ ("1호선", "#0052A4"); ("2호선", "#00A84D"); ("3호선", "#EF7C1C");
    ("4호선", "#00A2E3"); ("5호선", "#996CAC"); ("6호선", "#CD7C2F");
    ("7호선", "#747F00"); ("8호선", "#C3002F"); ("9호선", "#BDB092");
    ("경의중앙선", "#77C7C4"); ("공항철도", "#0090D2"); ("경춘선", "#0C8040");
    ("수인선", "#FAAFBE"); ("신분당선", "#DB005B"); ("우이신설선", "#B0D840");
    ("의정부경전철", "#B0B0B0") ].

Definition BUS_COLOR : string := "#006400".
Definition WALK_COLOR : string := "#555555".
Definition OUTER_LINE_WEIGHT : Z := 15.
Definition CENTER_LINE_WEIGHT : Z := 2.

(** [CROWD_COLOR.get(crowd, "blue")] *)
Definition crowd_color (c : Z) : string :=
  if (c =? 1)%Z then "green"
  else if (c =? 2)%Z then "yellow"
  else if (c =? 3)%Z then "orange"
  else if (c =? 4)%Z then "red"
  else "blue".

(** [a in b] on strings. *)
Fixpoint infix (a b : string) : bool :=
  String.prefix a b ||
  match b with
  | EmptyString => false
  | String _ r => infix a r
  end.

(** [k in v] for a string [k]: substring of a string, element of a list, key
    of a dict; TypeError on the values that are not containers. *)
Definition py_contains (v : json) (k : string) : outcome bool :=
  match v with
  | JStr s => Ok (infix k s)
  | JArr l => Ok (existsb (fun x => match x with
                                    | JStr s => String.eqb s k
                                    | _ => false
                                    end) l)
  | JObj m => Ok (bool_decide (is_Some (m !! k)))
  | _ => Raise
  end.

(** [v in k] for a string [k]: the left operand must be a string. *)
Definition py_in_str (v : json) (k : string) : outcome bool :=
  match v with
  | JStr s => Ok (infix s k)
  | _ => Raise
  end.

(** [SUBWAY_LINE_COLORS[v]] *)
Definition line_color_item (v : json) : outcome string :=
  match v with
  | JStr s =>
      of_option (snd <$> List.find (fun kc => String.eqb (fst kc) s) SUBWAY_LINE_COLORS)
  | _ => Raise
  end.

(** [for k in SUBWAY_LINE_COLORS.keys()] of [draw_map], over the rest [table]
    of the keys; [outer_color] is [None] while the variable is unbound. *)
Fixpoint line_color (table : list (string * string)) (name : json)
    (outer_color : option string) : outcome (option string) :=
  match table with
  | [] => Ok outer_color
  | (k, c) :: rest =>
      let? hit := py_contains name k in
      if hit : bool then line_color rest name (Some c)
      else
        let? part := py_in_str name k in
        if part : bool then
          let? c' := line_color_item name in
          line_color rest name (Some c')
        else line_color rest name outer_color
  end.

(** The choice of the outline colour of one segment. *)
Definition choose_outer_color (seg : Segment) (outer_color : option string)
    : outcome (option string) :=
  if String.eqb (mode seg) "SUBWAY" then line_color SUBWAY_LINE_COLORS (name seg) outer_color
  else if String.eqb (mode seg) "BUS" then Ok (Some BUS_COLOR)
  else Ok (Some WALK_COLOR).

(** The values a tooltip interpolates:
    [f"{idx}. {mode} ({name}): {duration:.1f}분 | 혼잡도 {crowd}"], followed by
    [f" | 추천칸 {best_car}"] when [best_car] is truthy. *)
Record tooltip : Type := {
  tip_idx : Z;
  tip_mode : string;
  tip_name : json;
  tip_duration : Q;
  tip_crowd : Z;
  tip_best_car : option Z
}.

Inductive popup : Type :=
  | PopText (s : string)
  (* f"환승 {transfer_count}: {prev_mode}→{mode}" *)
  | PopTransfer (transfer_count : Z) (prev_mode mode : string).

(** What is added to the folium map; [TileLayer] is the layer that
    [folium.Map] itself adds for its default tiles. *)
Inductive layer : Type :=
  | TileLayer (tiles : string)
  | Marker (location : Q * Q) (pop : popup) (icon_color icon : string)
  | PolyLine (locations : list (Q * Q)) (color : string) (weight : Z)
             (opacity : Q) (tip : tooltip)
  (* tooltip f"혼잡도 {crowd}: {duration:.1f}분" *)
  | CircleMarker (location : Q * Q) (radius : Z) (color : string)
                 (tip_crowd : Z) (tip_duration : Q)
  | LayerControl.

Record folium_map : Type := {
  location : Q * Q;
  zoom_start : Z;
  children : list layer
}.

(** The variables the loop of [draw_map] carries from one segment to the
    next. *)
Record draw_state : Type := {
  prev_mode : option string;
  transfer_count : Z;
  outer_color : option string;
  drawn : list layer
}.

(** The body of [for idx, seg in enumerate(segs, start=1)]. *)
Definition draw_segment (idx : Z) (seg : Segment) (st : draw_state) : outcome draw_state :=
  match poly seg with
  | [] =>
      Ok {| prev_mode := Some (mode seg); transfer_count := transfer_count st;
            outer_color := outer_color st; drawn := drawn st |}
  | start :: _ =>
      let? chosen := choose_outer_color seg (outer_color st) in
      let tip := {| tip_idx := idx; tip_mode := mode seg; tip_name := name seg;
                    tip_duration := duration_min seg; tip_crowd := crowd seg;
                    tip_best_car := match best_car seg with
                                    | Some c => if (c =? 0)%Z then None else Some c
                                    | None => None
                                    end |} in
      let? outer := of_option chosen in          (* UnboundLocalError *)
      let? center_color := crowd_gradient_color (crowd seg) 4 in
      let lines :=
        [ PolyLine (poly seg) outer OUTER_LINE_WEIGHT 0.8 tip;
          PolyLine (poly seg) center_color CENTER_LINE_WEIGHT 1 tip;
          CircleMarker start (5 + crowd seg * 2) (crowd_color (crowd seg))
                       (crowd seg) (duration_min seg) ] in
      let changed :=
        match prev_mode st with
        | Some pm => negb (String.eqb pm "") && negb (String.eqb pm (mode seg))
        | None => false
        end in
      if changed then
        Ok {| prev_mode := Some (mode seg);
              transfer_count := transfer_count st + 1;
              outer_color := chosen;
              drawn := drawn st ++ lines ++
                       [ Marker start
                           (PopTransfer (transfer_count st + 1)
                                        (default "" (prev_mode st)) (mode seg))
                           "purple" "exchange" ] |}
      else
        Ok {| prev_mode := Some (mode seg); transfer_count := transfer_count st;
              outer_color := chosen; drawn := drawn st ++ lines |}
  end.

Fixpoint draw_segments (idx : Z) (segs : list Segment) (st : draw_state)
    : outcome draw_state :=
  match segs with
  | [] => Ok st
  | seg :: rest =>
      let? st' := draw_segment idx seg st in
      draw_segments (idx + 1) rest st'
  end.

Definition draw_map (segs : list Segment) (o d : Q * Q) : outcome folium_map :=
  let start :=
    {| prev_mode := None; transfer_count := 0; outer_color := None;
       drawn := [ TileLayer "OpenStreetMap";
                  Marker o (PopText "출발") "blue" "play";
                  Marker d (PopText "도착") "red" "flag" ] |} in
  let? st := draw_segments 1 segs start in
  Ok {| location := ((fst o + fst d) / 2, (snd o + snd d) / 2)%Q;
        zoom_start := 13;
        children := drawn st ++ [LayerControl] |}.

(** ** Further notions used in the statements *)

Definition set_subway_csv (c : csv_state sub_frame) (w : World) : World :=
  {| pref_file := pref_file w; pref_write := pref_write w;
     subway_csv := c; bus_csv := bus_csv w;
     _sub_df := _sub_df w; _bus_df := _bus_df w;
     clock := clock w; rng := rng w; rng_pos := rng_pos w |}.

Definition set_bus_csv (c : csv_state bus_frame) (w : World) : World :=
  {| pref_file := pref_file w; pref_write := pref_write w;
     subway_csv := subway_csv w; bus_csv := c;
     _sub_df := _sub_df w; _bus_df := _bus_df w;
     clock := clock w; rng := rng w; rng_pos := rng_pos w |}.

(** A computation that neither reads nor writes the preferences file. *)
Definition prefs_blind {A : Type} (m : M A) : Prop :=
  forall (f : file_state) (w : World),
    m (set_pref_file f w) = (fst (m w), set_pref_file f (snd (m w))).

(** The number of segments of a mode. *)
Fixpoint count_mode (m : string) (segs : list Segment) : Z :=
  match segs with
  | [] => 0%Z
  | s :: rest => ((if String.eqb (mode s) m then 1 else 0) + count_mode m rest)%Z
  end.

(** The segments that [draw_map] draws: those with geometry. *)
Definition with_geometry (segs : list Segment) : list Segment :=
  List.filter (fun s => match poly s with [] => false | _ => true end) segs.

Definition is_polyline (l : layer) : bool :=
  match l with
  | PolyLine _ _ _ _ _ => true
  | _ => false
  end.

Definition is_circle (l : layer) : bool :=
  match l with
  | CircleMarker _ _ _ _ _ => true
  | _ => false
  end.

Definition is_transfer_marker (l : layer) : bool :=
  match l with
  | Marker _ (PopTransfer _ _ _) _ _ => true
  | _ => false
  end.

(** A name that is part of no line name of the table and contains none. *)
Definition line_unknown (s : string) : Prop :=
  Forall (fun kc => infix (fst kc) s = false /\ infix s (fst kc) = false)
         SUBWAY_LINE_COLORS.

(** The colours of the outlines among the layers, in drawing order. *)
Definition outlines (ls : list layer) : list string :=
  flat_map (fun l => match l with
                     | PolyLine _ c w _ _ =>
                         if (w =? OUTER_LINE_WEIGHT)%Z then [c] else []
                     | _ => []
                     end) ls.

(** The colour of the last line of the table whose name occurs in [s]. *)
Definition last_line_in (table : list (string * string)) (s : string)
    (start : option string) : option string :=
  fold_left (fun acc kc => if infix (fst kc) s then Some (snd kc) else acc)
            table start.

(** The outline colour a segment stands for: the colour of the line its name
    mentions, of the bus, or of walking. *)
Definition outline_of (seg : Segment) : string :=
  if String.eqb (mode seg) "SUBWAY" then
    match name seg with
    | JStr s => default "" (last_line_in SUBWAY_LINE_COLORS s None)
    | _ => ""
    end
  else if String.eqb (mode seg) "BUS" then BUS_COLOR
  else WALK_COLOR.

(** A segment [draw_map] has a colour for: no geometry, not a subway
    segment, or a subway segment whose name mentions a line of the table and
    is not a proper part of a line name. *)
Definition paintable (seg : Segment) : Prop :=
  poly seg = [] \/ mode seg <> "SUBWAY" \/
  exists s, name seg = JStr s /\
            Exists (fun kc => infix (fst kc) s = true) SUBWAY_LINE_COLORS /\
            Forall (fun kc => infix s (fst kc) = true -> infix (fst kc) s = true)
                   SUBWAY_LINE_COLORS.

(** ** Further data for the examples *)

(** Preferences of the older format, with a preference and a penalty per
    mode instead of a bias. *)
Definition legacy_prefs : gmap string json :=
  {[ "mode_preference" := JObj {[ "SUBWAY" := JFloat 2 ]};
     "mode_penalty" := JObj {[ "SUBWAY" := JFloat 1; "BUS" := JFloat 3 ]} ]}.

(** A preferences file whose bias has an entry that is not a number. *)
Definition taxi_bias_file : file_state :=
  Holds (JObj {[ "mode_bias" := JObj {[ "TAXI" := JStr "fast" ]} ]}).

Definition thursday_morning : datetime := {| weekday := 3; hour := 8; minute := 29 |}.

(** A subway leg of which only the traffic type is known. *)
Definition bare_subway_leg : gmap string json := {[ "trafficType" := JInt 1 ]}.

(** A bus leg without its lane. *)
Definition laneless_bus_leg : gmap string json :=
  {[ "trafficType" := JInt 2; "sectionTime" := JInt 12; "distance" := JInt 3000 ]}.

Definition drawn_leg (m : string) (n : string) (c : Z) (coords : list (Q * Q)) : Segment :=
  {| mode := m; name := JStr n; distance_m := JInt 0; duration_min := 10;
     crowd := c; best_car := None; poly := coords |}.

(** A bus ride, a walk without geometry, and a ride on line 2 under the
    name the provider gives it. *)
Definition drawn_route : list Segment :=
  [ drawn_leg "BUS" "472" 2 [(37 # 1, 127 # 1); (38 # 1, 127 # 1)];
    drawn_leg "WALK" "도보" 1 [];
    drawn_leg "SUBWAY" "수도권 2호선" 3 [(38 # 1, 127 # 1); (38 # 1, 128 # 1)] ].





(** A machine whose preferences file holds the defaults. *)
Definition fresh_prefs_world : World := world_with (Holds (JObj DEFAULT_PREFS)).

(** ** Proofs *)

Section Facts.

Context `{Builtins}.

Lemma load_prefs_world (w : World) : snd (load_prefs w) = w.
Proof.
  unfold load_prefs. destruct (py_or _ _); reflexivity.
Qed.

Lemma load_prefs_same (w w' : World) (r : outcome (gmap string json)) :
  load_prefs w = (r, w') -> w' = w.
Proof.
  intros E. pose proof (load_prefs_world w) as Hw. rewrite E in Hw. exact Hw.
Qed.

Lemma score_route_unfold (segs : list Segment) (prefs : option (gmap string json))
    (w : World) (stored : gmap string json) :
  load_prefs w = (Ok stored, w) ->
  score_route segs prefs w = (score_with (merged_prefs stored prefs) segs, w).
Proof.
  intros E. unfold score_route, bind, lift. rewrite E. reflexivity.
Qed.

Lemma inject_Z_pred (z : Z) : (inject_Z (z - 1) == inject_Z z - 1)%Q.
Proof.
  unfold Z.sub. rewrite inject_Z_plus, inject_Z_opp. reflexivity.
Qed.




End Facts.

(** Case analysis on the first fallible step of a hypothesis or of the goal. *)
Ltac step_in E :=
  match type of E with
  | context [obind ?o _] =>
      let R := fresh "R" in
      destruct o eqn:R; simpl obind in E; [simpl obind | discriminate E]
  end.

Section Scoring.

Context `{Builtins}.

(** Starting the loop from another score shifts the result and nothing else. *)
Lemma score_loop_shift (p : gmap string json) (bias : json) (cw : Q)
    (segs : list Segment) :
  forall sc sc2 wk a b : Q,
    score_loop p bias cw segs sc wk = Ok (a, b) ->
    exists a2 : Q,
      score_loop p bias cw segs sc2 wk = Ok (a2, b) /\ (a2 - sc2 == a - sc)%Q.
Proof.
  induction segs as [|s rest IH]; intros sc sc2 wk a b E.
  - simpl in *. inversion E; subst. exists sc2. split; [reflexivity | lra].
  - simpl score_loop in *.
    step_in E. step_in E. step_in E.
    simpl obind.
    destruct a2 as [|];
      (eapply IH in E; destruct E as (a2' & E2 & Ha2); exists a2';
       split; [exact E2 | lra]).
Qed.





End Scoring.

Section Doubles.


End Doubles.


Section Selection.

Context `{Builtins}.

Lemma insert_by_score_head (x : scored_route) (l : list scored_route) :
  exists t : list scored_route,
    insert_by_score x l =
    match l with
    | [] => x
    | y :: _ => if Qlt_le_dec (key y) (key x) then y else x
    end :: t.
Proof.
  destruct l as [|y r]; simpl.
  - exists []. reflexivity.
  - unfold key. destruct (Qlt_le_dec (fst (fst y)) (fst (fst x))); eexists; reflexivity.
Qed.

(** The head of the sorted list is the first element of least score. *)
Lemma sort_by_score_head (l : list scored_route) :
  l <> [] ->
  exists (i : nat) (x : scored_route) (t : list scored_route),
    sort_by_score l = x :: t /\
    l !! i = Some x /\
    (forall j y, l !! j = Some y -> (key x <= key y)%Q) /\
    (forall j y, l !! j = Some y -> (j < i)%nat -> (key x < key y)%Q).
Proof.
  induction l as [|a l IH]; [congruence | intros _].
  destruct l as [|b l].
  - exists 0%nat, a, []. simpl. repeat split.
    + intros [|j] y Hj; simpl in Hj; [inversion Hj; subst; lra | discriminate Hj].
    + intros j y _ Hlt. lia.
  - destruct IH as (i & x & t & Es & Hi & Hmin & Hfirst); [congruence |].
    change (sort_by_score (a :: b :: l))
      with (insert_by_score a (sort_by_score (b :: l))).
    rewrite Es.
    destruct (insert_by_score_head a (x :: t)) as (t' & Et). rewrite Et.
    destruct (Qlt_le_dec (key x) (key a)) as [L|L].
    + exists (S i), x, t'. repeat split.
      * exact Hi.
      * intros [|j] y Hj; simpl in Hj.
        -- inversion Hj; subst. lra.
        -- eapply Hmin; exact Hj.
      * intros [|j] y Hj Hlt; simpl in Hj.
        -- inversion Hj; subst. exact L.
        -- eapply Hfirst; [exact Hj | lia].
    + exists 0%nat, a, t'. repeat split.
      * intros [|j] y Hj; simpl in Hj.
        -- inversion Hj; subst. lra.
        -- pose proof (Hmin j y Hj). lra.
      * intros j y _ Hlt. lia.
Qed.

(** The list that [choose_best_route] sorts pairs each route with its score
    and its 1-based position. *)
Lemma score_all_entries (prefs : option (gmap string json)) (w : World)
    (routes : list (list Segment)) (scores : list Q) :
  Forall2 (fun r s => score_route r prefs w = (Ok s, w)) routes scores ->
  forall k : Z,
  exists l : list scored_route,
    score_all routes prefs k w = (Ok l, w) /\
    length l = length routes /\
    forall j x, l !! j = Some x ->
      exists r s, routes !! j = Some r /\ scores !! j = Some s /\
                  x = (s, (k + Z.of_nat j + 1)%Z, r).
Proof.
  induction 1 as [|r s routes scores Hr _ IH]; intros k.
  - exists []. repeat split. intros j x Hj. destruct j; discriminate Hj.
  - destruct (IH (k + 1)%Z) as (l & El & Hlen & Hl).
    exists ((s, (k + 1)%Z, r) :: l). split; [| split].
    + simpl score_all. unfold bind, ret. rewrite Hr, El. reflexivity.
    + simpl. rewrite Hlen. reflexivity.
    + intros [|j] x Hj; simpl in Hj.
      * inversion Hj; subst. exists r, s. repeat split.
        f_equal. f_equal. lia.
      * destruct (Hl j x Hj) as (r' & s' & Hr' & Hs' & ->).
        exists r', s'. repeat split; [exact Hr' | exact Hs' |].
        f_equal. f_equal. lia.
Qed.

(** C3. On a non-empty candidate list whose routes all get a score,
    [choose_best_route] returns the 1-based position [i + 1] and the candidate
    at that position; its score is at most the score of every candidate, and
    every candidate before it scores strictly more. *)
Theorem choose_best_route_first_minimum (routes : list (list Segment))
    (prefs : option (gmap string json)) (w : World) (scores : list Q) :
  routes <> [] ->
  Forall2 (fun r s => score_route r prefs w = (Ok s, w)) routes scores ->
  exists (i : nat) (r : list Segment) (s : Q),
    choose_best_route routes prefs w = (Ok ((Z.of_nat i + 1)%Z, r), w) /\
    routes !! i = Some r /\
    scores !! i = Some s /\
    (forall j sj, scores !! j = Some sj -> (s <= sj)%Q) /\
    (forall j sj, scores !! j = Some sj -> (j < i)%nat -> (s < sj)%Q).
Proof.
  intros Hne Hall.
  destruct (score_all_entries prefs w routes scores Hall 0) as (l & El & Hlen & Hl).
  assert (l <> []) as Hl0.
  { intros ->. destruct routes; [congruence | discriminate Hlen]. }
  destruct (sort_by_score_head l Hl0) as (i & x & t & Es & Hi & Hmin & Hfirst).
  destruct (Hl i x Hi) as (r & s & Hr & Hs & ->).
  exists i, r, s. split; [| split; [exact Hr | split; [exact Hs | split]]].
  - unfold choose_best_route. destruct routes as [|r0 routes]; [congruence |].
    unfold bind. rewrite El, Es. unfold ret. repeat f_equal.
  - intros j sj Hj.
    assert (exists y, l !! j = Some y) as (y & Hy).
    { apply lookup_lt_is_Some. rewrite Hlen. rewrite (Forall2_length _ _ _ Hall).
      apply lookup_lt_is_Some. eauto. }
    destruct (Hl j y Hy) as (r' & s' & _ & Hs' & ->).
    assert (s' = sj) as -> by congruence.
    exact (Hmin j _ Hy).
  - intros j sj Hj Hlt.
    assert (exists y, l !! j = Some y) as (y & Hy).
    { apply lookup_lt_is_Some. rewrite Hlen. rewrite (Forall2_length _ _ _ Hall).
      apply lookup_lt_is_Some. eauto. }
    destruct (Hl j y Hy) as (r' & s' & _ & Hs' & ->).
    assert (s' = sj) as -> by congruence.
    exact (Hfirst j _ Hy Hlt).
Qed.

(** C4. On an empty candidate list [choose_best_route] returns the index -1
    and an empty segment sequence; it reads nothing and raises nothing. *)
Theorem choose_best_route_empty (prefs : option (gmap string json)) (w : World) :
  choose_best_route [] prefs w = (Ok ((-1)%Z, []), w).
Proof. reflexivity. Qed.

End Selection.

Section Learning.

Context `{Builtins}.

Lemma py_float_num (v : json) (q : Q) : py_num v = Some q -> py_float v = Ok q.
Proof.
  destruct v; simpl; intros E; inversion E; reflexivity.
Qed.

Lemma clampQ_bounds (x : Q) : (-10 <= clampQ x <= 10)%Q.
Proof.
  unfold clampQ. destruct (Qlt_le_dec x 10); [destruct (Qlt_le_dec (-10) x) |]; lra.
Qed.

Lemma clamp_float (x : Q) : clamp (JFloat x) = Ok (JFloat (clampQ x)).
Proof.
  unfold clamp, py_min_float, py_max_float, clampQ, obind. simpl py_num.
  cbv beta iota.
  destruct (Qlt_le_dec x 10) as [L|L]; simpl py_num; cbv beta iota.
  - destruct (Qlt_le_dec (-10) x); reflexivity.
  - reflexivity.
Qed.

(** A clamped value is a number between -10 and 10. *)
Lemma clamp_bounds (v v' : json) :
  clamp v = Ok v' -> exists q, py_num v' = Some q /\ (-10 <= q <= 10)%Q.
Proof.
  unfold clamp, py_min_float, py_max_float.
  destruct (py_num v) as [q|] eqn:Eq; [| discriminate]. simpl obind.
  destruct (Qlt_le_dec q 10) as [L|L].
  - rewrite Eq. destruct (Qlt_le_dec (-10) q) as [L'|L']; intros E; inversion E; subst.
    + exists q. split; [exact Eq | lra].
    + exists (-10)%Q. split; [reflexivity | lra].
  - simpl. intros E; inversion E; subst. exists 10%Q. split; [reflexivity | lra].
Qed.

Lemma clamp_total (v : json) (q : Q) : py_num v = Some q -> exists v', clamp v = Ok v'.
Proof.
  intros Eq. unfold clamp, py_min_float, py_max_float. rewrite Eq. simpl obind.
  destruct (Qlt_le_dec q 10); [rewrite Eq |]; eexists; reflexivity.
Qed.

(** The clamping loop, entry by entry. *)
Lemma clamp_all_entries (bias : gmap string json) :
  match clamp_all bias with
  | Ok done =>
      forall k, match bias !! k with
                | Some v => exists v', clamp v = Ok v' /\ done !! k = Some v'
                | None => done !! k = None
                end
  | Raise => exists k v, bias !! k = Some v /\ py_num v = None
  end.
Proof.
  unfold clamp_all.
  apply (map_fold_weak_ind
    (fun (r : outcome (gmap string json)) (m : gmap string json) =>
       match r with
       | Ok done =>
           forall k, match m !! k with
                     | Some v => exists v', clamp v = Ok v' /\ done !! k = Some v'
                     | None => done !! k = None
                     end
       | Raise => exists k v, m !! k = Some v /\ py_num v = None
       end)).
  - intros k. rewrite !lookup_empty. reflexivity.
  - intros i x m r Hi IH. destruct r as [done|]; simpl obind.
    + destruct (clamp x) as [c|] eqn:Ec; simpl obind.
      * intros k. destruct (decide (i = k)) as [->|Hne].
        -- rewrite !lookup_insert_eq. exists c. split; [exact Ec | reflexivity].
        -- rewrite !lookup_insert_ne by exact Hne. apply IH.
      * exists i, x. rewrite lookup_insert_eq. split; [reflexivity |].
        unfold clamp, py_min_float in Ec.
        destruct (py_num x) as [q|] eqn:Eq; [| reflexivity].
        exfalso. destruct (clamp_total x q Eq) as (v' & Ev').
        unfold clamp, py_min_float in Ev'. rewrite Eq in Ev'. congruence.
    + destruct IH as (k & v & Hk & Hv). exists k, v. split; [| exact Hv].
      rewrite lookup_insert_ne; [exact Hk |]. intros ->. congruence.
Qed.

Lemma clamp_all_lookup (bias done : gmap string json) (k : string) (v : json) :
  clamp_all bias = Ok done -> bias !! k = Some v ->
  exists v', clamp v = Ok v' /\ done !! k = Some v'.
Proof.
  intros E Hk. pose proof (clamp_all_entries bias) as Hall. rewrite E in Hall.
  specialize (Hall k). rewrite Hk in Hall. exact Hall.
Qed.

Lemma clamp_all_bounds (bias done : gmap string json) (k : string) (v' : json) :
  clamp_all bias = Ok done -> done !! k = Some v' ->
  exists q, py_num v' = Some q /\ (-10 <= q <= 10)%Q.
Proof.
  intros E Hk. pose proof (clamp_all_entries bias) as Hall. rewrite E in Hall.
  specialize (Hall k). destruct (bias !! k) as [v|].
  - destruct Hall as (c & Ec & Hc). rewrite Hk in Hc. inversion Hc; subst.
    eapply clamp_bounds; exact Ec.
  - congruence.
Qed.

Lemma clamp_all_total (bias : gmap string json) :
  (forall k v, bias !! k = Some v -> exists q, py_num v = Some q) ->
  exists done, clamp_all bias = Ok done.
Proof.
  intros Hnum. pose proof (clamp_all_entries bias) as Hall.
  destruct (clamp_all bias) as [done|]; [eexists; reflexivity |].
  destruct Hall as (k & v & Hk & Hv). destruct (Hnum k v Hk) as (q & Hq). congruence.
Qed.

(** The set of used modes holds exactly the modes of the chosen segments. *)
Lemma used_modes_rides (segs : list Segment) (m : string) :
  bool_decide (m ∈ used_modes segs) = rides segs m.
Proof.
  unfold used_modes, rides. induction segs as [|s rest IH].
  - apply bool_decide_eq_false_2, not_elem_of_empty.
  - change (mode <$> s :: rest) with (mode s :: (mode <$> rest)).
    change (list_to_set (mode s :: (mode <$> rest)) : gset string)
      with ({[mode s]} ∪ (list_to_set (mode <$> rest) : gset string)).
    simpl existsb. rewrite <- IH.
    destruct (String.eqb_spec (mode s) m) as [E|N]; simpl.
    + apply bool_decide_eq_true_2, elem_of_union_l, elem_of_singleton.
      symmetry. exact E.
    + apply bool_decide_ext. rewrite elem_of_union, elem_of_singleton. split.
      * intros [Hx|Hx]; [congruence | exact Hx].
      * intros Hx. right. exact Hx.
Qed.

Lemma learn_from_choice_unfold (segs : list Segment) (lr : Q) (w : World)
    (stored : gmap string json) :
  load_prefs w = (Ok stored, w) ->
  learn_from_choice segs lr w =
  match learn_update stored segs lr with
  | Ok p =>
      match pref_write w p with
      | Written => (Ok p, set_pref_file (Holds (JObj p)) w)
      | Refused => (Raise, w)
      | Torn => (Raise, set_pref_file Unreadable w)
      end
  | Raise => (Raise, w)
  end.
Proof.
  intros E. unfold learn_from_choice, bind, lift, save_prefs, ret. rewrite E.
  destruct (learn_update stored segs lr) as [p|]; [| reflexivity].
  destruct (pref_write w p); reflexivity.
Qed.

Lemma learn_from_choice_inv (segs : list Segment) (lr : Q) (w w' : World)
    (p : gmap string json) :
  learn_from_choice segs lr w = (Ok p, w') ->
  exists stored,
    load_prefs w = (Ok stored, w) /\
    learn_update stored segs lr = Ok p /\
    w' = set_pref_file (Holds (JObj p)) w.
Proof.
  intros E. destruct (load_prefs w) as [[stored|] w0] eqn:El.
  - pose proof (load_prefs_same _ _ _ El) as ->.
    rewrite (learn_from_choice_unfold _ _ _ _ El) in E.
    destruct (learn_update stored segs lr) as [q|] eqn:Eu; [| discriminate E].
    destruct (pref_write w q); try discriminate E.
    inversion E; subst. exists stored. split; [reflexivity |].
    split; [exact Eu | reflexivity].
  - unfold learn_from_choice, bind in E. rewrite El in E. discriminate E.
Qed.

(** The three rounds of the nudging loop: each mode gets its old bias, read
    as a float, plus [lr] or minus [lr / 2]; no other key is touched. *)
Lemma nudges_spec (used : gset string) (lr : Q) (b0 b1 b2 b3 : gmap string json) :
  nudge used lr b0 "SUBWAY" = Ok b1 ->
  nudge used lr b1 "BUS" = Ok b2 ->
  nudge used lr b2 "WALK" = Ok b3 ->
  (forall m, In m allowed ->
     exists old,
       py_float (default (JFloat 0) (b0 !! m)) = Ok old /\
       b3 !! m = Some (JFloat (if bool_decide (m ∈ used)
                               then old + lr else old - lr / 2)%Q)) /\
  (forall k, ~ In k allowed -> b3 !! k = b0 !! k).
Proof.
  unfold nudge. intros E1 E2 E3.
  step_in E1. step_in E2. step_in E3.
  inversion E1; inversion E2; inversion E3; subst. clear E1 E2 E3.
  rewrite lookup_insert_ne in R0 by discriminate.
  rewrite !lookup_insert_ne in R1 by discriminate.
  split.
  - intros m [<-|[<-|[<-|[]]]].
    + exists a. split; [exact R |].
      rewrite !lookup_insert_ne by discriminate. apply lookup_insert_eq.
    + exists a0. split; [exact R0 |].
      rewrite lookup_insert_ne by discriminate. apply lookup_insert_eq.
    + exists a1. split; [exact R1 |]. apply lookup_insert_eq.
  - intros k Hk. rewrite !lookup_insert_ne; [reflexivity | | |];
      intros <-; apply Hk; simpl; tauto.
Qed.

Lemma learn_update_inv (stored p : gmap string json) (segs : list Segment) (lr : Q) :
  learn_update stored segs lr = Ok p ->
  exists (b0 b3 bias : gmap string json) (runs : Z),
    py_dict (default (JObj DEFAULT_BIAS) (stored !! "mode_bias")) = Ok b0 /\
    (forall m, In m allowed ->
       exists old,
         py_float (default (JFloat 0) (b0 !! m)) = Ok old /\
         b3 !! m = Some (JFloat (if bool_decide (m ∈ used_modes segs)
                                 then old + lr else old - lr / 2)%Q)) /\
    (forall k, ~ In k allowed -> b3 !! k = b0 !! k) /\
    clamp_all b3 = Ok bias /\
    py_int (default (JInt 0) (stored !! "runs")) = Ok runs /\
    p = <["runs" := JInt (runs + 1)]> (<["mode_bias" := JObj bias]> stored).
Proof.
  unfold learn_update. intros E.
  step_in E. step_in E. step_in E. step_in E. step_in E.
  rewrite lookup_insert_ne in E by discriminate.
  step_in E. inversion E; subst. clear E.
  destruct (nudges_spec _ _ _ _ _ _ R0 R1 R2) as (Hm & Hk).
  exists a, a2, a3, a4. repeat split; assumption.
Qed.

(** C10. The preferences returned by [learn_from_choice] differ from the
    loaded ones only at the keys [mode_bias] and [runs]: [crowd_weight],
    [max_crowd], [walk_limit_min] and every other stored key keep their
    values. *)
Theorem learn_keeps_other_keys (segs : list Segment) (lr : Q) (w w' : World)
    (p : gmap string json) :
  learn_from_choice segs lr w = (Ok p, w') ->
  exists stored,
    load_prefs w = (Ok stored, w) /\
    (forall k, k <> "mode_bias" -> k <> "runs" -> p !! k = stored !! k) /\
    p !! "crowd_weight" = stored !! "crowd_weight" /\
    p !! "max_crowd" = stored !! "max_crowd" /\
    p !! "walk_limit_min" = stored !! "walk_limit_min".
Proof.
  intros E. destruct (learn_from_choice_inv _ _ _ _ _ E) as (stored & El & Eu & _).
  destruct (learn_update_inv _ _ _ _ Eu) as (b0 & b3 & bias & runs & _ & _ & _ & _ & _ & ->).
  exists stored. split; [exact El |].
  assert (forall k, k <> "mode_bias" -> k <> "runs" ->
            <["runs" := JInt (runs + 1)]> (<["mode_bias" := JObj bias]> stored) !! k
            = stored !! k) as Hk.
  { intros k H1 H2. rewrite !lookup_insert_ne by congruence. reflexivity. }
  repeat split; [exact Hk | | |]; apply Hk; discriminate.
Qed.


Lemma load_prefs_holds (w : World) (p : gmap string json) (v : json) :
  pref_file w = Holds (JObj p) ->
  p !! "mode_bias" = Some v ->
  load_prefs w = (Ok (p ∪ DEFAULT_PREFS), w).
Proof.
  intros Hf Hb. unfold load_prefs. rewrite Hf.
  assert (truthy (JObj p) = true) as Ht.
  { simpl. destruct (map_to_list p) eqn:Em; [| reflexivity].
    apply map_to_list_empty_iff in Em. subst p. rewrite lookup_empty in Hb.
    discriminate Hb. }
  unfold py_or. rewrite Ht. unfold _migrate_bias.
  rewrite (lookup_union_Some_l _ _ _ _ Hb). reflexivity.
Qed.

Lemma clampQ_clamped (x : Q) : clamped (clampQ x).
Proof.
  unfold clamped, clampQ.
  destruct (Qlt_le_dec x 10); [destruct (Qlt_le_dec (-10) x) |];
    split; (try (left; reflexivity)); right; lra.
Qed.

(** After a successful call the file holds what was returned, with numeric
    biases and clamped values for the three modes. *)
Lemma learn_establishes (segs : list Segment) (lr : Q) (w w' : World)
    (p : gmap string json) :
  learn_from_choice segs lr w = (Ok p, w') ->
  exists f, biased w' p f /\ forall m, In m allowed -> clamped (f m).
Proof.
  intros E. destruct (learn_from_choice_inv _ _ _ _ _ E) as (stored & El & Eu & ->).
  destruct (learn_update_inv _ _ _ _ Eu)
    as (b0 & b3 & bias & runs & Ed & Hm & _ & Ec & _ & ->).
  assert (forall m, In m allowed -> exists z, bias !! m = Some (JFloat (clampQ z)))
    as Hz.
  { intros m Hin. destruct (Hm m Hin) as (old & _ & E3).
    destruct (clamp_all_lookup _ _ _ _ Ec E3) as (v' & Ev' & Hv').
    rewrite clamp_float in Ev'. inversion Ev'; subst v'. eexists. exact Hv'. }
  exists (fun m => match bias !! m with
                   | Some (JFloat q) => q
                   | _ => 0%Q
                   end).
  split.
  - split; [reflexivity |]. exists bias, (runs + 1)%Z. split; [| split; [| split]].
    + rewrite lookup_insert_ne by discriminate. apply lookup_insert_eq.
    + apply lookup_insert_eq.
    + intros k v Hk. exact (clamp_all_bounds _ _ _ _ Ec Hk).
    + intros m Hin. destruct (Hz m Hin) as (z & ->). reflexivity.
  - intros m Hin. destruct (Hz m Hin) as (z & ->). apply clampQ_clamped.
Qed.

Lemma learn_update_total (stored bias : gmap string json) (f : string -> Q) (r : Z)
    (segs : list Segment) (lr : Q) :
  stored !! "mode_bias" = Some (JObj bias) ->
  stored !! "runs" = Some (JInt r) ->
  (forall k v, bias !! k = Some v -> exists q, py_num v = Some q) ->
  (forall m, In m allowed -> bias !! m = Some (JFloat (f m))) ->
  exists p', learn_update stored segs lr = Ok p'.
Proof.
  intros Hb Hr Hnum Hmodes. unfold learn_update, nudge.
  rewrite Hb. simpl obind.
  rewrite (Hmodes "SUBWAY") by (simpl; tauto). simpl obind.
  rewrite lookup_insert_ne by discriminate.
  rewrite (Hmodes "BUS") by (simpl; tauto). simpl obind.
  rewrite !lookup_insert_ne by discriminate.
  rewrite (Hmodes "WALK") by (simpl; tauto). simpl obind.
  match goal with
  | |- context [clamp_all ?b] => destruct (clamp_all_total b) as (done & Ed)
  end.
  { intros k v Hk.
    destruct (decide (k = "WALK")) as [->|N1];
      [rewrite lookup_insert_eq in Hk; inversion Hk; eexists; reflexivity |].
    rewrite lookup_insert_ne in Hk by congruence.
    destruct (decide (k = "BUS")) as [->|N2];
      [rewrite lookup_insert_eq in Hk; inversion Hk; eexists; reflexivity |].
    rewrite lookup_insert_ne in Hk by congruence.
    destruct (decide (k = "SUBWAY")) as [->|N3];
      [rewrite lookup_insert_eq in Hk; inversion Hk; eexists; reflexivity |].
    rewrite lookup_insert_ne in Hk by congruence.
    eapply Hnum; exact Hk. }
  rewrite Ed. simpl obind. rewrite lookup_insert_ne by discriminate.
  rewrite Hr. simpl obind. eexists; reflexivity.
Qed.

(** One more call from a state left by a call: it gets as far as the write. *)
Lemma learn_step (segs : list Segment) (lr : Q) (w : World) (p : gmap string json)
    (f : string -> Q) :
  biased w p f ->
  exists p',
    match pref_write w p' with
    | Written =>
        learn_from_choice segs lr w = (Ok p', set_pref_file (Holds (JObj p')) w) /\
        biased (set_pref_file (Holds (JObj p')) w) p'
               (fun m => bias_step segs lr m (f m))
    | _ => fst (learn_from_choice segs lr w) = Raise
    end.
Proof.
  intros (Hf & bias & r & Hb & Hr & Hnum & Hmodes).
  pose proof (load_prefs_holds w p _ Hf Hb) as El.
  assert ((p ∪ DEFAULT_PREFS) !! "mode_bias" = Some (JObj bias)) as Hb'
    by (apply lookup_union_Some_l; exact Hb).
  assert ((p ∪ DEFAULT_PREFS) !! "runs" = Some (JInt r)) as Hr'
    by (apply lookup_union_Some_l; exact Hr).
  assert (forall k v, bias !! k = Some v -> exists q, py_num v = Some q) as Hnum'.
  { intros k v Hk. destruct (Hnum k v Hk) as (q & Hq & _). exists q. exact Hq. }
  destruct (learn_update_total _ _ f r segs lr Hb' Hr' Hnum' Hmodes) as (p' & Eu).
  exists p'. rewrite (learn_from_choice_unfold _ _ _ _ El), Eu.
  destruct (pref_write w p'); [| reflexivity | reflexivity].
  split; [reflexivity |].
  destruct (learn_update_inv _ _ _ _ Eu)
    as (b0 & b3 & bias' & runs & Ed & Hm & _ & Ec & Er & ->).
  rewrite Hb' in Ed. simpl in Ed. inversion Ed; subst b0. clear Ed.
  split; [reflexivity |]. exists bias', (runs + 1)%Z. split; [| split; [| split]].
  - rewrite lookup_insert_ne by discriminate. apply lookup_insert_eq.
  - apply lookup_insert_eq.
  - intros k v Hk. exact (clamp_all_bounds _ _ _ _ Ec Hk).
  - intros m Hin. destruct (Hm m Hin) as (old & Eold & E3).
    rewrite (Hmodes m Hin) in Eold. simpl in Eold. inversion Eold; subst old.
    rewrite used_modes_rides in E3.
    destruct (clamp_all_lookup _ _ _ _ Ec E3) as (v' & Ev' & Hv').
    rewrite clamp_float in Ev'. inversion Ev'; subst v'. exact Hv'.
Qed.

Lemma learn_step_runs (segs : list Segment) (lr : Q) (w w' : World)
    (p p' : gmap string json) (f : string -> Q) (r : Z) :
  biased w p f ->
  p !! "runs" = Some (JInt r) ->
  learn_from_choice segs lr w = (Ok p', w') ->
  p' !! "runs" = Some (JInt (r + 1)).
Proof.
  intros (Hf & bias & r0 & Hb & _ & _ & _) Hr E.
  pose proof (load_prefs_holds w p _ Hf Hb) as El.
  destruct (learn_from_choice_inv _ _ _ _ _ E) as (stored & El' & Eu & _).
  assert (stored = p ∪ DEFAULT_PREFS) as -> by congruence.
  destruct (learn_update_inv _ _ _ _ Eu)
    as (b0 & b3 & bias' & runs & _ & _ & _ & _ & Er & ->).
  rewrite (lookup_union_Some_l _ _ _ _ Hr) in Er. simpl in Er.
  inversion Er; subst. apply lookup_insert_eq.
Qed.

(** [n] more calls from a state left by a call: they return, each moving the
    biases by one step and [runs] by one, unless a write fails. *)
Lemma learn_repeatedly_from (segs : list Segment) (lr : Q) (n : nat) :
  forall (w : World) (p : gmap string json) (f : string -> Q) (r : Z),
    biased w p f ->
    p !! "runs" = Some (JInt r) ->
    match learn_repeatedly n segs lr (Some p) w with
    | (Ok (Some p'), w') =>
        biased w' p' (fun m => Nat.iter n (bias_step segs lr m) (f m)) /\
        p' !! "runs" = Some (JInt (r + Z.of_nat n)) /\
        pref_write w' = pref_write w
    | (Ok None, _) => False
    | (Raise, _) => exists q, pref_write w q <> Written
    end.
Proof.
  induction n as [|n IH]; intros w p f r Hb Hr.
  - simpl. split; [exact Hb |]. split; [| reflexivity].
    rewrite Z.add_0_r. exact Hr.
  - change (learn_repeatedly (S n) segs lr (Some p) w)
      with (bind (learn_from_choice segs lr)
                 (fun p1 => learn_repeatedly n segs lr (Some p1)) w).
    unfold bind. destruct (learn_step segs lr w p f Hb) as (p1 & H1).
    destruct (pref_write w p1) eqn:Ew.
    + destruct H1 as (E1 & Hb1). rewrite E1.
      pose proof (learn_step_runs _ _ _ _ _ _ _ _ Hb Hr E1) as Hr1.
      specialize (IH _ _ _ _ Hb1 Hr1).
      destruct (learn_repeatedly n segs lr (Some p1)
                  (set_pref_file (Holds (JObj p1)) w)) as [[[p'|]|] w'].
      * destruct IH as (Hb' & Hr' & Hw'). split; [| split].
        -- destruct Hb' as (Hf & bias & r' & Hbias & Hruns & Hnum & Hmodes).
           split; [exact Hf |]. exists bias, r'. repeat split; try assumption.
           intros m Hin. rewrite Nat.iter_succ_r. apply Hmodes. exact Hin.
        -- rewrite Hr'. f_equal. f_equal. lia.
        -- exact Hw'.
      * exact IH.
      * exact IH.
    + destruct (learn_from_choice segs lr w) as [[p'|] w']; [discriminate H1 |].
      exists p1. rewrite Ew. discriminate.
    + destruct (learn_from_choice segs lr w) as [[p'|] w']; [discriminate H1 |].
      exists p1. rewrite Ew. discriminate.
Qed.

Lemma inject_nat_succ (n : nat) :
  (inject_Z (Z.of_nat (S n)) == inject_Z (Z.of_nat n) + 1)%Q.
Proof.
  rewrite Nat2Z.inj_succ. unfold Z.succ. rewrite inject_Z_plus. reflexivity.
Qed.

Lemma inject_nat_nonneg (n : nat) : (0 <= inject_Z (Z.of_nat n))%Q.
Proof.
  change 0%Q with (inject_Z 0). rewrite <- Zle_Qle. lia.
Qed.

(** The bias of a mode that is ridden either sits at 10 or has gained [lr]
    per call. *)
Lemma bias_rises (segs : list Segment) (lr : Q) (m : string) (x : Q) :
  (0 < lr)%Q -> rides segs m = true -> clamped x ->
  forall n : nat,
    Nat.iter n (bias_step segs lr m) x = 10%Q \/
    ((Nat.iter n (bias_step segs lr m) x < 10)%Q /\
     (-10 + inject_Z (Z.of_nat n) * lr <= Nat.iter n (bias_step segs lr m) x)%Q).
Proof.
  intros Hlr Hu [Htop Hbot]. induction n as [|n IH].
  - change (Nat.iter 0 (bias_step segs lr m) x) with x.
    change (inject_Z (Z.of_nat 0)) with 0%Q.
    destruct Htop as [->|Ht]; [left; reflexivity | right].
    split; [exact Ht |]. destruct Hbot as [->|Hb]; lra.
  - pose proof (inject_nat_succ n) as Hs. pose proof (inject_nat_nonneg n) as Hn.
    assert (0 <= inject_Z (Z.of_nat n) * lr)%Q as Hprod
      by (apply Qmult_le_0_compat; lra).
    change (Nat.iter (S n) (bias_step segs lr m) x)
      with (bias_step segs lr m (Nat.iter n (bias_step segs lr m) x)).
    set (y := Nat.iter n (bias_step segs lr m) x) in *.
    unfold bias_step. rewrite Hu.
    unfold clampQ.
    destruct (Qlt_le_dec (y + lr) 10) as [L|L]; [| left; reflexivity].
    destruct IH as [E|[Hy Hlow]]; [rewrite E in L; lra |].
    destruct (Qlt_le_dec (-10) (y + lr)) as [L'|L']; [| lra].
    right. split; [exact L |]. nra.
Qed.

(** The bias of a mode that is not ridden either sits at -10 or has lost
    [lr / 2] per call. *)
Lemma bias_sinks (segs : list Segment) (lr : Q) (m : string) (x : Q) :
  (0 < lr)%Q -> rides segs m = false -> clamped x ->
  forall n : nat,
    Nat.iter n (bias_step segs lr m) x = (-10)%Q \/
    ((-10 < Nat.iter n (bias_step segs lr m) x)%Q /\
     (Nat.iter n (bias_step segs lr m) x <= 10 - inject_Z (Z.of_nat n) * (lr / 2))%Q).
Proof.
  intros Hlr Hu [Htop Hbot].
  assert (0 < lr / 2)%Q as Hh by (apply Qlt_shift_div_l; lra).
  induction n as [|n IH].
  - change (Nat.iter 0 (bias_step segs lr m) x) with x.
    change (inject_Z (Z.of_nat 0)) with 0%Q.
    destruct Hbot as [->|Hb]; [left; reflexivity | right].
    split; [exact Hb |]. set (h := (lr / 2)%Q) in *.
    destruct Htop as [->|Ht]; lra.
  - pose proof (inject_nat_succ n) as Hs. pose proof (inject_nat_nonneg n) as Hn.
    assert (0 <= inject_Z (Z.of_nat n) * (lr / 2))%Q as Hprod
      by (apply Qmult_le_0_compat; lra).
    change (Nat.iter (S n) (bias_step segs lr m) x)
      with (bias_step segs lr m (Nat.iter n (bias_step segs lr m) x)).
    set (y := Nat.iter n (bias_step segs lr m) x) in *.
    unfold bias_step. rewrite Hu.
    unfold clampQ. set (h := (lr / 2)%Q) in *.
    destruct (Qlt_le_dec (y - h) 10) as [L|L].
    + destruct (Qlt_le_dec (-10) (y - h)) as [L'|L']; [| left; reflexivity].
      destruct IH as [E|[Hy Hhigh]]; [rewrite E in L'; lra |].
      right. split; [exact L' |]. nra.
    + destruct IH as [E|[Hy Hhigh]]; [rewrite E in L; lra | lra].
Qed.

Lemma enough_calls (lr : Q) :
  (0 < lr)%Q ->
  exists N : nat, forall n, (N <= n)%nat -> (40 <= inject_Z (Z.of_nat n) * lr)%Q.
Proof.
  intros Hlr. exists (Z.to_nat (Qceiling (40 / lr))). intros n Hn.
  pose proof (Qle_ceiling (40 / lr)) as Hc.
  assert (inject_Z (Qceiling (40 / lr)) <= inject_Z (Z.of_nat n))%Q as Hz.
  { rewrite <- Zle_Qle. lia. }
  assert (40 / lr * lr == 40)%Q as Hdiv by (field; lra).
  assert (40 / lr * lr <= inject_Z (Z.of_nat n) * lr)%Q as Hmul.
  { apply Qmult_le_compat_r; lra. }
  lra.
Qed.

(** With the learning rate 0 nothing moves. *)
Lemma bias_step_rate_zero (segs : list Segment) (m : string) (n : nat) (x : Q) :
  (x == 0)%Q -> (Nat.iter n (bias_step segs 0 m) x == 0)%Q.
Proof.
  intros Hx. induction n as [|n IH]; [exact Hx |].
  change (Nat.iter (S n) (bias_step segs 0 m) x)
    with (bias_step segs 0 m (Nat.iter n (bias_step segs 0 m) x)).
  set (y := Nat.iter n (bias_step segs 0 m) x) in *.
  unfold bias_step, clampQ.
  destruct (rides segs m).
  - destruct (Qlt_le_dec (y + 0) 10); [destruct (Qlt_le_dec (-10) (y + 0)) |]; lra.
  - assert (0 / 2 == 0)%Q as Hz by reflexivity. set (h := (0 / 2)%Q) in *.
    destruct (Qlt_le_dec (y - h) 10); [destruct (Qlt_le_dec (-10) (y - h)) |]; lra.
Qed.

(** C5, as the code has it. After a call of [learn_from_choice] every value of
    the returned [mode_bias] is a number in [-10, 10], and [runs] is the
    loaded [runs] (as an int) plus 1.  Repeating the call on the same chosen
    segments keeps every bias in [-10, 10]; a repetition raises only when
    [save_prefs] fails.  With a learning rate of at least one millionth, from
    some number of calls on each of the three modes is at 10 when a chosen
    segment has the mode and at -10 when none has. *)
Theorem learn_bounded_converging (segs : list Segment) (lr : Q) (w w' : World)
    (p : gmap string json) :
  learn_from_choice segs lr w = (Ok p, w') ->
  (exists bias,
     p !! "mode_bias" = Some (JObj bias) /\
     forall k v, bias !! k = Some v ->
       exists q, py_num v = Some q /\ (-10 <= q <= 10)%Q) /\
  (exists stored runs,
     load_prefs w = (Ok stored, w) /\
     py_int (default (JInt 0) (stored !! "runs")) = Ok runs /\
     p !! "runs" = Some (JInt (runs + 1)) /\
     forall n, stored !! "runs" = Some (JInt n) -> p !! "runs" = Some (JInt (n + 1))) /\
  (forall n : nat,
     match learn_repeatedly (S n) segs lr None w with
     | (Ok (Some pn), _) =>
         exists bias,
           pn !! "mode_bias" = Some (JObj bias) /\
           forall k v, bias !! k = Some v ->
             exists q, py_num v = Some q /\ (-10 <= q <= 10)%Q
     | (Ok None, _) => False
     | (Raise, _) => exists q, pref_write w q <> Written
     end) /\
  ((1 # 1000000 <= lr)%Q ->
   exists N : nat, forall (n : nat) (pn : gmap string json) (wn : World),
     (N <= n)%nat ->
     learn_repeatedly (S n) segs lr None w = (Ok (Some pn), wn) ->
     exists bias,
       pn !! "mode_bias" = Some (JObj bias) /\
       forall m, In m allowed ->
         bias !! m = Some (JFloat (if rides segs m then 10 else -10)%Q)).
Proof.
  intros E.
  destruct (learn_establishes _ _ _ _ _ E) as (f & Hb & Hcl).
  pose proof Hb as (_ & _ & r & _ & Hr & _).
  assert (pref_write w' = pref_write w) as Hw.
  { destruct (learn_from_choice_inv _ _ _ _ _ E) as (stored & _ & _ & ->).
    reflexivity. }
  assert (forall n, learn_repeatedly (S n) segs lr None w
                    = learn_repeatedly n segs lr (Some p) w') as Hrep.
  { intros n.
    change (learn_repeatedly (S n) segs lr None w)
      with (bind (learn_from_choice segs lr)
                 (fun p1 => learn_repeatedly n segs lr (Some p1)) w).
    unfold bind. rewrite E. reflexivity. }
  split; [| split; [| split]].
  - destruct Hb as (_ & bias & r0 & Hbias & _ & Hnum & _).
    exists bias. split; [exact Hbias | exact Hnum].
  - destruct (learn_from_choice_inv _ _ _ _ _ E) as (stored & El & Eu & _).
    destruct (learn_update_inv _ _ _ _ Eu)
      as (b0 & b3 & bias & runs & _ & _ & _ & _ & Er & ->).
    exists stored, runs. split; [exact El |]. split; [exact Er |].
    split; [apply lookup_insert_eq |].
    intros n Hn. rewrite Hn in Er. simpl in Er. inversion Er; subst.
    apply lookup_insert_eq.
  - intros n. rewrite Hrep.
    pose proof (learn_repeatedly_from segs lr n _ _ _ _ Hb Hr) as Hn.
    destruct (learn_repeatedly n segs lr (Some p) w') as [[[pn|]|] wn].
    + destruct Hn as ((_ & bias & r0 & Hbias & _ & Hnum & _) & _).
      exists bias. split; [exact Hbias | exact Hnum].
    + exact Hn.
    + destruct Hn as (q & Hq). exists q. rewrite <- Hw. exact Hq.
  - intros Hrate. assert (0 < lr)%Q as Hlr by lra.
    destruct (enough_calls lr Hlr) as (N & HN).
    exists N. intros n pn wn Hn En. rewrite Hrep in En.
    pose proof (learn_repeatedly_from segs lr n _ _ _ _ Hb Hr) as Hinv.
    rewrite En in Hinv.
    destruct Hinv as ((_ & bias & r0 & Hbias & _ & _ & Hmodes) & _).
    exists bias. split; [exact Hbias |].
    intros m Hin. rewrite (Hmodes m Hin). f_equal. f_equal.
    pose proof (HN n Hn) as Hbig.
    destruct (rides segs m) eqn:Hu.
    + destruct (bias_rises segs lr m (f m) Hlr Hu (Hcl m Hin) n) as [E'|[Hy Hlow]];
        [exact E' | lra].
    + assert (inject_Z (Z.of_nat n) * (lr / 2)
              == (1 # 2) * (inject_Z (Z.of_nat n) * lr))%Q as Hhalf by field.
      destruct (bias_sinks segs lr m (f m) Hlr Hu (Hcl m Hin) n) as [E'|[Hy Hhigh]];
        [exact E' |].
      set (a := (inject_Z (Z.of_nat n) * lr)%Q) in *.
      set (b := (inject_Z (Z.of_nat n) * (lr / 2))%Q) in *.
      lra.
Qed.

End Learning.

Section Loading.

Context `{Builtins}.

Lemma migrate_merged (m : gmap string json) :
  _migrate_bias (m ∪ DEFAULT_PREFS) = Ok (m ∪ DEFAULT_PREFS).
Proof.
  unfold _migrate_bias.
  destruct ((m ∪ DEFAULT_PREFS) !! "mode_bias") eqn:E; [reflexivity |].
  apply lookup_union_None in E. destruct E as [_ E]. vm_compute in E. discriminate E.
Qed.

(** C7, as the code has it. When the preferences file is absent, unreadable,
    or holds a JSON object (or a falsy value), [load_prefs] returns the
    defaults overridden key by key by the stored object.  The result always
    has a [mode_bias]: the default one, with all three modes at 0.0, when the
    stored object has none, and the stored value, unchanged, when it has one. *)
Theorem load_prefs_merges_defaults (w : World) (m : gmap string json) :
  stored_object (pref_file w) = Some m ->
  exists p,
    load_prefs w = (Ok p, w) /\
    (forall k, p !! k = match m !! k with
                        | Some v => Some v
                        | None => DEFAULT_PREFS !! k
                        end) /\
    (m !! "mode_bias" = None ->
     exists bias, p !! "mode_bias" = Some (JObj bias) /\
                  forall mode, In mode allowed -> bias !! mode = Some (JFloat 0)) /\
    (forall v, m !! "mode_bias" = Some v -> p !! "mode_bias" = Some v).
Proof.
  intros Hs. exists (m ∪ DEFAULT_PREFS).
  assert (forall k, (m ∪ DEFAULT_PREFS) !! k = match m !! k with
                                               | Some v => Some v
                                               | None => DEFAULT_PREFS !! k
                                               end) as Hk.
  { intros k. rewrite lookup_union. destruct (m !! k), (DEFAULT_PREFS !! k); reflexivity. }
  split; [| split; [exact Hk | split]].
  - unfold load_prefs, stored_object, py_or in *.
    destruct (pref_file w) as [| |j].
    + inversion Hs; subst m. change (truthy (JObj ∅)) with false. cbv iota.
      rewrite migrate_merged. reflexivity.
    + inversion Hs; subst m. change (truthy (JObj ∅)) with false. cbv iota.
      rewrite migrate_merged. reflexivity.
    + destruct (truthy j) eqn:Ht.
      * destruct j; try discriminate Hs. inversion Hs; subst.
        rewrite migrate_merged. reflexivity.
      * inversion Hs; subst m. rewrite migrate_merged. reflexivity.
  - intros Hn. exists DEFAULT_BIAS. split.
    + rewrite Hk, Hn. reflexivity.
    + intros mode [<-|[<-|[<-|[]]]]; reflexivity.
  - intros v Hv. rewrite Hk, Hv. reflexivity.
Qed.

End Loading.

Section Crowd.

Context `{Builtins}.

Lemma pct_to_level_range (pct : Q) : (1 <= pct_to_level pct <= 4)%Z.
Proof.
  unfold pct_to_level.
  destruct (Qlt_le_dec pct 70); [lia |].
  destruct (Qlt_le_dec pct 100); [lia |].
  destruct (Qlt_le_dec pct 150); lia.
Qed.

Lemma pct_to_level_thresholds (pct : Q) :
  ((pct < 70)%Q -> pct_to_level pct = 1%Z) /\
  ((70 <= pct)%Q -> (pct < 100)%Q -> pct_to_level pct = 2%Z) /\
  ((100 <= pct)%Q -> (pct < 150)%Q -> pct_to_level pct = 3%Z) /\
  ((150 <= pct)%Q -> pct_to_level pct = 4%Z).
Proof.
  unfold pct_to_level.
  destruct (Qlt_le_dec pct 70); [| destruct (Qlt_le_dec pct 100);
                                    [| destruct (Qlt_le_dec pct 150)]];
    repeat split; intros; try reflexivity; lra.
Qed.

(** The subway estimator swallows every failure of its lookup: it always
    returns, with a level between 1 and 4. *)
Lemma subway_crowd_level_returns (station : json) (now : datetime) (w : World) :
  exists lvl best w',
    subway_crowd_level station now w = (Ok (lvl, best), w') /\ (1 <= lvl <= 4)%Z.
Proof.
  assert (forall lvl w1, exists best w',
            (if (3 <=? lvl)%Z then random_choice 1 10
             else if (lvl =? 2)%Z then random_choice 2 9
             else random_randint 1 10) w1 = (Ok best, w')) as Hbest.
  { intros lvl w1. destruct (3 <=? lvl)%Z; [| destruct (lvl =? 2)%Z];
      eexists; eexists; reflexivity. }
  unfold subway_crowd_level.
  match goal with
  | |- context [bind (try_except ?m ?h) _] =>
      assert (exists lvl w1, try_except m h w = (Ok lvl, w1) /\ (1 <= lvl <= 4)%Z)
        as (lvl & w1 & El & Hl)
  end.
  { unfold try_except, bind, lift, ret, _load_sub_df.
    destruct (_sub_df w) as [df|]; [| destruct (subway_csv w) as [| |df]];
      try (eexists; eexists; split; [reflexivity | lia]);
      (destruct (DAY_TYPE (weekday now)) as [day|];
         [| eexists; eexists; split; [reflexivity | lia]]);
      (destruct (congest_pct_mean df day station _) as [[pct|]|];
         eexists; eexists; (split; [reflexivity |]);
         try lia; apply pct_to_level_range). }
  destruct (Hbest lvl w1) as (best & w' & Eb).
  exists lvl, best, w'. split; [| exact Hl].
  unfold bind at 1. rewrite El. unfold bind at 1. rewrite Eb. reflexivity.
Qed.

(** The bus estimator returns a level between 1 and 4 as long as reading the
    CSV does not fail. *)
Lemma bus_crowd_level_returns (route_id : json) (now : datetime) (w : World) :
  (_bus_df w = None -> bus_csv w <> CsvBroken) ->
  exists lvl w', bus_crowd_level route_id now w = (Ok lvl, w') /\ (1 <= lvl <= 4)%Z.
Proof.
  intros Hread. unfold bus_crowd_level, bind, _load_bus_df, try_except, lift, ret.
  destruct (_bus_df w) as [df|].
  - destruct (py_int route_id) as [rid|];
      [| eexists; eexists; split; [reflexivity | lia]].
    destruct (board_num_mean df rid (hour now)) as [[b|]|];
      try (eexists; eexists; split; [reflexivity | lia]).
    eexists; eexists; split; [reflexivity |].
    destruct (Qlt_le_dec b 10); [lia |].
    destruct (Qlt_le_dec b 25); [lia |].
    destruct (Qlt_le_dec b 40); lia.
  - destruct (bus_csv w) as [| |df].
    + eexists; eexists; split; [reflexivity | lia].
    + exfalso. apply Hread; reflexivity.
    + destruct (py_int route_id) as [rid|];
        [| eexists; eexists; split; [reflexivity | lia]].
      destruct (board_num_mean df rid (hour now)) as [[b|]|];
        try (eexists; eexists; split; [reflexivity | lia]).
      eexists; eexists; split; [reflexivity |].
      destruct (Qlt_le_dec b 10); [lia |].
      destruct (Qlt_le_dec b 25); [lia |].
      destruct (Qlt_le_dec b 40); lia.
Qed.

(** The level the subway estimator returns: the thresholds applied to the
    observed percentage, 2 when the table cannot be loaded, when the lookup
    raises, or when there is no observation. *)
Lemma subway_crowd_level_level (station : json) (now : datetime) (w : World) :
  exists best w',
    subway_crowd_level station now w =
    (Ok (match (match _sub_df w with
                | Some df => Some df
                | None => match subway_csv w with
                          | CsvData df => Some df
                          | _ => None
                          end
                end) with
         | Some df =>
             match DAY_TYPE (weekday now) with
             | Ok day =>
                 match congest_pct_mean df day station
                         (strftime_HHMM (hour now)
                            (if (minute now <? 30)%Z then 0 else 30)) with
                 | Ok (Some pct) => pct_to_level pct
                 | _ => 2%Z
                 end
             | Raise => 2%Z
             end
         | None => 2%Z
         end, best), w').
Proof.
  assert (forall lvl w1, exists best w',
            (if (3 <=? lvl)%Z then random_choice 1 10
             else if (lvl =? 2)%Z then random_choice 2 9
             else random_randint 1 10) w1 = (Ok best, w')) as Hbest.
  { intros lvl w1. destruct (3 <=? lvl)%Z; [| destruct (lvl =? 2)%Z];
      eexists; eexists; reflexivity. }
  unfold subway_crowd_level, bind at 1, try_except, bind, lift, ret, _load_sub_df.
  destruct (_sub_df w) as [df|]; [| destruct (subway_csv w) as [| |df]];
    try (destruct (DAY_TYPE (weekday now)) as [day|];
         [destruct (congest_pct_mean df day station _) as [[pct|]|] |]);
    match goal with
    | |- context [(if (3 <=? ?lvl)%Z then _ else _) ?w1] =>
        destruct (Hbest lvl w1) as (best & w' & ->)
    end;
    exists best, w'; reflexivity.
Qed.

(** The level the bus estimator returns when the table is loaded: the
    thresholds applied to the mean boarding count, 2 when the lookup raises
    or when there is no observation; and 2 when there is no CSV. *)
Lemma bus_crowd_level_level (route_id : json) (now : datetime) (w : World)
    (df : bus_frame) :
  _bus_df w = Some df \/ (_bus_df w = None /\ bus_csv w = CsvData df) ->
  exists w',
    bus_crowd_level route_id now w =
    (Ok (match py_int route_id with
         | Ok rid =>
             match board_num_mean df rid (hour now) with
             | Ok (Some b) =>
                 if Qlt_le_dec b 10 then 1%Z
                 else if Qlt_le_dec b 25 then 2%Z
                 else if Qlt_le_dec b 40 then 3%Z
                 else 4%Z
             | _ => 2%Z
             end
         | Raise => 2%Z
         end), w').
Proof.
  intros Hdf. unfold bus_crowd_level, bind, _load_bus_df, try_except, lift, ret.
  destruct Hdf as [-> | [-> ->]];
    (destruct (py_int route_id) as [rid|]; [| eexists; reflexivity]);
    (destruct (board_num_mean df rid (hour now)) as [[b|]|]; eexists; reflexivity).
Qed.

Lemma bus_crowd_level_no_source (route_id : json) (now : datetime) (w : World) :
  _bus_df w = None -> bus_csv w = CsvMissing ->
  bus_crowd_level route_id now w = (Ok 2%Z, w).
Proof.
  intros Hc Hf. unfold bus_crowd_level, bind, _load_bus_df. rewrite Hc, Hf. reflexivity.
Qed.

(** A CSV that [pd.read_csv] rejects makes the bus estimator raise, whatever
    the route and the time: [_load_bus_df] is called outside the [try]. *)
Lemma bus_crowd_level_read_error (route_id : json) (now : datetime) (w : World) :
  _bus_df w = None -> bus_csv w = CsvBroken ->
  bus_crowd_level route_id now w = (Raise, w).
Proof.
  intros Hc Hf. unfold bus_crowd_level, bind, _load_bus_df. rewrite Hc, Hf. reflexivity.
Qed.

End Crowd.

(** Inversion of a successful bind. *)
Lemma bind_inv {A B : Type} (m : M A) (k : A -> M B) (w w' : World) (b : B) :
  bind m k w = (Ok b, w') ->
  exists a w1, m w = (Ok a, w1) /\ k a w1 = (Ok b, w').
Proof.
  unfold bind. destruct (m w) as [[a|] w1]; intros E; [| discriminate E].
  exists a, w1. split; [reflexivity | exact E].
Qed.

Lemma bind_ok {A B : Type} (m : M A) (k : A -> M B) (w w1 : World) (a : A) :
  m w = (Ok a, w1) -> bind m k w = k a w1.
Proof.
  intros E. unfold bind. rewrite E. reflexivity.
Qed.

Ltac bind_inv_in E :=
  let a := fresh "a" in
  let w1 := fresh "w" in
  let E1 := fresh "E" in
  apply bind_inv in E; destruct E as (a & w1 & E1 & E); cbv beta zeta in E.

Section Builder.

Context `{Builtins}.

Lemma classify_mode (sp : gmap string json) (now : datetime) (w w' : World)
    (v : leg_vars) :
  classify sp now w = (Ok v, w') -> v_mode v = leg_mode sp.
Proof.
  unfold classify, leg_mode. intros E.
  destruct (py_eq_int (sp !! "trafficType") 1);
    [| destruct (py_eq_int (sp !! "trafficType") 2)].
  - do 3 bind_inv_in E. inversion E; subst. reflexivity.
  - do 5 bind_inv_in E. inversion E; subst. reflexivity.
  - bind_inv_in E. inversion E; subst. reflexivity.
Qed.

Lemma leg_mode_allowed (sp : gmap string json) :
  existsb (String.eqb (leg_mode sp)) allowed = true.
Proof.
  unfold leg_mode.
  destruct (py_eq_int (sp !! "trafficType") 1);
    [| destruct (py_eq_int (sp !! "trafficType") 2)]; reflexivity.
Qed.

(** The [continue] of [paths_to_segs] is never taken: a leg that is built is
    kept, with the mode its traffic type falls under. *)
Lemma build_leg_never_skips (sp : gmap string json) (now : datetime) (w w' : World)
    (o : option Segment) :
  build_leg sp now w = (Ok o, w') ->
  exists s, o = Some s /\ mode s = leg_mode sp.
Proof.
  unfold build_leg. intros E. bind_inv_in E.
  pose proof (classify_mode _ _ _ _ _ E0) as Hm.
  rewrite Hm, leg_mode_allowed in E. simpl negb in E. cbv iota in E.
  do 2 bind_inv_in E. inversion E; subst.
  eexists. split; reflexivity.
Qed.

Lemma build_legs_keeps_every_leg (paths : list (gmap string json)) (now : datetime) :
  forall (w w' : World) (segs : list Segment),
    build_legs paths now w = (Ok segs, w') ->
    Forall2 (fun sp s => mode s = leg_mode sp) paths segs.
Proof.
  induction paths as [|sp rest IH]; intros w w' segs E.
  - inversion E; subst. constructor.
  - simpl build_legs in E. do 2 bind_inv_in E.
    destruct (build_leg_never_skips _ _ _ _ _ E0) as (s & -> & Hs).
    inversion E; subst. constructor; [exact Hs |].
    eapply IH; exact E1.
Qed.

(** Whenever [paths_to_segs] returns, it has one segment per raw leg, in
    order, each of mode SUBWAY, BUS or WALK; a leg of any traffic type other
    than 1 and 2 comes out as a WALK segment. *)
Lemma paths_to_segs_keeps_every_leg (paths : list (gmap string json))
    (prefs : option (gmap string json)) (w w' : World) (segs : list Segment) :
  paths_to_segs paths prefs w = (Ok segs, w') ->
  Forall2 (fun sp s => mode s = leg_mode sp /\ In (mode s) allowed) paths segs.
Proof.
  unfold paths_to_segs. intros E. bind_inv_in E.
  apply build_legs_keeps_every_leg in E.
  eapply Forall2_impl; [exact E |].
  intros sp s Hs. split; [exact Hs |]. rewrite Hs.
  unfold leg_mode, allowed.
  destruct (py_eq_int (sp !! "trafficType") 1);
    [| destruct (py_eq_int (sp !! "trafficType") 2)]; simpl; tauto.
Qed.

End Builder.

(** ** Concrete runs *)

(** C2. A train leg (traffic type 4) is not dropped: it comes out as a WALK
    segment whose duration is its distance at walking speed. *)
Theorem unsupported_leg_becomes_walk :
  @paths_to_segs no_conversion [train_leg] None (world_with NoFile)
  = (Ok [{| mode := "WALK"; name := JStr "도보"; distance_m := JInt 1300;
            duration_min := 16.67; crowd := 1; best_car := None; poly := [] |}],
     world_with NoFile).
Proof. vm_compute. reflexivity. Qed.

(** C8. With crowd CSVs that cannot be read, the subway estimator falls back
    to level 2 while the bus estimator raises. *)
Theorem bus_estimator_propagates_read_error :
  fst (subway_crowd_level (JStr "2") monday_morning broken_csv_world)
  = Ok (2%Z, 2%Z) /\
  @bus_crowd_level no_conversion (JInt 100) monday_morning broken_csv_world
  = (Raise, broken_csv_world).
Proof. split; vm_compute; reflexivity. Qed.




Lemma choose_best_route_first_minimum_witness :
  exists (i : nat) (r : list Segment) (s : Q),
    @choose_best_route no_conversion example_routes None (world_with NoFile)
    = (Ok ((Z.of_nat i + 1)%Z, r), world_with NoFile) /\
    example_routes !! i = Some r /\
    [29; 5; 5]%Q !! i = Some s /\
    (forall j sj, [29; 5; 5]%Q !! j = Some sj -> (s <= sj)%Q) /\
    (forall j sj, [29; 5; 5]%Q !! j = Some sj -> (j < i)%nat -> (s < sj)%Q).
Proof.
  apply (@choose_best_route_first_minimum no_conversion example_routes None
           (world_with NoFile) [29; 5; 5]%Q).
  - discriminate.
  - repeat constructor; vm_compute; reflexivity.
Defined.

Lemma learn_bounded_converging_witness :
  exists (p : gmap string json) (w' : World),
    @learn_from_choice no_conversion [leg "SUBWAY" 10 2] 0.5 (world_with NoFile)
    = (Ok p, w') /\
    (exists bias,
       p !! "mode_bias" = Some (JObj bias) /\
       forall k v, bias !! k = Some v ->
         exists q, py_num v = Some q /\ (-10 <= q <= 10)%Q) /\
    p !! "runs" = Some (JInt 1) /\
    exists N : nat, forall n, (N <= n)%nat ->
      exists pn wn bias,
        @learn_repeatedly no_conversion (S n) [leg "SUBWAY" 10 2] 0.5 None
          (world_with NoFile) = (Ok (Some pn), wn) /\
        pn !! "mode_bias" = Some (JObj bias) /\
        bias !! "SUBWAY" = Some (JFloat 10) /\
        bias !! "BUS" = Some (JFloat (-10)) /\
        bias !! "WALK" = Some (JFloat (-10)).
Proof.
  pose proof (@learn_bounded_converging no_conversion [leg "SUBWAY" 10 2] 0.5
                (world_with NoFile)) as Hthm.
  destruct (@learn_from_choice no_conversion [leg "SUBWAY" 10 2] 0.5 (world_with NoFile))
    as [[p|] w'] eqn:E; [| vm_compute in E; discriminate E].
  destruct (Hthm w' p eq_refl)
    as (Hbound & (stored & runs & Hload & _ & _ & Hint) & Hret & Hconv).
  assert (@load_prefs no_conversion (world_with NoFile)
          = (Ok DEFAULT_PREFS, world_with NoFile)) as Hload'
    by (vm_compute; reflexivity).
  assert (stored = DEFAULT_PREFS) as -> by congruence.
  exists p, w'. split; [reflexivity |]. split; [exact Hbound |]. split.
  - apply (Hint 0%Z). reflexivity.
  - destruct Hconv as (N & HN); [vm_compute; discriminate |].
    exists N. intros n Hn. specialize (Hret n). specialize (HN n).
    destruct (@learn_repeatedly no_conversion (S n) [leg "SUBWAY" 10 2] 0.5 None
                (world_with NoFile)) as [[[pn|]|] wn].
    + destruct (HN pn wn Hn eq_refl) as (bias & Hbias & Hm).
      exists pn, wn, bias. split; [reflexivity |]. split; [exact Hbias |].
      split; [| split].
      * exact (Hm "SUBWAY" (or_introl eq_refl)).
      * exact (Hm "BUS" (or_intror (or_introl eq_refl))).
      * exact (Hm "WALK" (or_intror (or_intror (or_introl eq_refl)))).
    + destruct Hret.
    + destruct Hret as (q & Hq). exfalso. apply Hq. reflexivity.
Defined.

(** C5, as stated, fails for learning rates that move nothing.  With
    [lr = 0] the biases of a machine whose file holds the defaults stay at 0,
    however often the same subway ride is learnt.  On doubles the same
    happens with a small positive rate: both [1.0 + 1e-17] and
    [1.0 - 1e-17 / 2] are [1.0], so a bias of 1.0 never moves. *)
Lemma learning_can_stall :
  (exists p w',
     @learn_from_choice no_conversion [leg "SUBWAY" 10 2] 0 fresh_prefs_world
     = (Ok p, w')) /\
  (forall n : nat,
     exists pn wn bias q,
       @learn_repeatedly no_conversion (S n) [leg "SUBWAY" 10 2] 0 None
         fresh_prefs_world = (Ok (Some pn), wn) /\
       pn !! "mode_bias" = Some (JObj bias) /\
       bias !! "SUBWAY" = Some (JFloat q) /\
       (q == 0)%Q) /\
  (forall n : nat,
     Nat.iter n (fun b => clamp_f64 (nudge_f64 true 1e-17 b)) 1%float = 1%float /\
     Nat.iter n (fun b => clamp_f64 (nudge_f64 false 1e-17 b)) 1%float = 1%float).
Proof.
  split; [eexists; eexists; vm_compute; reflexivity |].
  split;
    [| intros n; induction n as [|n [IH1 IH2]]; [split; reflexivity |];
       rewrite !Nat.iter_succ, IH1, IH2; split; vm_compute; reflexivity].
  intros n.
  assert (biased fresh_prefs_world DEFAULT_PREFS (fun _ => 0%Q)) as Hb.
  { split; [reflexivity |]. exists DEFAULT_BIAS, 0%Z.
    split; [reflexivity |]. split; [reflexivity |]. split.
    - intros k v Hk. unfold DEFAULT_BIAS in Hk.
      apply lookup_insert_Some in Hk as [[_ <-]|[_ Hk]];
        [exists 0%Q; split; [reflexivity | lra] |].
      apply lookup_insert_Some in Hk as [[_ <-]|[_ Hk]];
        [exists 0%Q; split; [reflexivity | lra] |].
      apply lookup_singleton_Some in Hk as [_ <-].
      exists 0%Q. split; [reflexivity | lra].
    - intros m [<-|[<-|[<-|[]]]]; reflexivity. }
  pose proof (@learn_repeatedly_from no_conversion [leg "SUBWAY" 10 2] 0 (S n)
                fresh_prefs_world DEFAULT_PREFS (fun _ => 0%Q) 0 Hb eq_refl) as Hinv.
  change (@learn_repeatedly no_conversion (S n) [leg "SUBWAY" 10 2] 0
            (Some DEFAULT_PREFS) fresh_prefs_world)
    with (@learn_repeatedly no_conversion (S n) [leg "SUBWAY" 10 2] 0
            None fresh_prefs_world) in Hinv.
  destruct (@learn_repeatedly no_conversion (S n) [leg "SUBWAY" 10 2] 0 None
              fresh_prefs_world) as [[[pn|]|] wn].
  - destruct Hinv as ((_ & bias & r & Hbias & _ & _ & Hmodes) & _).
    exists pn, wn, bias. eexists. split; [reflexivity |]. split; [exact Hbias |].
    split; [exact (Hmodes "SUBWAY" (or_introl eq_refl)) |].
    apply bias_step_rate_zero. reflexivity.
  - destruct Hinv.
  - destruct Hinv as (q & Hq). exfalso. apply Hq. reflexivity.
Qed.



Lemma learn_keeps_other_keys_witness :
  exists (p : gmap string json) (w' : World),
    @learn_from_choice no_conversion [leg "SUBWAY" 10 2] 0.5
      (world_with (Holds (JObj saturated_prefs))) = (Ok p, w') /\
    exists stored,
      @load_prefs no_conversion (world_with (Holds (JObj saturated_prefs)))
      = (Ok stored, world_with (Holds (JObj saturated_prefs))) /\
      (forall k, k <> "mode_bias" -> k <> "runs" -> p !! k = stored !! k) /\
      p !! "crowd_weight" = stored !! "crowd_weight" /\
      p !! "max_crowd" = stored !! "max_crowd" /\
      p !! "walk_limit_min" = stored !! "walk_limit_min".
Proof.
  eexists; eexists. split; [vm_compute; reflexivity |].
  eapply (@learn_keeps_other_keys no_conversion [leg "SUBWAY" 10 2] 0.5).
  vm_compute. reflexivity.
Defined.

Lemma load_prefs_merges_defaults_witness :
  exists p,
    @load_prefs no_conversion (world_with partial_bias_file)
    = (Ok p, world_with partial_bias_file) /\
    p !! "mode_bias" = Some (JObj {[ "SUBWAY" := JFloat 1 ]}) /\
    p !! "max_crowd" = Some (JInt 4).
Proof.
  destruct (@load_prefs_merges_defaults no_conversion (world_with partial_bias_file)
              {[ "mode_bias" := JObj {[ "SUBWAY" := JFloat 1 ]} ]})
    as (p & Hload & Hk & _ & Hkeep); [vm_compute; reflexivity |].
  exists p. split; [exact Hload |]. split.
  - apply Hkeep. reflexivity.
  - rewrite Hk. reflexivity.
Defined.

(** C7, as stated, fails on partial data: a stored [mode_bias] with one mode
    is returned as it is, without entries for BUS and WALK. *)
Lemma load_prefs_keeps_partial_bias :
  exists (p bias : gmap string json),
    @load_prefs no_conversion (world_with partial_bias_file)
    = (Ok p, world_with partial_bias_file) /\
    p !! "mode_bias" = Some (JObj bias) /\
    bias !! "BUS" = None /\
    bias !! "WALK" = None.
Proof.
  eexists; eexists. split; [vm_compute; reflexivity |].
  split; [vm_compute; reflexivity |]. split; vm_compute; reflexivity.
Qed.

(** A file that holds a non-empty JSON array makes [load_prefs] raise: the
    merge with the defaults is outside the [try]. *)
Lemma load_prefs_raises_on_array :
  @load_prefs no_conversion (world_with (Holds (JArr [JInt 1])))
  = (Raise, world_with (Holds (JArr [JInt 1]))).
Proof. reflexivity. Qed.

(** ** More on the preferences store *)

Section Store.

Context `{Builtins}.

Lemma load_prefs_of_stored (w : World) (m : gmap string json) :
  stored_object (pref_file w) = Some m ->
  load_prefs w = (Ok (m ∪ DEFAULT_PREFS), w).
Proof.
  intros Hs. unfold load_prefs, stored_object, py_or in *.
  destruct (pref_file w) as [| |j].
  - inversion Hs; subst m. change (truthy (JObj ∅)) with false. cbv iota.
    rewrite migrate_merged. reflexivity.
  - inversion Hs; subst m. change (truthy (JObj ∅)) with false. cbv iota.
    rewrite migrate_merged. reflexivity.
  - destruct (truthy j) eqn:Ht.
    + destruct j; try discriminate Hs. inversion Hs; subst.
      rewrite migrate_merged. reflexivity.
    + inversion Hs; subst m. rewrite migrate_merged. reflexivity.
Qed.

Lemma load_prefs_not_stored (w : World) :
  stored_object (pref_file w) = None -> load_prefs w = (Raise, w).
Proof.
  intros Hs. unfold load_prefs, stored_object, py_or in *.
  destruct (pref_file w) as [| |j]; try discriminate Hs.
  destruct (truthy j); [| discriminate Hs].
  destruct j; try reflexivity. discriminate Hs.
Qed.

End Store.

Section Migration.

Context `{Builtins}.

(** X3. [_migrate_bias] leaves a dict that has a [mode_bias] as it is.  On a
    dict without one it adds a [mode_bias] whose three entries are the legacy
    preference minus the legacy penalty (each 0.0 when absent), changes no
    other key, and applying it again changes nothing. *)
Theorem migrate_bias_spec (p p' : gmap string json) :
  _migrate_bias p = Ok p' ->
  (is_Some (p !! "mode_bias") -> p' = p) /\
  (p !! "mode_bias" = None ->
   exists bias,
     p' !! "mode_bias" = Some (JObj bias) /\
     forall m, In m allowed ->
       exists a b,
         (let? x := py_get (py_or (default JNull (p !! "mode_preference")) (JObj ∅))
                           m (JFloat 0) in py_float x) = Ok a /\
         (let? x := py_get (py_or (default JNull (p !! "mode_penalty")) (JObj ∅))
                           m (JFloat 0) in py_float x) = Ok b /\
         bias !! m = Some (JFloat (a - b))) /\
  (forall k, k <> "mode_bias" -> p' !! k = p !! k) /\
  _migrate_bias p' = Ok p'.
Proof.
  unfold _migrate_bias. destruct (p !! "mode_bias") as [v|] eqn:Eb.
  - intros E. inversion E; subst p'. rewrite Eb.
    repeat split; try reflexivity. intros Hn. discriminate Hn.
  - intros E. step_in E. step_in E. step_in E.
    inversion E; subst p'. clear E. rewrite lookup_insert_eq.
    assert (forall m v,
              migrated (py_or (default JNull (p !! "mode_preference")) (JObj ∅))
                       (py_or (default JNull (p !! "mode_penalty")) (JObj ∅)) m = Ok v ->
              exists a b,
                (let? x := py_get (py_or (default JNull (p !! "mode_preference")) (JObj ∅))
                                  m (JFloat 0) in py_float x) = Ok a /\
                (let? x := py_get (py_or (default JNull (p !! "mode_penalty")) (JObj ∅))
                                  m (JFloat 0) in py_float x) = Ok b /\
                v = JFloat (a - b)) as Hmig.
    { intros m v Em. unfold migrated in Em.
      step_in Em. step_in Em. step_in Em. step_in Em. inversion Em; subst v.
      exists a3, a5. repeat split. }
    split; [intros (x & Hx); discriminate Hx |]. split; [| split].
    + intros _. eexists. split; [reflexivity |].
      intros m [<-|[<-|[<-|[]]]].
      * destruct (Hmig _ _ R) as (x & y & Hx & Hy & ->). exists x, y.
        split; [exact Hx |]. split; [exact Hy |]. reflexivity.
      * destruct (Hmig _ _ R0) as (x & y & Hx & Hy & ->). exists x, y.
        split; [exact Hx |]. split; [exact Hy |]. reflexivity.
      * destruct (Hmig _ _ R1) as (x & y & Hx & Hy & ->). exists x, y.
        split; [exact Hx |]. split; [exact Hy |]. reflexivity.
    + intros k Hk. rewrite lookup_insert_ne by congruence. reflexivity.
    + reflexivity.
Qed.

(** X4. [load_prefs] never migrates: the defaults, which carry a [mode_bias],
    are merged in before [_migrate_bias] runs, so the legacy keys
    [mode_preference] and [mode_penalty] of the stored object have no effect
    on the [mode_bias] that is returned. *)
Theorem load_prefs_ignores_legacy_keys (m : gmap string json) (pref pen : json)
    (w : World) :
  exists s,
    load_prefs (set_pref_file
                  (Holds (JObj (<["mode_preference" := pref]>
                                  (<["mode_penalty" := pen]> m)))) w)
    = (Ok s, set_pref_file
               (Holds (JObj (<["mode_preference" := pref]>
                               (<["mode_penalty" := pen]> m)))) w) /\
    s !! "mode_bias" = Some (default (JObj DEFAULT_BIAS) (m !! "mode_bias")) /\
    s !! "mode_preference" = Some pref /\
    s !! "mode_penalty" = Some pen.
Proof.
  eexists. split.
  - apply load_prefs_of_stored. simpl.
    destruct (map_to_list _) eqn:Em; [| reflexivity].
    apply map_to_list_empty_iff in Em.
    apply (f_equal (fun x => x !! "mode_preference")) in Em.
    rewrite lookup_insert_eq, lookup_empty in Em. discriminate Em.
  - split; [| split].
    + rewrite lookup_union. rewrite !lookup_insert_ne by discriminate.
      destruct (m !! "mode_bias"); reflexivity.
    + apply lookup_union_Some_l. apply lookup_insert_eq.
    + apply lookup_union_Some_l. rewrite lookup_insert_ne by discriminate.
      apply lookup_insert_eq.
Qed.

(** X5. A preferences file that holds a truthy JSON value other than an
    object makes [load_prefs] raise, and with it [score_route] (also with
    complete session preferences), [choose_best_route] on a non-empty list,
    [learn_from_choice] and [paths_to_segs] without preferences; the world is
    left as it was. *)
Theorem non_object_prefs_file_raises (w : World) :
  stored_object (pref_file w) = None ->
  load_prefs w = (Raise, w) /\
  (forall segs prefs, score_route segs prefs w = (Raise, w)) /\
  (forall r rs prefs, choose_best_route (r :: rs) prefs w = (Raise, w)) /\
  (forall segs lr, learn_from_choice segs lr w = (Raise, w)) /\
  (forall paths, paths_to_segs paths None w = (Raise, w)).
Proof.
  intros Hs. pose proof (load_prefs_not_stored w Hs) as Hl.
  assert (forall segs prefs, score_route segs prefs w = (Raise, w)) as Hscore.
  { intros segs prefs. unfold score_route, bind. rewrite Hl. reflexivity. }
  split; [exact Hl |]. split; [exact Hscore |]. split; [| split].
  - intros r rs prefs. unfold choose_best_route. simpl score_all.
    unfold bind at 1. unfold bind at 1. rewrite Hscore. reflexivity.
  - intros segs lr. unfold learn_from_choice, bind. rewrite Hl. reflexivity.
  - intros paths. unfold paths_to_segs, bind. rewrite Hl. reflexivity.
Qed.

End Migration.

(** ** More on scoring *)

Section MoreScoring.

Context `{Builtins}.

Lemma score_loop_max_crowd_only (p q : gmap string json) (bias : json) (cw : Q)
    (segs : list Segment) :
  p !! "max_crowd" = q !! "max_crowd" ->
  forall sc wk, score_loop p bias cw segs sc wk = score_loop q bias cw segs sc wk.
Proof.
  intros Hm. induction segs as [|s rest IH]; intros sc wk; [reflexivity |].
  simpl score_loop. rewrite Hm.
  destruct (py_get bias (mode s) (JFloat 0)) as [x|]; [| reflexivity]. simpl obind.
  destruct (py_float x) as [b|]; [| reflexivity]. simpl obind.
  destruct (py_gt _ _) as [o|]; [| reflexivity]. simpl obind.
  apply IH.
Qed.

Lemma score_with_four_keys (p q : gmap string json) (segs : list Segment) :
  p !! "crowd_weight" = q !! "crowd_weight" ->
  p !! "max_crowd" = q !! "max_crowd" ->
  p !! "walk_limit_min" = q !! "walk_limit_min" ->
  p !! "mode_bias" = q !! "mode_bias" ->
  score_with p segs = score_with q segs.
Proof.
  intros H1 H2 H3 H4. unfold score_with. rewrite H1, H3, H4.
  destruct (py_float _) as [cw|]; [| reflexivity]. simpl obind.
  rewrite (score_loop_max_crowd_only p q _ _ _ H2). reflexivity.
Qed.

(** X6. Session preferences that carry the four scoring keys replace the
    stored ones entirely: as long as the preferences file can be loaded, the
    score is the one computed from the session preferences alone, whatever
    the file holds. *)
Theorem session_prefs_override_file (segs : list Segment) (prefs : gmap string json)
    (w : World) (stored : gmap string json) :
  load_prefs w = (Ok stored, w) ->
  (forall k, In k ["crowd_weight"; "max_crowd"; "walk_limit_min"; "mode_bias"] ->
     is_Some (prefs !! k)) ->
  score_route segs (Some prefs) w = (score_with prefs segs, w).
Proof.
  intros Hl Hk. rewrite (score_route_unfold _ _ _ _ Hl). f_equal.
  simpl merged_prefs.
  assert (forall k, In k ["crowd_weight"; "max_crowd"; "walk_limit_min"; "mode_bias"] ->
            (prefs ∪ stored) !! k = prefs !! k) as Hu.
  { intros k Hin. destruct (Hk k Hin) as (v & Hv).
    rewrite Hv. apply lookup_union_Some_l. exact Hv. }
  apply score_with_four_keys; apply Hu; simpl; tauto.
Qed.

Lemma score_loop_crowd_mono (p : gmap string json) (bias : json) (cw maxc : Q) :
  (0 <= cw)%Q ->
  py_num (default (JInt 4) (p !! "max_crowd")) = Some maxc ->
  forall (segs : list Segment) (i : nat) (seg : Segment) (c' : Z) (sc sc2 wk a b : Q),
    segs !! i = Some seg ->
    (crowd seg <= c')%Z ->
    score_loop p bias cw segs sc wk = Ok (a, b) ->
    exists a2 : Q,
      score_loop p bias cw (<[i := with_crowd seg c']> segs) sc2 wk = Ok (a2, b) /\
      (a - sc <= a2 - sc2)%Q.
Proof.
  intros Hcw Hmax. induction segs as [|s rest IH];
    intros i seg c' sc sc2 wk a b Hi Hc E.
  - destruct i; discriminate Hi.
  - destruct i as [|i].
    + simpl in Hi. inversion Hi; subst s. clear Hi.
      simpl score_loop in *.
      step_in E. step_in E. step_in E.
      simpl obind. unfold py_gt in *. rewrite Hmax in *. simpl obind.
      inversion R1; subst a2. clear R1.
      rewrite Zle_Qle in Hc.
      pose proof (inject_Z_pred (crowd seg)) as H1.
      pose proof (inject_Z_pred c') as H2.
      assert (0 <= cw * (inject_Z c' - inject_Z (crowd seg)))%Q as Hprod
        by (apply Qmult_le_0_compat; lra).
      simpl crowd in *.
      destruct (Qlt_le_dec maxc (inject_Z (crowd seg))) as [L|L];
        destruct (Qlt_le_dec maxc (inject_Z c')) as [L'|L'];
        try lra;
        (eapply score_loop_shift in E; destruct E as (a2 & E2 & Ha2);
         exists a2; split; [exact E2 | nra]).
    + simpl in Hi. simpl score_loop in *.
      step_in E. step_in E. step_in E.
      simpl obind.
      destruct a2 as [|];
        (eapply IH in E; [| exact Hi | exact Hc]; destruct E as (a2' & E2 & Ha2);
         exists a2'; split; [exact E2 | lra]).
Qed.

(** X7. With a non-negative crowd weight, raising the crowd level of one
    segment never lowers the score of the route. *)
Theorem score_monotone_in_crowd (segs : list Segment) (prefs : option (gmap string json))
    (w : World) (stored : gmap string json) (i : nat) (seg : Segment)
    (cw maxc : Q) (c' : Z) (s : Q) :
  load_prefs w = (Ok stored, w) ->
  py_float (default (JFloat 0) (merged_prefs stored prefs !! "crowd_weight")) = Ok cw ->
  (0 <= cw)%Q ->
  py_num (default (JInt 4) (merged_prefs stored prefs !! "max_crowd")) = Some maxc ->
  segs !! i = Some seg ->
  (crowd seg <= c')%Z ->
  score_route segs prefs w = (Ok s, w) ->
  exists s' : Q,
    score_route (<[i := with_crowd seg c']> segs) prefs w = (Ok s', w) /\
    (s <= s')%Q.
Proof.
  intros Hload Hcw Hpos Hmax Hi Hc E.
  rewrite (score_route_unfold _ _ _ _ Hload).
  rewrite (score_route_unfold _ _ _ _ Hload) in E.
  assert (score_with (merged_prefs stored prefs) segs = Ok s) as E' by congruence.
  clear E. unfold score_with in *. rewrite Hcw in *. simpl obind in *.
  step_in E'. destruct a as [a b].
  destruct (score_loop_crowd_mono _ _ _ _ Hpos Hmax segs i seg c' 0 0 0 a b Hi Hc R)
    as (a2 & E2 & Ha2).
  rewrite E2. simpl obind. simpl fst in *; simpl snd in *.
  step_in E'. inversion E'; subst s.
  destruct a0; eexists; (split; [reflexivity | lra]).
Qed.

Lemma inject_Z_succ_count (b : bool) (z : Z) :
  (inject_Z ((if b then 1 else 0) + z) == (if b then 1 else 0) + inject_Z z)%Q.
Proof.
  rewrite inject_Z_plus. destruct b; reflexivity.
Qed.

Lemma score_loop_bias_shift (p : gmap string json) (bm : gmap string json)
    (cw : Q) (m : string) (b d : Q) :
  py_float (default (JFloat 0) (bm !! m)) = Ok b ->
  forall (segs : list Segment) (sc sc2 wk a wk' : Q),
    score_loop p (JObj bm) cw segs sc wk = Ok (a, wk') ->
    exists a2 : Q,
      score_loop p (JObj (<[m := JFloat (b + d)]> bm)) cw segs sc2 wk = Ok (a2, wk') /\
      (a2 - sc2 == a - sc - d * inject_Z (count_mode m segs))%Q.
Proof.
  intros Hb. induction segs as [|s rest IH]; intros sc sc2 wk a wk' E.
  - simpl in *. inversion E; subst. exists sc2. split; [reflexivity |].
    change (inject_Z 0) with 0%Q. lra.
  - simpl score_loop in *. unfold py_get in *. simpl obind in *.
    simpl count_mode.
    pose proof (inject_Z_succ_count (String.eqb (mode s) m) (count_mode m rest)) as Hc.
    destruct (String.eqb_spec (mode s) m) as [Em|Em].
    + rewrite Em in *. rewrite lookup_insert_eq. simpl default. simpl py_float.
      simpl obind. rewrite Hb in E. simpl obind in E.
      step_in E.
      destruct a0;
        (eapply IH in E; destruct E as (a2 & E2 & Ha2); exists a2;
         split; [exact E2 | rewrite Hc; nra]).
    + rewrite lookup_insert_ne by congruence.
      step_in E. step_in E.
      destruct a1;
        (eapply IH in E; destruct E as (a2 & E2 & Ha2); exists a2;
         split; [exact E2 | rewrite Hc; nra]).
Qed.

Lemma score_with_bias_shift (segs : list Segment)
    (prefs bm : gmap string json) (m : string) (b d s : Q) :
  prefs !! "mode_bias" = Some (JObj bm) ->
  py_float (default (JFloat 0) (bm !! m)) = Ok b ->
  score_with prefs segs = Ok s ->
  exists s' : Q,
    score_with (<["mode_bias" := JObj (<[m := JFloat (b + d)]> bm)]> prefs) segs = Ok s' /\
    (s' == s - d * inject_Z (count_mode m segs))%Q.
Proof.
  intros Hbm Hb E. unfold score_with in *.
  rewrite lookup_insert_eq. rewrite !lookup_insert_ne by discriminate.
  rewrite Hbm in E. simpl default in *.
  step_in E. step_in E. destruct a0 as [a0 wk].
  destruct (score_loop_bias_shift prefs bm a m b d Hb segs 0 0 0 a0 wk R0)
    as (a2 & E2 & Ha2).
  rewrite (score_loop_max_crowd_only _ prefs)
    by (rewrite lookup_insert_ne by discriminate; reflexivity).
  rewrite E2. simpl obind. simpl fst in *; simpl snd in *.
  step_in E. inversion E; subst s.
  destruct a1; eexists; (split; [reflexivity | lra]).
Qed.

Lemma count_mode_nonneg (m : string) (segs : list Segment) :
  (0 <= count_mode m segs)%Z.
Proof.
  induction segs as [|s rest IH]; simpl; [lia |].
  destruct (String.eqb (mode s) m); lia.
Qed.

Lemma count_mode_rides (m : string) (segs : list Segment) :
  rides segs m = false -> count_mode m segs = 0%Z.
Proof.
  unfold rides. induction segs as [|s rest IH]; simpl; [reflexivity |].
  destruct (String.eqb (mode s) m); simpl; [discriminate |].
  intros Hr. rewrite (IH Hr). reflexivity.
Qed.

(** X8. Raising the bias of one mode in the session preferences never raises
    the score of a route, and leaves the score of a route without a segment
    of that mode as it is. *)
Theorem bias_never_raises_score (segs : list Segment)
    (prefs bm : gmap string json) (w : World) (stored : gmap string json)
    (m : string) (b d s : Q) :
  load_prefs w = (Ok stored, w) ->
  prefs !! "mode_bias" = Some (JObj bm) ->
  py_float (default (JFloat 0) (bm !! m)) = Ok b ->
  (0 <= d)%Q ->
  score_route segs (Some prefs) w = (Ok s, w) ->
  exists s' : Q,
    score_route segs
      (Some (<["mode_bias" := JObj (<[m := JFloat (b + d)]> bm)]> prefs)) w
    = (Ok s', w) /\
    (s' <= s)%Q /\
    (rides segs m = false -> (s' == s)%Q).
Proof.
  intros Hl Hbm Hb Hd E.
  rewrite (score_route_unfold _ _ _ _ Hl) in *.
  rewrite (score_route_unfold _ _ _ _ Hl) in E.
  simpl merged_prefs in *. rewrite <- insert_union_l.
  assert (score_with (prefs ∪ stored) segs = Ok s) as E' by congruence.
  destruct (score_with_bias_shift segs (prefs ∪ stored) bm m b d s) as (s' & Es & Hs).
  - apply lookup_union_Some_l. exact Hbm.
  - exact Hb.
  - exact E'.
  - exists s'. rewrite Es. split; [reflexivity |]. split.
    + assert (0 <= inject_Z (count_mode m segs))%Q as Hc.
      { change 0%Q with (inject_Z 0). rewrite <- Zle_Qle. apply count_mode_nonneg. }
      assert (0 <= d * inject_Z (count_mode m segs))%Q as Hprod
        by (apply Qmult_le_0_compat; assumption).
      lra.
    + intros Hr. rewrite Hs, (count_mode_rides m segs Hr). ring.
Qed.

End MoreScoring.

(** ** More on learning *)

Section MoreLearning.

Context `{Builtins}.

(** X9. A value that is not a number under any key of the stored [mode_bias]
    other than the three modes makes [learn_from_choice] raise in the clamping
    loop, before anything is written. *)
Theorem learn_rejects_non_numeric_bias (segs : list Segment) (lr : Q) (w : World)
    (stored bm : gmap string json) (k : string) (v : json) :
  load_prefs w = (Ok stored, w) ->
  stored !! "mode_bias" = Some (JObj bm) ->
  bm !! k = Some v ->
  ~ In k allowed ->
  py_num v = None ->
  learn_from_choice segs lr w = (Raise, w).
Proof.
  intros Hl Hb Hk Hnot Hv. rewrite (learn_from_choice_unfold _ _ _ _ Hl).
  destruct (learn_update stored segs lr) as [p|] eqn:Eu; [| reflexivity].
  exfalso.
  destruct (learn_update_inv _ _ _ _ Eu)
    as (b0 & b3 & bias & runs & Ed & _ & Hother & Ec & _ & _).
  rewrite Hb in Ed. simpl in Ed. inversion Ed; subst b0.
  assert (b3 !! k = Some v) as H3 by (rewrite (Hother k Hnot); exact Hk).
  destruct (clamp_all_lookup _ _ _ _ Ec H3) as (v' & Ev' & _).
  unfold clamp, py_min_float in Ev'. rewrite Hv in Ev'. discriminate Ev'.
Qed.

(** X10. [runs] counts the calls: once a call has returned, leaving [runs]
    at [r], a further call can only raise inside [save_prefs], and after [n]
    further calls that return [runs] is [r + n]. *)
Theorem runs_counts_calls (segs : list Segment) (lr : Q) (w w1 : World)
    (p1 : gmap string json) :
  learn_from_choice segs lr w = (Ok p1, w1) ->
  exists r : Z,
    p1 !! "runs" = Some (JInt r) /\
    forall n : nat,
      match learn_repeatedly n segs lr (Some p1) w1 with
      | (Ok (Some pn), _) => pn !! "runs" = Some (JInt (r + Z.of_nat n))
      | (Ok None, _) => False
      | (Raise, _) => exists q, pref_write w q <> Written
      end.
Proof.
  intros E. destruct (learn_establishes _ _ _ _ _ E) as (f & Hb & _).
  pose proof Hb as (_ & bias & r & _ & Hr & _).
  assert (pref_write w1 = pref_write w) as Hw.
  { destruct (learn_from_choice_inv _ _ _ _ _ E) as (stored & _ & _ & ->).
    reflexivity. }
  exists r. split; [exact Hr |]. intros n.
  pose proof (learn_repeatedly_from segs lr n _ _ _ _ Hb Hr) as Hn.
  destruct (learn_repeatedly n segs lr (Some p1) w1) as [[[pn|]|] wn].
  - destruct Hn as (_ & Hruns & _). exact Hruns.
  - exact Hn.
  - destruct Hn as (q & Hq). exists q. rewrite <- Hw. exact Hq.
Qed.

End MoreLearning.

(** ** More on the crowd estimators *)

Section MoreCrowd.

(** X11. The congestion level never decreases when the observed percentage
    increases. *)
Theorem pct_to_level_monotone (p q : Q) :
  (p <= q)%Q -> (pct_to_level p <= pct_to_level q)%Z.
Proof.
  intros Hpq. unfold pct_to_level.
  destruct (Qlt_le_dec p 70), (Qlt_le_dec q 70); try lia; try lra;
    destruct (Qlt_le_dec p 100), (Qlt_le_dec q 100); try lia; try lra;
    destruct (Qlt_le_dec p 150), (Qlt_le_dec q 150); try lia; lra.
Qed.

(** The suggested car, and the one random draw it costs. *)
Lemma best_car_choice (lvl : Z) (w1 : World) :
  exists best,
    (if (3 <=? lvl)%Z then random_choice 1 10
     else if (lvl =? 2)%Z then random_choice 2 9
     else random_randint 1 10) w1
    = (Ok best, set_rng_pos (S (rng_pos w1)) w1) /\
    ((3 <= lvl)%Z -> best = 1%Z \/ best = 10%Z) /\
    (lvl = 2%Z -> best = 2%Z \/ best = 9%Z) /\
    ((lvl < 2)%Z -> (1 <= best <= 10)%Z).
Proof.
  unfold random_choice, random_randint, random_draw, bind, ret.
  destruct (3 <=? lvl)%Z eqn:E3; [| destruct (lvl =? 2)%Z eqn:E2].
  - eexists. split; [reflexivity |].
    apply Z.leb_le in E3.
    repeat split; intros; try lia. destruct (Z.even _); tauto.
  - eexists. split; [reflexivity |].
    apply Z.leb_gt in E3. apply Z.eqb_eq in E2.
    repeat split; intros; try lia. destruct (Z.even _); tauto.
  - eexists. split; [reflexivity |].
    apply Z.leb_gt in E3. apply Z.eqb_neq in E2.
    repeat split; intros; try lia.
    + pose proof (Z.mod_pos_bound (rng w1 (rng_pos w1)) (10 - 1 + 1)). lia.
    + pose proof (Z.mod_pos_bound (rng w1 (rng_pos w1)) (10 - 1 + 1)). lia.
Qed.

(** The level part of [subway_crowd_level]: it returns, and stores the table
    in the cache exactly when it had to read it and could. *)
Lemma subway_level_part (station : json) (now : datetime) (w : World) :
  exists lvl,
    try_except
      (let! df := _load_sub_df in
       let! day := lift (DAY_TYPE (weekday now)) in
       let hhmm := strftime_HHMM (hour now) (if (minute now <? 30)%Z then 0 else 30) in
       let! pct := lift (congest_pct_mean df day station hhmm) in
       ret (match pct with
            | Some p => pct_to_level p
            | None => 2%Z
            end))
      (ret 2%Z) w
    = (Ok lvl,
       match _sub_df w, subway_csv w with
       | None, CsvData df => set_sub_df (Some df) w
       | _, _ => w
       end) /\
    (1 <= lvl <= 4)%Z /\
    (_sub_df w = None -> (forall df, subway_csv w <> CsvData df) -> lvl = 2%Z).
Proof.
  unfold try_except, bind, lift, ret, _load_sub_df.
  destruct (_sub_df w) as [df|]; [| destruct (subway_csv w) as [| |df]];
    try (exists 2%Z; split; [reflexivity |]; split; [lia | reflexivity]);
    (destruct (DAY_TYPE (weekday now)) as [day|];
       [destruct (congest_pct_mean df day station _) as [[pct|]|] |]);
    eexists; (split; [reflexivity |]); (split; [try lia; apply pct_to_level_range |]);
    intros Hn Hd; try discriminate Hn; exfalso; eapply Hd; reflexivity.
Qed.

(** X12. [subway_crowd_level] always returns.  The suggested car is an end
    car (1 or 10) from level 3 on, car 2 or 9 at level 2, and any car from 1
    to 10 below; the call takes exactly one draw from the random generator
    and touches neither the files nor the bus cache. *)
Theorem subway_best_car_by_level (station : json) (now : datetime) (w : World) :
  exists lvl best w',
    subway_crowd_level station now w = (Ok (lvl, best), w') /\
    (1 <= lvl <= 4)%Z /\
    ((3 <= lvl)%Z -> best = 1%Z \/ best = 10%Z) /\
    (lvl = 2%Z -> best = 2%Z \/ best = 9%Z) /\
    (lvl = 1%Z -> (1 <= best <= 10)%Z) /\
    rng_pos w' = S (rng_pos w) /\
    pref_file w' = pref_file w /\
    subway_csv w' = subway_csv w /\
    bus_csv w' = bus_csv w /\
    _bus_df w' = _bus_df w.
Proof.
  destruct (subway_level_part station now w) as (lvl & El & Hl & _).
  match type of El with _ = (_, ?w0) => set (w1 := w0) in * end.
  destruct (best_car_choice lvl w1) as (best & Eb & H3 & H2 & H1).
  eexists lvl, best, _. split.
  - unfold subway_crowd_level.
    match goal with
    | |- bind (try_except ?m ?h) ?k w = _ =>
        change (try_except m h w = (Ok lvl, w1)) in El;
        unfold bind at 1; rewrite El
    end.
    unfold bind at 1. rewrite Eb. reflexivity.
  - split; [exact Hl |]. split; [exact H3 |]. split; [exact H2 |].
    split; [intros ->; apply H1; lia |].
    unfold w1.
    destruct (_sub_df w) as [df|]; [| destruct (subway_csv w) as [| |df] eqn:Ec];
      repeat split; exact Ec.
Qed.

(** X13. The subway level depends on the time only through the day type,
    the hour and the half hour: two Monday-to-Friday timestamps with the same
    hour, both before or both from minute 30 on, give the same result. *)
Theorem subway_level_half_hour_bucket (station : json) (now1 now2 : datetime)
    (w : World) :
  (0 <= weekday now1 <= 4)%Z ->
  (0 <= weekday now2 <= 4)%Z ->
  hour now1 = hour now2 ->
  ((minute now1 < 30)%Z <-> (minute now2 < 30)%Z) ->
  subway_crowd_level station now1 w = subway_crowd_level station now2 w.
Proof.
  intros H1 H2 Hh Hm. unfold subway_crowd_level.
  assert (DAY_TYPE (weekday now1) = DAY_TYPE (weekday now2)) as ->.
  { unfold DAY_TYPE.
    replace ((0 <=? weekday now1)%Z && (weekday now1 <=? 4)%Z) with true
      by (symmetry; apply andb_true_intro; split; apply Z.leb_le; lia).
    replace ((0 <=? weekday now2)%Z && (weekday now2 <=? 4)%Z) with true
      by (symmetry; apply andb_true_intro; split; apply Z.leb_le; lia).
    reflexivity. }
  rewrite Hh.
  assert ((minute now1 <? 30)%Z = (minute now2 <? 30)%Z) as ->.
  { destruct (Z.ltb_spec (minute now1) 30), (Z.ltb_spec (minute now2) 30);
      try reflexivity; lia. }
  reflexivity.
Qed.

(** X14. The subway table is read at most once: the first call that can read
    the CSV caches it, a call that cannot caches nothing (the file is tried
    again the next time), and once the table is cached the state of the CSV
    on disk no longer matters. *)
Theorem subway_table_cached (station : json) (now : datetime) (w : World) :
  exists lvl best w',
    subway_crowd_level station now w = (Ok (lvl, best), w') /\
    _sub_df w' = match _sub_df w, subway_csv w with
                 | Some df, _ => Some df
                 | None, CsvData df => Some df
                 | None, _ => None
                 end /\
    (_sub_df w = None -> (forall df, subway_csv w <> CsvData df) -> lvl = 2%Z) /\
    (is_Some (_sub_df w) ->
     forall c, fst (subway_crowd_level station now (set_subway_csv c w))
               = Ok (lvl, best)).
Proof.
  destruct (subway_level_part station now w) as (lvl & El & _ & Hmiss).
  match type of El with _ = (_, ?w0) => set (w1 := w0) in * end.
  destruct (best_car_choice lvl w1) as (best & Eb & _).
  eexists lvl, best, _. split; [| split; [| split; [exact Hmiss |]]].
  - unfold subway_crowd_level.
    match goal with
    | |- bind (try_except ?m ?h) ?k w = _ =>
        change (try_except m h w = (Ok lvl, w1)) in El;
        unfold bind at 1; rewrite El
    end.
    unfold bind at 1. rewrite Eb. reflexivity.
  - unfold w1.
    destruct (_sub_df w) as [df|] eqn:Ed;
      [| destruct (subway_csv w) as [| |df] eqn:Ec]; simpl; try assumption; reflexivity.
  - intros (df & Hdf) c.
    destruct (subway_level_part station now (set_subway_csv c w)) as (lvl2 & El2 & _).
    assert (lvl2 = lvl) as ->.
    { revert El El2. unfold try_except, bind, lift, ret, _load_sub_df.
      simpl _sub_df. rewrite Hdf.
      destruct (DAY_TYPE (weekday now)) as [day|];
        [destruct (congest_pct_mean df day station _) as [[pct|]|] |];
        intros E1 E2; inversion E1; inversion E2; congruence. }
    match type of El2 with _ = (_, ?w0) => set (w2 := w0) in * end.
    destruct (best_car_choice lvl w2) as (best2 & Eb2 & _).
    assert (best2 = best) as ->.
    { revert Eb Eb2. unfold w1, w2. simpl _sub_df. rewrite Hdf.
      unfold random_choice, random_randint, random_draw, bind, ret.
      destruct (3 <=? lvl)%Z; [| destruct (lvl =? 2)%Z];
        simpl; intros E1 E2; inversion E1; inversion E2; congruence. }
    unfold subway_crowd_level.
    match goal with
    | |- fst (bind (try_except ?m ?h) ?k _) = _ =>
        change (try_except m h (set_subway_csv c w) = (Ok lvl, w2)) in El2;
        unfold bind at 1; rewrite El2
    end.
    unfold bind at 1. rewrite Eb2. reflexivity.
Qed.

End MoreCrowd.

(** ** More on the segment builder *)

Section MoreBuilder.

Context `{Builtins}.

Lemma subway_crowd_level_ranges (station : json) (now : datetime) (w w' : World)
    (lvl best : Z) :
  subway_crowd_level station now w = (Ok (lvl, best), w') ->
  (1 <= lvl <= 4)%Z /\ (1 <= best <= 10)%Z.
Proof.
  intros E.
  destruct (subway_level_part station now w) as (lvl0 & El & Hl & _).
  match type of El with _ = (_, ?w0) => set (w1 := w0) in * end.
  destruct (best_car_choice lvl0 w1) as (best0 & Eb & H3 & H2 & H1).
  unfold subway_crowd_level in E.
  match type of E with
  | bind (try_except ?m ?h) ?k w = _ =>
      change (try_except m h w = (Ok lvl0, w1)) in El;
      unfold bind at 1 in E; rewrite El in E
  end.
  unfold bind at 1 in E. rewrite Eb in E. inversion E; subst.
  split; [exact Hl |].
  destruct (Z_lt_le_dec lvl 2%Z) as [L|L]; [apply H1; exact L |].
  destruct (Z.eq_dec lvl 2%Z) as [->|N]; [destruct H2; [reflexivity | lia | lia] |].
  destruct H3; lia.
Qed.

Lemma bus_crowd_level_range (route_id : json) (now : datetime) (w w' : World)
    (lvl : Z) :
  bus_crowd_level route_id now w = (Ok lvl, w') -> (1 <= lvl <= 4)%Z.
Proof.
  intros E.
  destruct (bus_crowd_level_returns route_id now w) as (lvl0 & w0 & E0 & Hl).
  - intros Hc Hb. rewrite (bus_crowd_level_read_error _ _ _ Hc Hb) in E.
    discriminate E.
  - rewrite E0 in E. inversion E; subst. exact Hl.
Qed.

(** What [classify] sets, branch by branch. *)
Lemma classify_inv (sp : gmap string json) (now : datetime) (w w' : World)
    (v : leg_vars) :
  classify sp now w = (Ok v, w') ->
  (1 <= v_crowd v <= 4)%Z /\
  ((py_eq_int (sp !! "trafficType") 1 = true /\ v_mode v = "SUBWAY" /\
    exists c, v_best v = Some c /\ (1 <= c <= 10)%Z) \/
   (py_eq_int (sp !! "trafficType") 1 = false /\
    py_eq_int (sp !! "trafficType") 2 = true /\ v_mode v = "BUS" /\
    v_best v = None /\
    is_Some (sp !! "lane") /\ sp !! "sectionTime" = Some (v_dur v) /\
    sp !! "distance" = Some (v_dist v)) \/
   (py_eq_int (sp !! "trafficType") 1 = false /\
    py_eq_int (sp !! "trafficType") 2 = false /\ v_mode v = "WALK" /\
    v_best v = None /\ v_crowd v = 1%Z /\ v_name v = JStr "도보" /\ w' = w /\
    v_dist v = default (JInt 0) (sp !! "distance") /\
    exists d, py_num (default (JInt 0) (sp !! "distance")) = Some d /\
              v_dur v = JFloat (d / AVG_WALK_SPEED / 60))).
Proof.
  unfold classify. intros E.
  destruct (py_eq_int (sp !! "trafficType") 1) eqn:E1;
    [| destruct (py_eq_int (sp !! "trafficType") 2) eqn:E2].
  - do 3 bind_inv_in E. inversion E; subst. clear E. simpl.
    match goal with
    | Hc : subway_crowd_level _ _ _ = (Ok ?cb, _) |- _ =>
        destruct cb as [lvl best];
        destruct (subway_crowd_level_ranges _ _ _ _ _ _ Hc) as (Hl & Hb)
    end.
    simpl. split; [exact Hl |]. left. repeat split.
    exists best. split; [reflexivity | exact Hb].
  - do 5 bind_inv_in E. inversion E; subst. clear E. simpl.
    split.
    { match goal with
      | Hc : bus_crowd_level _ _ _ = (Ok _, _) |- _ =>
          eapply bus_crowd_level_range; exact Hc
      end. }
    right; left. unfold lift in *.
    destruct (sp !! "lane") as [lane|] eqn:Elane;
      [| match goal with Hx : (obind (of_option None) _, _) = _ |- _ =>
           discriminate Hx end].
    destruct (sp !! "sectionTime") as [st|] eqn:Est;
      [| match goal with Hx : (of_option None, _) = _ |- _ => discriminate Hx end].
    destruct (sp !! "distance") as [di|] eqn:Edi;
      [| match goal with Hx : (of_option None, _) = _ |- _ => discriminate Hx end].
    repeat match goal with
           | Hx : (of_option (Some _), _) = (Ok _, _) |- _ =>
               simpl in Hx; inversion Hx; subst; clear Hx
           end.
    repeat split; eauto.
  - bind_inv_in E. inversion E; subst. clear E. simpl.
    split; [lia |]. right; right.
    match goal with
    | Hx : lift _ _ = (Ok ?a, _) |- _ =>
        unfold lift in Hx;
        destruct (py_num (default (JInt 0) (sp !! "distance"))) as [d|] eqn:Ed;
        [| discriminate Hx];
        simpl in Hx; inversion Hx; subst
    end.
    repeat split. eexists. split; reflexivity.
Qed.

Lemma build_leg_inv (sp : gmap string json) (now : datetime) (w w' : World)
    (o : option Segment) :
  build_leg sp now w = (Ok o, w') ->
  exists v w1 seg,
    classify sp now w = (Ok v, w1) /\ w' = w1 /\ o = Some seg /\
    mode seg = v_mode v /\ name seg = v_name v /\ distance_m seg = v_dist v /\
    crowd seg = v_crowd v /\ best_car seg = v_best v /\
    py_round2 (v_dur v) = Ok (duration_min seg).
Proof.
  unfold build_leg. intros E. bind_inv_in E.
  pose proof (classify_mode _ _ _ _ _ E0) as Hm.
  rewrite Hm, leg_mode_allowed in E. simpl negb in E. cbv iota in E.
  do 2 bind_inv_in E. inversion E; subst. clear E.
  unfold lift in E1, E2. inversion E1; subst.
  destruct (py_round2 (v_dur a)) as [q|] eqn:Er; [| discriminate E2].
  inversion E2; subst.
  eexists a, _, _. repeat split; try eassumption; try reflexivity.
  simpl. symmetry. exact Hm.
Qed.

(** X15. Every segment that [paths_to_segs] builds has a crowd level from 1
    to 4; a SUBWAY segment carries a suggested car from 1 to 10 and no other
    segment carries one; a WALK segment has crowd level 1 and the name
    "도보". *)
Theorem built_segments_well_formed (paths : list (gmap string json))
    (prefs : option (gmap string json)) (w w' : World) (segs : list Segment) :
  paths_to_segs paths prefs w = (Ok segs, w') ->
  Forall (fun s =>
            (1 <= crowd s <= 4)%Z /\
            (mode s = "SUBWAY" -> exists c, best_car s = Some c /\ (1 <= c <= 10)%Z) /\
            (mode s <> "SUBWAY" -> best_car s = None) /\
            (mode s = "WALK" -> crowd s = 1%Z /\ name s = JStr "도보")) segs.
Proof.
  unfold paths_to_segs. intros E. bind_inv_in E. clear E0.
  revert w0 w' segs E. generalize (clock w). intros now.
  induction paths as [|sp rest IH]; intros w0 w' segs E.
  - inversion E; subst. constructor.
  - simpl build_legs in E. do 2 bind_inv_in E.
    match goal with
    | Hb : build_leg _ _ _ = (Ok _, _) |- _ =>
        destruct (build_leg_inv _ _ _ _ _ Hb)
          as (v & wv & seg & Ec & -> & -> & Hm & Hn & _ & Hc & Hb' & _)
    end.
    inversion E; subst. constructor; [| eapply IH; eassumption].
    destruct (classify_inv _ _ _ _ _ Ec) as (Hrange & Hcase).
    rewrite Hm, Hn, Hc, Hb'. split; [exact Hrange |].
    destruct Hcase as [(_ & Hs & c & Hbest & Hcr)
                      |[(_ & _ & Hs & Hbest & _)
                       |(_ & _ & Hs & Hbest & Hone & Hname & _)]];
      rewrite Hs.
    + split; [intros _; exists c; split; assumption |].
      split; [intros N; congruence | intros N; discriminate N].
    + split; [intros N; discriminate N |].
      split; [intros _; exact Hbest | intros N; discriminate N].
    + split; [intros N; discriminate N |].
      split; [intros _; exact Hbest | intros _; split; assumption].
Qed.

Lemma build_legs_classified (paths : list (gmap string json)) (now : datetime) :
  forall (w w' : World) (segs : list Segment),
    build_legs paths now w = (Ok segs, w') ->
    forall sp, In sp paths -> exists w1 w2 v, classify sp now w1 = (Ok v, w2).
Proof.
  induction paths as [|sp0 rest IH]; intros w w' segs E sp Hin; [destruct Hin |].
  simpl build_legs in E. do 2 bind_inv_in E.
  destruct Hin as [<-|Hin].
  - match goal with
    | Hb : build_leg _ _ _ = (Ok _, _) |- _ =>
        destruct (build_leg_inv _ _ _ _ _ Hb) as (v & wv & seg & Ec & _)
    end.
    eauto.
  - eapply IH; [eassumption | exact Hin].
Qed.

(** X16. Missing fields are fatal for a bus leg and harmless for a subway
    leg: [paths_to_segs] never returns when some bus leg lacks [lane],
    [sectionTime] or [distance], while a subway leg without [lane],
    [sectionTime], [distance] and [passStopList] is built with the empty
    name, duration 0, distance 0 and no geometry. *)
Theorem missing_leg_fields (sp : gmap string json) :
  (py_eq_int (sp !! "trafficType") 1 = false ->
   py_eq_int (sp !! "trafficType") 2 = true ->
   sp !! "lane" = None \/ sp !! "sectionTime" = None \/ sp !! "distance" = None ->
   forall paths prefs w segs w',
     In sp paths -> paths_to_segs paths prefs w <> (Ok segs, w')) /\
  (py_eq_int (sp !! "trafficType") 1 = true ->
   sp !! "lane" = None -> sp !! "sectionTime" = None ->
   sp !! "distance" = None -> sp !! "passStopList" = None ->
   forall now w,
     exists lvl best w',
       build_leg sp now w
       = (Ok (Some {| mode := "SUBWAY"; name := JStr ""; distance_m := JInt 0;
                      duration_min := 0; crowd := lvl; best_car := Some best;
                      poly := [] |}), w')).
Proof.
  split.
  - intros E1 E2 Hmiss paths prefs w segs w' Hin E.
    unfold paths_to_segs in E. bind_inv_in E.
    destruct (build_legs_classified _ _ _ _ _ E sp Hin) as (w1 & w2 & v & Ec).
    destruct (classify_inv _ _ _ _ _ Ec) as (_ & Hcase).
    destruct Hcase as [(N & _)|[(_ & _ & _ & _ & (l & Hl) & Hs & Hd)|(_ & N & _)]];
      try congruence.
    destruct Hmiss as [M|[M|M]]; congruence.
  - intros E1 Hl Hs Hd Hp now w.
    destruct (subway_level_part (JStr "") now w) as (lvl & El & _).
    match type of El with _ = (_, ?w0) => set (w1 := w0) in * end.
    destruct (best_car_choice lvl w1) as (best & Eb & _).
    exists lvl, best, (set_rng_pos (S (rng_pos w1)) w1).
    assert (subway_crowd_level (JStr "") now w
            = (Ok (lvl, best), set_rng_pos (S (rng_pos w1)) w1)) as Ecrowd.
    { unfold subway_crowd_level.
      match goal with
      | |- bind (try_except ?m ?h) ?k w = _ =>
          change (try_except m h w = (Ok lvl, w1)) in El;
          unfold bind at 1; rewrite El
      end.
      unfold bind at 1. rewrite Eb. reflexivity. }
    assert (classify sp now w
            = (Ok {| v_mode := "SUBWAY"; v_name := JStr ""; v_dur := JInt 0;
                     v_dist := JInt 0; v_crowd := lvl; v_best := Some best |},
               set_rng_pos (S (rng_pos w1)) w1)) as Hc.
    { unfold classify. rewrite E1, Hl, Hs, Hd.
      rewrite (bind_ok _ _ w w (JObj ∅)) by reflexivity.
      rewrite (bind_ok _ _ w w (JStr "")) by reflexivity.
      cbv zeta. simpl default.
      rewrite (bind_ok _ _ _ _ _ Ecrowd). reflexivity. }
    unfold build_leg. rewrite (bind_ok _ _ _ _ _ Hc).
    rewrite Hp. reflexivity.
Qed.

End MoreBuilder.

Section WalkAndPrefs.

Context `{Builtins}.

Lemma round_half_even_near (x : Q) :
  (inject_Z (round_half_even x) - x <= 1 # 2)%Q /\
  (x - inject_Z (round_half_even x) <= 1 # 2)%Q.
Proof.
  unfold round_half_even.
  pose proof (Qfloor_le x) as Hlo. pose proof (Qlt_floor x) as Hhi.
  rewrite inject_Z_plus in Hhi. change (inject_Z 1) with 1%Q in Hhi.
  destruct (Qcompare_spec (x - inject_Z (Qfloor x)) (1 # 2)) as [E|L|G].
  - destruct (Z.even (Qfloor x)).
    + split; lra.
    + rewrite inject_Z_plus. change (inject_Z 1) with 1%Q. split; lra.
  - split; lra.
  - rewrite inject_Z_plus. change (inject_Z 1) with 1%Q. split; lra.
Qed.

Lemma round2_near (q : Q) :
  (round2 q * 100 == inject_Z (round_half_even (q * 100)))%Q /\
  (round2 q - q <= 1 # 200)%Q /\
  (q - round2 q <= 1 # 200)%Q.
Proof.
  assert (round2 q * 100 == inject_Z (round_half_even (q * 100)))%Q as Hr
    by (unfold round2; field).
  destruct (round_half_even_near (q * 100)) as (H1 & H2).
  split; [exact Hr |]. split; lra.
Qed.

(** X17. A leg of any traffic type other than 1 and 2 becomes a WALK segment
    whose duration is the distance divided by 78 (1.3 m/s, in minutes),
    rounded to a multiple of 1/100: it is within 0.005 of [distance / 78];
    building it changes nothing in the world. *)
Theorem walk_leg_duration (sp : gmap string json) (now : datetime) (w w' : World)
    (o : option Segment) :
  py_eq_int (sp !! "trafficType") 1 = false ->
  py_eq_int (sp !! "trafficType") 2 = false ->
  build_leg sp now w = (Ok o, w') ->
  exists seg d,
    o = Some seg /\ w' = w /\
    mode seg = "WALK" /\
    py_num (default (JInt 0) (sp !! "distance")) = Some d /\
    distance_m seg = default (JInt 0) (sp !! "distance") /\
    (duration_min seg - d / 78 <= 1 # 200)%Q /\
    (d / 78 - duration_min seg <= 1 # 200)%Q /\
    exists z : Z, (duration_min seg * 100 == inject_Z z)%Q.
Proof.
  intros E1 E2 E.
  destruct (build_leg_inv _ _ _ _ _ E)
    as (v & wv & seg & Ec & -> & -> & Hm & _ & Hdist & _ & _ & Hdur).
  destruct (classify_inv _ _ _ _ _ Ec) as (_ & Hcase).
  destruct Hcase as [(N & _)|[(_ & N & _)
                   |(_ & _ & Hs & _ & _ & _ & -> & Hvd & d & Hd & Hvdur)]];
    try congruence.
  exists seg, d. split; [reflexivity |]. split; [reflexivity |].
  split; [congruence |]. split; [exact Hd |]. split; [congruence |].
  rewrite Hvdur in Hdur. simpl in Hdur. inversion Hdur as [Hq].
  destruct (round2_near (d / AVG_WALK_SPEED / 60)) as (Hz & Hup & Hdown).
  assert (d / AVG_WALK_SPEED / 60 == d / 78)%Q as Hx
    by (unfold AVG_WALK_SPEED; field).
  set (x := (d / AVG_WALK_SPEED / 60)%Q) in *. set (y := (d / 78)%Q) in *.
  split; [lra |]. split; [lra |].
  eexists. exact Hz.
Qed.

Lemma prefs_blind_ret {A : Type} (a : A) : prefs_blind (ret a).
Proof. intros f w. reflexivity. Qed.

Lemma prefs_blind_lift {A : Type} (o : outcome A) : prefs_blind (lift o).
Proof. intros f w. reflexivity. Qed.

Lemma prefs_blind_bind {A B : Type} (m : M A) (k : A -> M B) :
  prefs_blind m -> (forall a, prefs_blind (k a)) -> prefs_blind (bind m k).
Proof.
  intros Hm Hk f w. unfold bind. rewrite (Hm f w).
  destruct (m w) as [[a|] w1]; simpl; [apply Hk | reflexivity].
Qed.

Lemma prefs_blind_try {A : Type} (m h : M A) :
  prefs_blind m -> prefs_blind h -> prefs_blind (try_except m h).
Proof.
  intros Hm Hh f w. unfold try_except. rewrite (Hm f w).
  destruct (m w) as [[a|] w1]; simpl; [reflexivity | apply Hh].
Qed.

Lemma prefs_blind_load_sub : prefs_blind _load_sub_df.
Proof.
  intros f w. unfold _load_sub_df. simpl.
  destruct (_sub_df w); [reflexivity |]. destruct (subway_csv w); reflexivity.
Qed.

Lemma prefs_blind_load_bus : prefs_blind _load_bus_df.
Proof.
  intros f w. unfold _load_bus_df. simpl.
  destruct (_bus_df w); [reflexivity |]. destruct (bus_csv w); reflexivity.
Qed.

Lemma prefs_blind_draw : prefs_blind random_draw.
Proof. intros f w. reflexivity. Qed.

Lemma prefs_blind_subway (station : json) (now : datetime) :
  prefs_blind (subway_crowd_level station now).
Proof.
  unfold subway_crowd_level.
  apply prefs_blind_bind.
  - apply prefs_blind_try; [| apply prefs_blind_ret].
    apply prefs_blind_bind; [apply prefs_blind_load_sub | intros df].
    apply prefs_blind_bind; [apply prefs_blind_lift | intros day].
    apply prefs_blind_bind; [apply prefs_blind_lift | intros pct].
    apply prefs_blind_ret.
  - intros lvl. apply prefs_blind_bind; [| intros best; apply prefs_blind_ret].
    destruct (3 <=? lvl)%Z; [| destruct (lvl =? 2)%Z];
      (apply prefs_blind_bind; [apply prefs_blind_draw | intros r; apply prefs_blind_ret]).
Qed.

Lemma prefs_blind_bus (route_id : json) (now : datetime) :
  prefs_blind (bus_crowd_level route_id now).
Proof.
  unfold bus_crowd_level.
  apply prefs_blind_bind; [apply prefs_blind_load_bus | intros [df|]];
    [| apply prefs_blind_ret].
  apply prefs_blind_try; [| apply prefs_blind_ret].
  apply prefs_blind_bind; [apply prefs_blind_lift | intros rid].
  apply prefs_blind_bind; [apply prefs_blind_lift | intros b].
  apply prefs_blind_ret.
Qed.

Lemma prefs_blind_build_leg (sp : gmap string json) (now : datetime) :
  prefs_blind (build_leg sp now).
Proof.
  unfold build_leg. apply prefs_blind_bind.
  - unfold classify.
    destruct (py_eq_int (sp !! "trafficType") 1);
      [| destruct (py_eq_int (sp !! "trafficType") 2)].
    + apply prefs_blind_bind; [apply prefs_blind_lift | intros lane0].
      apply prefs_blind_bind; [apply prefs_blind_lift | intros nm].
      apply prefs_blind_bind; [apply prefs_blind_subway | intros cb].
      apply prefs_blind_ret.
    + apply prefs_blind_bind; [apply prefs_blind_lift | intros nm].
      apply prefs_blind_bind; [apply prefs_blind_lift | intros dur].
      apply prefs_blind_bind; [apply prefs_blind_lift | intros dist].
      apply prefs_blind_bind; [apply prefs_blind_lift | intros rid].
      apply prefs_blind_bind; [apply prefs_blind_bus | intros c].
      apply prefs_blind_ret.
    + apply prefs_blind_bind; [apply prefs_blind_lift | intros d].
      apply prefs_blind_ret.
  - intros v. destruct (negb _); [apply prefs_blind_ret |].
    apply prefs_blind_bind; [apply prefs_blind_lift | intros coords].
    apply prefs_blind_bind; [apply prefs_blind_lift | intros dur].
    apply prefs_blind_ret.
Qed.

Lemma prefs_blind_build_legs (paths : list (gmap string json)) (now : datetime) :
  prefs_blind (build_legs paths now).
Proof.
  induction paths as [|sp rest IH]; simpl build_legs; [apply prefs_blind_ret |].
  apply prefs_blind_bind; [apply prefs_blind_build_leg | intros seg].
  apply prefs_blind_bind; [exact IH | intros segs]. apply prefs_blind_ret.
Qed.

(** X18. Given explicit preferences, [paths_to_segs] neither reads nor writes
    the preferences file, and the preferences themselves have no influence on
    the segments: durations, crowd levels and geometry do not depend on what
    the rider prefers. *)
Theorem paths_to_segs_ignores_prefs (paths : list (gmap string json))
    (p p' : gmap string json) (f : file_state) (w : World) :
  paths_to_segs paths (Some p) (set_pref_file f w)
  = (fst (paths_to_segs paths (Some p') w),
     set_pref_file f (snd (paths_to_segs paths (Some p') w))).
Proof.
  unfold paths_to_segs. simpl clock.
  rewrite (bind_ok _ _ (set_pref_file f w) (set_pref_file f w) p) by reflexivity.
  rewrite (bind_ok _ _ w w p') by reflexivity.
  apply prefs_blind_build_legs.
Qed.

End WalkAndPrefs.

(** ** The candidate list of the UI *)

Section Ranking.

Context `{Builtins}.

Lemma score_route_same_world (segs : list Segment) (prefs : option (gmap string json))
    (w w' : World) (o : outcome Q) :
  score_route segs prefs w = (o, w') -> w' = w.
Proof.
  unfold score_route, bind, lift. destruct (load_prefs w) as [[st|] w0] eqn:El;
    pose proof (load_prefs_same _ _ _ El) as ->; intros E; inversion E; reflexivity.
Qed.

Lemma score_all_inv (prefs : option (gmap string json)) (w : World)
    (routes : list (list Segment)) :
  forall (k : Z) (l : list scored_route) (w' : World),
    score_all routes prefs k w = (Ok l, w') ->
    w' = w /\
    exists scores, Forall2 (fun r s => score_route r prefs w = (Ok s, w)) routes scores.
Proof.
  induction routes as [|r rest IH]; intros k l w' E.
  - inversion E; subst. split; [reflexivity |]. exists []. constructor.
  - simpl score_all in E. do 2 bind_inv_in E. inversion E; subst. clear E.
    match goal with
    | Hs : score_route r prefs w = (Ok ?s, ?wx) |- _ =>
        pose proof (score_route_same_world _ _ _ _ _ Hs); subst wx;
        match goal with
        | Ha : score_all rest prefs _ w = (Ok _, _) |- _ =>
            destruct (IH _ _ _ Ha) as (-> & scores & Hall);
            split; [reflexivity |]; exists (s :: scores);
            constructor; [exact Hs | exact Hall]
        end
    end.
Qed.

(** What [choose_best_route] returns on a non-empty list is a position of the
    list, counted from 1, and the route at that position. *)
Lemma choose_best_route_position (routes : list (list Segment))
    (prefs : option (gmap string json)) (w w' : World) (i : Z) (r : list Segment) :
  routes <> [] ->
  choose_best_route routes prefs w = (Ok (i, r), w') ->
  w' = w /\ exists n : nat, i = (Z.of_nat n + 1)%Z /\ routes !! n = Some r.
Proof.
  intros Hne E. unfold choose_best_route in E.
  destruct routes as [|r0 rest]; [congruence |].
  bind_inv_in E.
  match goal with
  | Ha : score_all _ prefs 0 w = (Ok ?l, ?wx) |- _ =>
      destruct (score_all_inv _ _ _ _ _ _ Ha) as (-> & scores & Hall);
      destruct (score_all_entries prefs w _ scores Hall 0) as (l' & El & Hlen & Hl);
      assert (l' = l) as -> by congruence
  end.
  destruct (sort_by_score a) as [|[[s bi] br] t] eqn:Es; [discriminate E |].
  inversion E; subst. split; [reflexivity |].
  assert (a <> []) as Ha0.
  { intros ->. discriminate Hlen. }
  destruct (sort_by_score_head a Ha0) as (n & x & t' & Es' & Hn & _).
  rewrite Es in Es'. inversion Es'; subst.
  destruct (Hl n _ Hn) as (r' & s' & Hr' & _ & Heq). inversion Heq; subst.
  exists n. split; [lia | exact Hr'].
Qed.

Lemma others_from_past (routes : list (list Segment)) :
  forall i best : Z, (best < i)%Z -> others_from i best routes = routes.
Proof.
  induction routes as [|r rest IH]; intros i best Hlt; [reflexivity |].
  simpl. destruct (Z.eqb_spec i best) as [E|N]; [lia |].
  rewrite IH by lia. reflexivity.
Qed.

Lemma others_from_delete (routes : list (list Segment)) :
  forall (i : Z) (n : nat),
    others_from i (i + Z.of_nat n) routes = delete n routes.
Proof.
  induction routes as [|r rest IH]; intros i n; [destruct n; reflexivity |].
  simpl others_from. destruct n as [|n].
  - rewrite Z.add_0_r, Z.eqb_refl. simpl. apply others_from_past. lia.
  - destruct (Z.eqb_spec i (i + Z.of_nat (S n))) as [E|N]; [lia |].
    simpl. f_equal.
    replace (i + Z.of_nat (S n))%Z with (i + 1 + Z.of_nat n)%Z by lia.
    apply IH.
Qed.

(** X19. The re-ranking of the candidates loses and duplicates nothing: when
    it returns, the new list is a permutation of the candidates; for a
    non-empty list it is the route picked by [choose_best_route] followed by
    the other candidates in their original order. *)
Theorem rank_candidates_permutes (routes : list (list Segment))
    (prefs : option (gmap string json)) (w w' : World) (l : list (list Segment)) :
  rank_candidates routes prefs w = (Ok l, w') ->
  w' = w /\
  l ≡ₚ routes /\
  (routes <> [] ->
   exists (n : nat) (best : list Segment),
     choose_best_route routes prefs w = (Ok ((Z.of_nat n + 1)%Z, best), w) /\
     routes !! n = Some best /\
     l = best :: delete n routes).
Proof.
  unfold rank_candidates. intros E. bind_inv_in E.
  destruct a as [i r]. simpl fst in E; simpl snd in E.
  destruct routes as [|r0 rest].
  - inversion E0; subst. inversion E; subst.
    split; [reflexivity |]. split; [reflexivity | congruence].
  - assert (r0 :: rest <> []) as Hne by discriminate.
    destruct (choose_best_route_position _ _ _ _ _ _ Hne E0)
      as (-> & n & -> & Hn).
    destruct (Z.eqb_spec (Z.of_nat n + 1) (-1)) as [Hx|_]; [lia |].
    replace (Z.of_nat n + 1)%Z with (1 + Z.of_nat n)%Z in E by lia.
    rewrite others_from_delete in E.
    inversion E; subst. split; [reflexivity |].
    split; [symmetry; apply delete_Permutation; exact Hn |].
    intros _. exists n, r.
    split; [exact E0 | split; [exact Hn | reflexivity]].
Qed.

End Ranking.

Section Summaries.

Lemma transfers_zero (a : Segment) (route : list Segment) :
  transfers (a :: route) = 0%nat <-> Forall (fun s => mode s = mode a) route.
Proof.
  revert a. induction route as [|b rest IH]; intros a.
  - split; [constructor | reflexivity].
  - change (transfers (a :: b :: rest))
      with ((if String.eqb (mode b) (mode a) then 0 else 1) + transfers (b :: rest))%nat.
    destruct (String.eqb_spec (mode b) (mode a)) as [E|N].
    + rewrite Nat.add_0_l, IH. rewrite E. split.
      * intros Hall. constructor; [exact E | exact Hall].
      * intros Hall. inversion Hall; assumption.
    + split; [intros Hx; lia |]. intros Hall. inversion Hall; subst. congruence.
Qed.

(** X20. The number of transfers shown for a route is at most its number of
    segments minus one, and it is zero exactly when all its segments have the
    same mode. *)
Theorem transfers_bounds (route : list Segment) :
  (transfers route <= length route - 1)%nat /\
  (transfers route = 0%nat <->
   forall a b, In a route -> In b route -> mode a = mode b).
Proof.
  split.
  - induction route as [|a rest IH]; [simpl; lia |].
    destruct rest as [|b rest]; [simpl; lia |].
    change (transfers (a :: b :: rest))
      with ((if String.eqb (mode b) (mode a) then 0 else 1) + transfers (b :: rest))%nat.
    simpl length in *. destruct (String.eqb (mode b) (mode a)); lia.
  - destruct route as [|a rest].
    + split; [intros _ a b [] | reflexivity].
    + rewrite transfers_zero. rewrite List.Forall_forall. split.
      * intros Hall x y Hx Hy.
        assert (forall z, In z (a :: rest) -> mode z = mode a) as Hz.
        { intros z [<-|Hz]; [reflexivity | apply Hall; exact Hz]. }
        rewrite (Hz x Hx), (Hz y Hy). reflexivity.
      * intros Hall x Hx. apply Hall; [right; exact Hx | left; reflexivity].
Qed.

End Summaries.

(** ** The map *)

Section Map.

Local Open Scope list_scope.

Lemma Qtrunc_inject (q : Q) (z : Z) : (q == inject_Z z)%Q -> Qtrunc q = z.
Proof.
  unfold Qeq, Qtrunc. simpl. rewrite Z.mul_1_r. intros ->.
  apply Z.quot_mul. discriminate.
Qed.

(** X21. The gradient colour: the call divides by zero for a scale of one
    level; otherwise every level up to 1 is pure green and every level from
    the top of the scale on is pure red; on the default scale of four levels
    the colours are green, "#55aa00", "#aa5500" and red. *)
Theorem crowd_gradient_color_scale (level max_level : Z) :
  (max_level = 1%Z -> crowd_gradient_color level max_level = Raise) /\
  (max_level <> 1%Z -> (level <= 1)%Z ->
   crowd_gradient_color level max_level = Ok "#00ff00") /\
  ((2 <= max_level)%Z -> (max_level <= level)%Z ->
   crowd_gradient_color level max_level = Ok "#ff0000") /\
  crowd_gradient_color level 4 =
    Ok (if (level <=? 1)%Z then "#00ff00"
        else if (level =? 2)%Z then "#55aa00"
        else if (level =? 3)%Z then "#aa5500"
        else "#ff0000").
Proof.
  assert (forall l ml : Z, ml <> 1%Z -> (l <= 1)%Z ->
            crowd_gradient_color l ml = Ok "#00ff00") as Hlow.
  { intros l ml Hml Hl. unfold crowd_gradient_color.
    destruct (Z.eqb_spec (ml - 1) 0) as [E|N]; [lia |].
    replace (Z.max 0 (Z.min (l - 1) (ml - 1))) with 0%Z by lia.
    assert (~ (inject_Z (ml - 1) == 0)%Q) as Hk.
    { change 0%Q with (inject_Z 0). rewrite inject_Z_injective. exact N. }
    change (inject_Z 0) with 0%Q. cbv zeta.
    rewrite (Qtrunc_inject (255 * (0 / inject_Z (ml - 1))) 0)
      by (change (inject_Z 0) with 0%Q; field; exact Hk).
    rewrite (Qtrunc_inject (255 * (1 - 0 / inject_Z (ml - 1))) 255)
      by (change (inject_Z 255) with 255%Q; field; exact Hk).
    reflexivity. }
  assert (forall l ml : Z, (2 <= ml)%Z -> (ml <= l)%Z ->
            crowd_gradient_color l ml = Ok "#ff0000") as Hhigh.
  { intros l ml Hml Hl. unfold crowd_gradient_color.
    destruct (Z.eqb_spec (ml - 1) 0) as [E|N]; [lia |].
    replace (Z.max 0 (Z.min (l - 1) (ml - 1))) with (ml - 1)%Z by lia.
    assert (~ (inject_Z (ml - 1) == 0)%Q) as Hk.
    { change 0%Q with (inject_Z 0). rewrite inject_Z_injective. exact N. }
    cbv zeta.
    rewrite (Qtrunc_inject (255 * (inject_Z (ml - 1) / inject_Z (ml - 1))) 255)
      by (change (inject_Z 255) with 255%Q; field; exact Hk).
    rewrite (Qtrunc_inject (255 * (1 - inject_Z (ml - 1) / inject_Z (ml - 1))) 0)
      by (change (inject_Z 0) with 0%Q; field; exact Hk).
    reflexivity. }
  split; [| split; [| split]].
  - intros ->. reflexivity.
  - apply Hlow.
  - apply Hhigh.
  - destruct (Z.leb_spec level 1) as [Hl|Hl]; [apply Hlow; [discriminate | exact Hl] |].
    destruct (Z.eqb_spec level 2) as [->|N2]; [reflexivity |].
    destruct (Z.eqb_spec level 3) as [->|N3]; [reflexivity |].
    apply Hhigh; lia.
Qed.

Lemma prefix_length (a b : string) :
  String.prefix a b = true -> (String.length a <= String.length b)%nat.
Proof.
  revert b. induction a as [|x a IH]; intros b E; [simpl; lia |].
  destruct b as [|y b]; [discriminate E |]. simpl in E.
  destruct (Ascii.ascii_dec x y); [| discriminate E].
  apply IH in E. simpl. lia.
Qed.

Lemma prefix_same_length (a b : string) :
  String.prefix a b = true -> String.length a = String.length b -> a = b.
Proof.
  revert b. induction a as [|x a IH]; intros b E Hlen.
  - destruct b; [reflexivity | discriminate Hlen].
  - destruct b as [|y b]; [discriminate E |]. simpl in E.
    destruct (Ascii.ascii_dec x y) as [->|]; [| discriminate E].
    f_equal. apply IH; [exact E | simpl in Hlen; lia].
Qed.

Lemma infix_length (a b : string) :
  infix a b = true -> (String.length a <= String.length b)%nat.
Proof.
  induction b as [|y b IH]; intros E.
  - destruct a; [simpl; lia | discriminate E].
  - change (infix a (String y b))
      with (String.prefix a (String y b) || infix a b) in E.
    apply orb_true_iff in E as [E|E].
    + apply prefix_length in E. exact E.
    + apply IH in E. simpl. lia.
Qed.

(** Two strings that occur in each other are equal. *)
Lemma infix_antisym (a b : string) :
  infix a b = true -> infix b a = true -> a = b.
Proof.
  intros Hab Hba.
  pose proof (infix_length _ _ Hab) as L1. pose proof (infix_length _ _ Hba) as L2.
  destruct b as [|y b].
  - destruct a; [reflexivity | discriminate Hab].
  - change (infix a (String y b))
      with (String.prefix a (String y b) || infix a b) in Hab.
    apply orb_true_iff in Hab as [E|E].
    + apply prefix_same_length; [exact E | lia].
    + apply infix_length in E. simpl in L2. lia.
Qed.

Lemma line_color_item_missing (s : string) :
  Forall (fun kc => fst kc <> s) SUBWAY_LINE_COLORS ->
  line_color_item (JStr s) = Raise.
Proof.
  unfold line_color_item. generalize SUBWAY_LINE_COLORS as table.
  induction table as [|[k c] rest IH]; intros Hall; [reflexivity |].
  inversion Hall as [|? ? Hk Hrest]; subst. simpl in Hk. simpl List.find.
  destruct (String.eqb_spec k s) as [E|N]; [contradiction |].
  apply IH. exact Hrest.
Qed.

Lemma line_color_cons (k c : string) (rest : list (string * string)) (s : string)
    (oc : option string) :
  line_color ((k, c) :: rest) (JStr s) oc =
  if infix k s then line_color rest (JStr s) (Some c)
  else if infix s k then
         let? c' := line_color_item (JStr s) in line_color rest (JStr s) (Some c')
       else line_color rest (JStr s) oc.
Proof. reflexivity. Qed.

Lemma line_color_fragment (s : string) (table : list (string * string)) :
  line_color_item (JStr s) = Raise ->
  forall oc : option string,
    (exists k c, In (k, c) table /\ infix s k = true /\ infix k s = false) ->
    line_color table (JStr s) oc = Raise.
Proof.
  intros Hitem. induction table as [|[k0 c0] rest IH]; intros oc (k & c & Hin & Hsk & Hks).
  - destruct Hin.
  - rewrite line_color_cons. destruct (infix k0 s) eqn:E0.
    + destruct Hin as [Heq|Hin]; [inversion Heq; subst; congruence |].
      apply IH. exists k, c. auto.
    + destruct (infix s k0) eqn:E1.
      * rewrite Hitem. reflexivity.
      * destruct Hin as [Heq|Hin]; [inversion Heq; subst; congruence |].
        apply IH. exists k, c. auto.
Qed.

Lemma line_color_no_match (s : string) (table : list (string * string)) :
  Forall (fun kc => infix (fst kc) s = false /\ infix s (fst kc) = false) table ->
  forall oc : option string, line_color table (JStr s) oc = Ok oc.
Proof.
  induction 1 as [|[k c] rest [Hk Hs] _ IH]; intros oc; [reflexivity |].
  simpl in Hk, Hs. rewrite line_color_cons, Hk, Hs. apply IH.
Qed.

Lemma line_color_last (s : string) (table : list (string * string)) :
  Forall (fun kc => infix s (fst kc) = true -> infix (fst kc) s = true) table ->
  forall oc : option string,
    line_color table (JStr s) oc = Ok (last_line_in table s oc).
Proof.
  induction 1 as [|[k c] rest Hk _ IH]; intros oc; [reflexivity |].
  simpl in Hk. rewrite line_color_cons. unfold last_line_in. simpl fold_left.
  destruct (infix k s) eqn:E; [apply IH |].
  destruct (infix s k) eqn:E'; [specialize (Hk eq_refl); discriminate Hk | apply IH].
Qed.

Lemma last_line_in_bound (s : string) (table : list (string * string)) :
  forall c0 : string, exists c, last_line_in table s (Some c0) = Some c.
Proof.
  induction table as [|[k c] rest IH]; intros c0; [exists c0; reflexivity |].
  unfold last_line_in. simpl fold_left. destruct (infix k s); apply IH.
Qed.

Lemma last_line_in_hit (s : string) (table : list (string * string)) :
  Exists (fun kc => infix (fst kc) s = true) table ->
  forall oc : option string, exists c, last_line_in table s oc = Some c.
Proof.
  induction 1 as [[k c] rest Hk|[k c] rest _ IH]; intros oc;
    unfold last_line_in; simpl fold_left.
  - simpl in Hk. rewrite Hk. apply last_line_in_bound.
  - apply IH.
Qed.

Lemma draw_segment_no_geometry (idx : Z) (seg : Segment) (st : draw_state) :
  poly seg = [] ->
  draw_segment idx seg st =
  Ok {| prev_mode := Some (mode seg); transfer_count := transfer_count st;
        outer_color := outer_color st; drawn := drawn st |}.
Proof. intros E. unfold draw_segment. rewrite E. reflexivity. Qed.

(** What one drawn segment adds. *)
Lemma draw_segment_inv (idx : Z) (seg : Segment) (st st' : draw_state)
    (start : Q * Q) (tl : list (Q * Q)) :
  poly seg = start :: tl ->
  draw_segment idx seg st = Ok st' ->
  exists (c center : string) (tip : tooltip) (extra : list layer),
    choose_outer_color seg (outer_color st) = Ok (Some c) /\
    prev_mode st' = Some (mode seg) /\
    outer_color st' = Some c /\
    drawn st' = drawn st ++
                [ PolyLine (poly seg) c OUTER_LINE_WEIGHT 0.8 tip;
                  PolyLine (poly seg) center CENTER_LINE_WEIGHT 1 tip;
                  CircleMarker start (5 + crowd seg * 2) (crowd_color (crowd seg))
                               (crowd seg) (duration_min seg) ] ++ extra /\
    (extra = [] \/
     exists (pm : string) (n : Z),
       extra = [Marker start (PopTransfer n pm (mode seg)) "purple" "exchange"] /\
       prev_mode st = Some pm /\ pm <> mode seg).
Proof.
  intros Hp E. unfold draw_segment in E. rewrite Hp in E.
  destruct (choose_outer_color seg (outer_color st)) as [[c|]|] eqn:Ec;
    simpl obind in E; try discriminate E.
  match type of E with
  | (if ?b then _ else _) = _ => destruct b eqn:Eb
  end; inversion E; subst; clear E; rewrite Hp; simpl.
  - eexists c, _, _, _.
    split; [reflexivity |]. split; [reflexivity |]. split; [reflexivity |].
    split; [reflexivity |].
    right. destruct (prev_mode st) as [pm|] eqn:Epm; [| discriminate Eb].
    exists pm, (transfer_count st + 1)%Z.
    split; [reflexivity |]. split; [reflexivity |].
    apply andb_true_iff in Eb as [_ Eb]. apply negb_true_iff in Eb.
    destruct (String.eqb_spec pm (mode seg)); [discriminate Eb | assumption].
  - eexists c, _, _, [].
    split; [reflexivity |]. split; [reflexivity |]. split; [reflexivity |].
    split; [reflexivity | left; reflexivity].
Qed.

Lemma draw_segments_raise (seg : Segment) :
  (forall idx st, draw_segment idx seg st = Raise) ->
  forall (segs : list Segment) (idx : Z) (st : draw_state),
    In seg segs -> draw_segments idx segs st = Raise.
Proof.
  intros Hraise. induction segs as [|a rest IH]; intros idx st Hin; [destruct Hin |].
  simpl draw_segments. destruct (draw_segment idx a st) as [st1|] eqn:Ea; [| reflexivity].
  simpl obind. destruct Hin as [->|Hin]; [rewrite Hraise in Ea; discriminate Ea |].
  apply IH. exact Hin.
Qed.

Lemma draw_segments_no_geometry (segs : list Segment) :
  Forall (fun x => poly x = []) segs ->
  forall (idx : Z) (st : draw_state),
  exists st', draw_segments idx segs st = Ok st' /\
              outer_color st' = outer_color st.
Proof.
  induction 1 as [|a rest Ha _ IH]; intros idx st.
  - exists st. split; reflexivity.
  - simpl draw_segments. rewrite (draw_segment_no_geometry _ _ _ Ha). simpl obind.
    destruct (IH (idx + 1)%Z
                {| prev_mode := Some (mode a); transfer_count := transfer_count st;
                   outer_color := outer_color st; drawn := drawn st |})
      as (st' & E & Hc).
    exists st'. split; [exact E | exact Hc].
Qed.

Lemma draw_segments_app (pre post : list Segment) :
  forall (idx : Z) (st : draw_state),
    draw_segments idx (pre ++ post) st =
    let? st1 := draw_segments idx pre st in
    draw_segments (idx + Z.of_nat (length pre)) post st1.
Proof.
  induction pre as [|a pre IH]; intros idx st.
  - simpl. rewrite Z.add_0_r. reflexivity.
  - simpl draw_segments. destruct (draw_segment idx a st) as [st1|]; [| reflexivity].
    simpl obind. rewrite IH. simpl length.
    replace (idx + 1 + Z.of_nat (length pre))%Z
      with (idx + Z.of_nat (S (length pre)))%Z by lia.
    reflexivity.
Qed.

(** The layers a run of the loop adds, counted by kind. *)
Lemma draw_segments_layers (segs : list Segment) :
  forall (idx : Z) (st st' : draw_state),
    draw_segments idx segs st = Ok st' ->
    exists body : list layer,
      drawn st' = drawn st ++ body /\
      length (List.filter is_polyline body) = (2 * length (with_geometry segs))%nat /\
      length (List.filter is_circle body) = length (with_geometry segs) /\
      length body = (3 * length (with_geometry segs)
                     + length (List.filter is_transfer_marker body))%nat /\
      (forall x, prev_mode st = Some (mode x) ->
         (length (List.filter is_transfer_marker body) <= transfers (x :: segs))%nat) /\
      (prev_mode st = None ->
         (length (List.filter is_transfer_marker body) <= transfers segs)%nat).
Proof.
  induction segs as [|seg rest IH]; intros idx st st' E.
  - inversion E; subst. exists []. rewrite app_nil_r.
    repeat split; simpl; intros; lia.
  - simpl draw_segments in E.
    destruct (draw_segment idx seg st) as [st1|] eqn:Es; [| discriminate E].
    simpl obind in E.
    destruct (IH _ _ _ E) as (body & Hd & Hp & Hc & Hl & Hm & _).
    assert (forall x, transfers (x :: seg :: rest)
                      = ((if String.eqb (mode seg) (mode x) then 0 else 1)
                         + transfers (seg :: rest))%nat) as Hstep by reflexivity.
    destruct (poly seg) as [|start tl] eqn:Hpoly.
    + rewrite (draw_segment_no_geometry _ _ _ Hpoly) in Es.
      assert (prev_mode st1 = Some (mode seg) /\ drawn st1 = drawn st) as [Hpm Hd1]
        by (inversion Es; split; reflexivity).
      specialize (Hm seg Hpm). rewrite Hd1 in Hd.
      assert (with_geometry (seg :: rest) = with_geometry rest) as ->
        by (unfold with_geometry; simpl List.filter; rewrite Hpoly; reflexivity).
      exists body.
      split; [exact Hd |]. split; [exact Hp |]. split; [exact Hc |].
      split; [exact Hl |]. split.
      * intros x Hx. rewrite Hstep. lia.
      * intros _. exact Hm.
    + destruct (draw_segment_inv _ _ _ _ _ _ Hpoly Es)
        as (c & center & tip & extra & _ & Hpm & _ & Hd1 & Hextra).
      specialize (Hm seg Hpm).
      assert (with_geometry (seg :: rest) = seg :: with_geometry rest) as ->
        by (unfold with_geometry; simpl List.filter; rewrite Hpoly; reflexivity).
      destruct Hextra as [->|(pm & n & -> & Hprev & Hneq)].
      * exists ([ PolyLine (poly seg) c OUTER_LINE_WEIGHT 0.8 tip;
                  PolyLine (poly seg) center CENTER_LINE_WEIGHT 1 tip;
                  CircleMarker start (5 + crowd seg * 2) (crowd_color (crowd seg))
                               (crowd seg) (duration_min seg) ] ++ body).
        split; [rewrite Hd, Hd1, app_nil_r, <- app_assoc; reflexivity |].
        cbn [List.filter app is_polyline is_circle is_transfer_marker length].
        split; [lia |]. split; [lia |]. split; [lia |]. split.
        -- intros x Hx. rewrite Hstep. lia.
        -- intros _. exact Hm.
      * exists ([ PolyLine (poly seg) c OUTER_LINE_WEIGHT 0.8 tip;
                  PolyLine (poly seg) center CENTER_LINE_WEIGHT 1 tip;
                  CircleMarker start (5 + crowd seg * 2) (crowd_color (crowd seg))
                               (crowd seg) (duration_min seg);
                  Marker start (PopTransfer n pm (mode seg)) "purple" "exchange" ] ++ body).
        split; [rewrite Hd, Hd1, <- !app_assoc; reflexivity |].
        cbn [List.filter app is_polyline is_circle is_transfer_marker length].
        split; [lia |]. split; [lia |]. split; [lia |]. split.
        -- intros x Hx. rewrite Hprev in Hx. inversion Hx; subst pm.
           rewrite Hstep.
           destruct (String.eqb_spec (mode seg) (mode x)) as [Eq|Nq]; [congruence | lia].
        -- intros Hx. congruence.
Qed.

(** X22. What a drawn map holds: the centre between origin and destination,
    the tile layer of [folium.Map] first, then the two end markers, and the
    layer control last; in between, for
    every segment with geometry two lines and one circle, and transfer
    markers, at most as many as the route has mode changes; nothing else, and
    nothing for a segment without geometry. *)
Theorem draw_map_layers (segs : list Segment) (o d : Q * Q) (m : folium_map) :
  draw_map segs o d = Ok m ->
  location m = ((fst o + fst d) / 2, (snd o + snd d) / 2)%Q /\
  exists body : list layer,
    children m = TileLayer "OpenStreetMap"
                 :: Marker o (PopText "출발") "blue" "play"
                 :: Marker d (PopText "도착") "red" "flag"
                 :: body ++ [LayerControl] /\
    length (List.filter is_polyline body) = (2 * length (with_geometry segs))%nat /\
    length (List.filter is_circle body) = length (with_geometry segs) /\
    (length (List.filter is_transfer_marker body) <= transfers segs)%nat /\
    length body = (3 * length (with_geometry segs)
                   + length (List.filter is_transfer_marker body))%nat.
Proof.
  unfold draw_map. intros E.
  match type of E with
  | (let? st := draw_segments 1 segs ?s0 in _) = _ =>
      destruct (draw_segments 1 segs s0) as [st|] eqn:Es; [| discriminate E]
  end.
  simpl obind in E. inversion E; subst; clear E. simpl location. simpl children.
  split; [reflexivity |].
  destruct (draw_segments_layers _ _ _ _ Es) as (body & Hd & Hp & Hc & Hl & _ & Hm).
  exists body. rewrite Hd. simpl drawn.
  split; [reflexivity |]. repeat split; try assumption.
  apply Hm. reflexivity.
Qed.

(** X23. A subway segment with geometry whose name is a proper part of a line
    name (the empty name included) makes [draw_map] raise, wherever it stands
    in the route. *)
Theorem draw_map_raises_on_partial_line_name (segs : list Segment) (o d : Q * Q)
    (seg : Segment) (s k c : string) :
  In seg segs ->
  mode seg = "SUBWAY" ->
  name seg = JStr s ->
  poly seg <> [] ->
  In (k, c) SUBWAY_LINE_COLORS ->
  infix s k = true ->
  Forall (fun kc => fst kc <> s) SUBWAY_LINE_COLORS ->
  draw_map segs o d = Raise.
Proof.
  intros Hin Hmode Hname Hpoly Hk Hsk Hnokey.
  assert (forall idx st, draw_segment idx seg st = Raise) as Hraise.
  { intros idx st. unfold draw_segment.
    destruct (poly seg) as [|start tl]; [congruence |].
    unfold choose_outer_color. rewrite Hmode, Hname. simpl String.eqb.
    rewrite line_color_fragment; [reflexivity | |].
    - apply line_color_item_missing. exact Hnokey.
    - exists k, c. split; [exact Hk |]. split; [exact Hsk |].
      destruct (infix k s) eqn:Eks; [| reflexivity].
      pose proof (infix_antisym _ _ Hsk Eks) as <-.
      rewrite List.Forall_forall in Hnokey. specialize (Hnokey _ Hk). simpl in Hnokey.
      congruence. }
  unfold draw_map. rewrite (draw_segments_raise seg Hraise); [reflexivity | exact Hin].
Qed.

(** X24. A subway segment whose name matches no line of the table takes the
    outline colour left by the segment drawn before it, whatever that
    segment was; when no segment was drawn before it, [draw_map] raises. *)
Theorem unknown_line_takes_previous_colour (seg : Segment) (s : string) :
  line_unknown s ->
  mode seg = "SUBWAY" ->
  name seg = JStr s ->
  poly seg <> [] ->
  (forall (idx : Z) (st : draw_state) (c : string),
     outer_color st = Some c ->
     exists (st' : draw_state) (rest : list layer),
       draw_segment idx seg st = Ok st' /\
       outer_color st' = Some c /\
       drawn st' = drawn st ++ rest /\
       outlines rest = [c]) /\
  (forall (pre post : list Segment) (o d : Q * Q),
     Forall (fun x => poly x = []) pre ->
     draw_map (pre ++ seg :: post) o d = Raise).
Proof.
  intros Hun Hmode Hname Hpoly.
  assert (forall oc, choose_outer_color seg oc = Ok oc) as Hc.
  { intros oc. unfold choose_outer_color. rewrite Hmode, Hname. simpl String.eqb.
    apply line_color_no_match. exact Hun. }
  split.
  - intros idx st c Hst.
    destruct (draw_segment idx seg st) as [st'|] eqn:Es.
    + destruct (poly seg) as [|start tl] eqn:Ep; [congruence |].
      destruct (draw_segment_inv _ _ _ _ _ _ Ep Es)
        as (c' & center & tip & extra & Hch & _ & Hoc & Hd & Hextra).
      rewrite Hc, Hst in Hch. inversion Hch; subst c'.
      eexists st', _. split; [reflexivity |]. split; [exact Hoc |].
      split; [exact Hd |].
      destruct Hextra as [->|(pm & n & -> & _)]; reflexivity.
    + exfalso. unfold draw_segment in Es.
      destruct (poly seg) as [|start tl] eqn:Ep; [congruence |].
      rewrite Hc, Hst in Es. simpl obind in Es.
      match type of Es with (if ?b then _ else _) = _ => destruct b end;
        discriminate Es.
  - intros pre post o d Hpre. unfold draw_map.
    rewrite draw_segments_app.
    match goal with
    | |- (let? st := (let? st1 := draw_segments 1 pre ?s0 in _) in _) = _ =>
        destruct (draw_segments_no_geometry pre Hpre 1 s0) as (st1 & E1 & Hoc);
        rewrite E1
    end.
    simpl obind. simpl outer_color in Hoc.
    unfold draw_segment. destruct (poly seg) as [|start tl] eqn:Ep; [congruence |].
    rewrite Hc, Hoc. reflexivity.
Qed.

(** Once a line name occurs in [s], the colour no longer depends on the one
    left by the previous segment. *)
Lemma last_line_in_start (s : string) (table : list (string * string)) :
  Exists (fun kc => infix (fst kc) s = true) table ->
  forall oc : option string, last_line_in table s oc = last_line_in table s None.
Proof.
  induction 1 as [[k c] rest Hk|[k c] rest _ IH]; intros oc;
    unfold last_line_in; simpl fold_left.
  - simpl in Hk. rewrite Hk. reflexivity.
  - destruct (infix k s); [reflexivity | apply IH].
Qed.

Lemma choose_outer_color_paintable (seg : Segment) (oc : option string) :
  paintable seg -> poly seg <> [] ->
  choose_outer_color seg oc = Ok (Some (outline_of seg)).
Proof.
  intros Hp Hg. unfold choose_outer_color, outline_of.
  destruct (String.eqb_spec (mode seg) "SUBWAY") as [Es|Ns].
  - destruct Hp as [Hp|[Hp|(s & Hn & Hhit & Hfrag)]]; [contradiction.. |].
    rewrite Hn, (line_color_last s _ Hfrag), (last_line_in_start s _ Hhit).
    destruct (last_line_in_hit s _ Hhit None) as (c & ->). reflexivity.
  - destruct (String.eqb (mode seg) "BUS"); reflexivity.
Qed.

Lemma outlines_app (a b : list layer) : outlines (a ++ b) = outlines a ++ outlines b.
Proof. unfold outlines. apply flat_map_app. Qed.

Lemma draw_segment_paintable (idx : Z) (seg : Segment) (st : draw_state) :
  paintable seg ->
  exists (st' : draw_state) (added : list layer),
    draw_segment idx seg st = Ok st' /\
    drawn st' = drawn st ++ added /\
    outlines added = map outline_of (with_geometry [seg]).
Proof.
  intros Hp. unfold with_geometry. simpl List.filter.
  destruct (poly seg) as [|start tl] eqn:Hpoly.
  - rewrite (draw_segment_no_geometry _ _ _ Hpoly). eexists _, [].
    split; [reflexivity |]. split; [simpl; rewrite app_nil_r; reflexivity | reflexivity].
  - assert (poly seg <> []) as Hg by congruence.
    unfold draw_segment. rewrite Hpoly, (choose_outer_color_paintable _ _ Hp Hg).
    simpl obind.
    match goal with
    | |- context [if ?b then _ else _] => destruct b
    end; eexists _, _; (split; [reflexivity |]); (split; [reflexivity |]); reflexivity.
Qed.

Lemma with_geometry_cons (seg : Segment) (rest : list Segment) :
  with_geometry (seg :: rest) = with_geometry [seg] ++ with_geometry rest.
Proof. unfold with_geometry. simpl. destruct (poly seg); reflexivity. Qed.

Lemma draw_segments_paintable (segs : list Segment) :
  Forall paintable segs ->
  forall (idx : Z) (st : draw_state),
  exists (st' : draw_state) (body : list layer),
    draw_segments idx segs st = Ok st' /\
    drawn st' = drawn st ++ body /\
    outlines body = map outline_of (with_geometry segs).
Proof.
  induction 1 as [|seg rest Hseg _ IH]; intros idx st.
  - exists st, []. split; [reflexivity |]. split; [rewrite app_nil_r |]; reflexivity.
  - destruct (draw_segment_paintable idx seg st Hseg) as (st1 & added & E1 & Hd1 & Ho1).
    destruct (IH (idx + 1)%Z st1) as (st' & body & E & Hd & Ho).
    exists st', (added ++ body). simpl draw_segments. rewrite E1. simpl obind.
    split; [exact E |]. split; [rewrite Hd, Hd1, app_assoc; reflexivity |].
    rewrite outlines_app, with_geometry_cons, map_app, Ho1, Ho. reflexivity.
Qed.

(** X25. When every subway segment with geometry has a name that mentions a
    line of the table and is not a proper part of a line name, [draw_map]
    returns a map, and the outlines it draws are, in order, the colours of
    the segments with geometry: the colour of the last line of the table
    mentioned in the name for a subway segment, the bus colour for a bus
    segment, the walk colour for every other mode. *)
Theorem draw_map_paints_every_segment (segs : list Segment) (o d : Q * Q) :
  Forall paintable segs ->
  exists m : folium_map,
    draw_map segs o d = Ok m /\
    outlines (children m) = map outline_of (with_geometry segs).
Proof.
  intros Hall. unfold draw_map.
  match goal with
  | |- context [draw_segments 1 segs ?s0] =>
      destruct (draw_segments_paintable segs Hall 1 s0) as (st & body & E & Hd & Ho);
      rewrite E
  end.
  simpl obind. eexists. split; [reflexivity |]. simpl children.
  rewrite Hd. simpl drawn. rewrite <- app_assoc, !outlines_app, Ho.
  simpl. rewrite app_nil_r. reflexivity.
Qed.

End Map.

(** ** Concrete runs of the further properties *)

Lemma migrate_bias_spec_witness :
  exists p',
    @_migrate_bias no_conversion legacy_prefs = Ok p' /\
    (forall k, k <> "mode_bias" -> p' !! k = legacy_prefs !! k) /\
    @_migrate_bias no_conversion p' = Ok p'.
Proof.
  destruct (@_migrate_bias no_conversion legacy_prefs) as [p'|] eqn:E;
    [| vm_compute in E; discriminate E].
  destruct (@migrate_bias_spec no_conversion _ _ E) as (_ & _ & Hk & Hi).
  exists p'. split; [reflexivity | split; [exact Hk | exact Hi]].
Defined.

Lemma non_object_prefs_file_raises_witness :
  @load_prefs no_conversion (world_with (Holds (JArr [JInt 1])))
  = (Raise, world_with (Holds (JArr [JInt 1]))).
Proof.
  exact (proj1 (@non_object_prefs_file_raises no_conversion
                  (world_with (Holds (JArr [JInt 1]))) eq_refl)).
Defined.

Lemma session_prefs_override_file_witness :
  @score_route no_conversion example_segs (Some (example_prefs 4)) (world_with NoFile)
  = (@score_with no_conversion (example_prefs 4) example_segs, world_with NoFile).
Proof.
  apply (@session_prefs_override_file no_conversion example_segs (example_prefs 4)
           (world_with NoFile) DEFAULT_PREFS).
  - vm_compute. reflexivity.
  - intros k [<-|[<-|[<-|[<-|[]]]]]; vm_compute; eexists; reflexivity.
Defined.

Lemma score_monotone_in_crowd_witness :
  exists s s' : Q,
    @score_route no_conversion example_segs (Some (example_prefs 4)) (world_with NoFile)
    = (Ok s, world_with NoFile) /\
    @score_route no_conversion (<[0%nat := with_crowd (leg "SUBWAY" 10 2) 3]> example_segs)
      (Some (example_prefs 4)) (world_with NoFile)
    = (Ok s', world_with NoFile) /\
    (s <= s')%Q.
Proof.
  eassert (@score_route no_conversion example_segs (Some (example_prefs 4))
             (world_with NoFile) = (Ok _, world_with NoFile)) as E
    by (vm_compute; reflexivity).
  destruct (@score_monotone_in_crowd no_conversion example_segs
              (Some (example_prefs 4)) (world_with NoFile) DEFAULT_PREFS 0%nat
              (leg "SUBWAY" 10 2) (inject_Z 2) (inject_Z 4) 3%Z _
              ltac:(vm_compute; reflexivity) ltac:(vm_compute; reflexivity)
              ltac:(vm_compute; discriminate) ltac:(vm_compute; reflexivity)
              ltac:(reflexivity) ltac:(simpl; lia) E)
    as (s' & E' & Hle).
  eexists _, s'. split; [exact E | split; [exact E' | exact Hle]].
Defined.

Lemma bias_never_raises_score_witness :
  exists s s' : Q,
    @score_route no_conversion example_segs (Some (example_prefs 4)) (world_with NoFile)
    = (Ok s, world_with NoFile) /\
    @score_route no_conversion example_segs
      (Some (<["mode_bias" := JObj (<["SUBWAY" := JFloat (0 + 1)]> DEFAULT_BIAS)]>
               (example_prefs 4))) (world_with NoFile)
    = (Ok s', world_with NoFile) /\
    (s' <= s)%Q.
Proof.
  eassert (@score_route no_conversion example_segs (Some (example_prefs 4))
             (world_with NoFile) = (Ok _, world_with NoFile)) as E
    by (vm_compute; reflexivity).
  destruct (@bias_never_raises_score no_conversion example_segs
              (example_prefs 4) DEFAULT_BIAS (world_with NoFile) DEFAULT_PREFS
              "SUBWAY" 0 1 _
              ltac:(vm_compute; reflexivity) ltac:(vm_compute; reflexivity)
              ltac:(vm_compute; reflexivity) ltac:(vm_compute; discriminate) E)
    as (s' & E' & Hle & _).
  eexists _, s'. split; [exact E | split; [exact E' | exact Hle]].
Defined.

Lemma learn_rejects_non_numeric_bias_witness :
  @learn_from_choice no_conversion example_segs (1 # 2) (world_with taxi_bias_file)
  = (Raise, world_with taxi_bias_file).
Proof.
  eassert (@load_prefs no_conversion (world_with taxi_bias_file)
           = (Ok _, world_with taxi_bias_file)) as E
    by (vm_compute; reflexivity).
  apply (@learn_rejects_non_numeric_bias no_conversion example_segs (1 # 2)
           (world_with taxi_bias_file) _ {[ "TAXI" := JStr "fast" ]} "TAXI" (JStr "fast") E).
  - vm_compute. reflexivity.
  - vm_compute. reflexivity.
  - intros [Hx|[Hx|[Hx|[]]]]; discriminate Hx.
  - reflexivity.
Defined.

Lemma runs_counts_calls_witness :
  exists (p1 : gmap string json) (w1 : World) (r : Z),
    @learn_from_choice no_conversion example_segs (1 # 2) (world_with NoFile)
    = (Ok p1, w1) /\
    p1 !! "runs" = Some (JInt r) /\
    exists wn pn,
      @learn_repeatedly no_conversion 3 example_segs (1 # 2) (Some p1) w1
      = (Ok (Some pn), wn) /\
      pn !! "runs" = Some (JInt (r + Z.of_nat 3)).
Proof.
  destruct (@learn_from_choice no_conversion example_segs (1 # 2) (world_with NoFile))
    as [[p1|] w1] eqn:E; [| vm_compute in E; discriminate E].
  destruct (@runs_counts_calls no_conversion _ _ _ _ _ E) as (r & Hr & Hn).
  exists p1, w1, r. split; [reflexivity |]. split; [exact Hr |].
  specialize (Hn 3%nat).
  destruct (@learn_repeatedly no_conversion 3 example_segs (1 # 2) (Some p1) w1)
    as [[[pn|]|] wn].
  - exists wn, pn. split; [reflexivity | exact Hn].
  - destruct Hn.
  - destruct Hn as (q & Hq). exfalso. apply Hq. reflexivity.
Defined.

Lemma pct_to_level_monotone_witness :
  (pct_to_level 60 <= pct_to_level 120)%Z.
Proof.
  apply pct_to_level_monotone. vm_compute. discriminate.
Defined.

Lemma subway_best_car_by_level_witness :
  exists lvl best w',
    subway_crowd_level (JStr "강남") monday_morning (world_with NoFile)
    = (Ok (lvl, best), w') /\
    (1 <= lvl <= 4)%Z.
Proof.
  destruct (subway_best_car_by_level (JStr "강남") monday_morning (world_with NoFile))
    as (lvl & best & w' & E & Hl & _).
  exists lvl, best, w'. split; [exact E | exact Hl].
Defined.

Lemma subway_level_half_hour_bucket_witness :
  subway_crowd_level (JStr "강남") monday_morning (world_with NoFile)
  = subway_crowd_level (JStr "강남") thursday_morning (world_with NoFile).
Proof.
  apply subway_level_half_hour_bucket.
  - simpl. lia.
  - simpl. lia.
  - reflexivity.
  - simpl. lia.
Defined.

Lemma subway_table_cached_witness :
  exists lvl best w',
    subway_crowd_level (JStr "강남") monday_morning broken_csv_world
    = (Ok (lvl, best), w') /\
    lvl = 2%Z.
Proof.
  destruct (subway_table_cached (JStr "강남") monday_morning broken_csv_world)
    as (lvl & best & w' & E & _ & Hl & _).
  exists lvl, best, w'. split; [exact E |].
  apply Hl; [reflexivity | intros df Hx; discriminate Hx].
Defined.

Lemma built_segments_well_formed_witness :
  exists segs w',
    @paths_to_segs no_conversion [bare_subway_leg; train_leg] None (world_with NoFile)
    = (Ok segs, w') /\
    Forall (fun s => (1 <= crowd s <= 4)%Z) segs.
Proof.
  eassert (@paths_to_segs no_conversion [bare_subway_leg; train_leg] None
             (world_with NoFile) = (Ok _, _)) as E
    by (vm_compute; reflexivity).
  pose proof (@built_segments_well_formed no_conversion _ _ _ _ _ E) as Hall.
  eexists _, _. split; [exact E |].
  eapply List.Forall_impl; [| exact Hall]. intros s Hs. exact (proj1 Hs).
Defined.

Lemma missing_leg_fields_witness :
  (forall segs w',
     @paths_to_segs no_conversion [laneless_bus_leg] None (world_with NoFile)
     <> (Ok segs, w')) /\
  exists lvl best w',
    @build_leg no_conversion bare_subway_leg monday_morning (world_with NoFile)
    = (Ok (Some {| mode := "SUBWAY"; name := JStr ""; distance_m := JInt 0;
                   duration_min := 0; crowd := lvl; best_car := Some best;
                   poly := [] |}), w').
Proof.
  split.
  - intros segs w'.
    apply (proj1 (@missing_leg_fields no_conversion laneless_bus_leg));
      [reflexivity | reflexivity | left; reflexivity | left; reflexivity].
  - apply (proj2 (@missing_leg_fields no_conversion bare_subway_leg)); reflexivity.
Defined.

Lemma walk_leg_duration_witness :
  exists seg d,
    @build_leg no_conversion train_leg monday_morning (world_with NoFile)
    = (Ok (Some seg), world_with NoFile) /\
    mode seg = "WALK" /\
    (duration_min seg - d / 78 <= 1 # 200)%Q /\
    (d / 78 - duration_min seg <= 1 # 200)%Q.
Proof.
  eassert (@build_leg no_conversion train_leg monday_morning (world_with NoFile)
           = (Ok _, _)) as E
    by (vm_compute; reflexivity).
  destruct (@walk_leg_duration no_conversion train_leg monday_morning _ _ _
              ltac:(reflexivity) ltac:(reflexivity) E)
    as (seg & d & Ho & Hw & Hm & _ & _ & H1 & H2 & _).
  exists seg, d. rewrite Ho, Hw in E.
  split; [exact E | split; [exact Hm | split; [exact H1 | exact H2]]].
Defined.

Lemma rank_candidates_permutes_witness :
  exists l,
    @rank_candidates no_conversion example_routes (Some (example_prefs 4))
      (world_with NoFile) = (Ok l, world_with NoFile) /\
    l ≡ₚ example_routes.
Proof.
  eassert (@rank_candidates no_conversion example_routes (Some (example_prefs 4))
             (world_with NoFile) = (Ok _, world_with NoFile)) as E
    by (vm_compute; reflexivity).
  destruct (@rank_candidates_permutes no_conversion _ _ _ _ _ E) as (_ & Hp & _).
  eexists. split; [exact E | exact Hp].
Defined.

Lemma transfers_bounds_witness :
  (transfers example_segs <= 2)%nat /\ transfers [leg "BUS" 5 1; leg "BUS" 7 2] = 0%nat.
Proof.
  split.
  - exact (proj1 (transfers_bounds example_segs)).
  - apply (proj2 (transfers_bounds [leg "BUS" 5 1; leg "BUS" 7 2])).
    intros a b [<-|[<-|[]]] [<-|[<-|[]]]; reflexivity.
Defined.

Lemma crowd_gradient_color_scale_witness :
  crowd_gradient_color 3 1 = Raise /\
  crowd_gradient_color 0 7 = Ok "#00ff00" /\
  crowd_gradient_color 9 7 = Ok "#ff0000".
Proof.
  split; [| split].
  - apply (proj1 (crowd_gradient_color_scale 3 1)). reflexivity.
  - apply (proj1 (proj2 (crowd_gradient_color_scale 0 7))); lia.
  - apply (proj1 (proj2 (proj2 (crowd_gradient_color_scale 9 7)))); lia.
Defined.

Lemma draw_map_layers_witness :
  exists m body,
    draw_map drawn_route (37 # 1, 127 # 1) (38 # 1, 128 # 1) = Ok m /\
    children m = TileLayer "OpenStreetMap"
                 :: Marker (37 # 1, 127 # 1) (PopText "출발") "blue" "play"
                 :: Marker (38 # 1, 128 # 1) (PopText "도착") "red" "flag"
                 :: (body ++ [LayerControl])%list /\
    length (List.filter is_polyline body) = 4%nat /\
    (length (List.filter is_transfer_marker body) <= 2)%nat.
Proof.
  eassert (draw_map drawn_route (37 # 1, 127 # 1) (38 # 1, 128 # 1) = Ok _) as E
    by (vm_compute; reflexivity).
  destruct (draw_map_layers _ _ _ _ E) as (_ & body & Hc & Hp & _ & Ht & _).
  eexists _, body. split; [exact E |]. split; [exact Hc |]. split; [exact Hp | exact Ht].
Defined.

Lemma draw_map_raises_on_partial_line_name_witness :
  draw_map [drawn_leg "BUS" "472" 2 [(37 # 1, 127 # 1)];
            drawn_leg "SUBWAY" "" 2 [(38 # 1, 127 # 1)]]
           (37 # 1, 127 # 1) (38 # 1, 128 # 1) = Raise.
Proof.
  apply (draw_map_raises_on_partial_line_name _ _ _
           (drawn_leg "SUBWAY" "" 2 [(38 # 1, 127 # 1)]) "" "1호선" "#0052A4").
  - right. left. reflexivity.
  - reflexivity.
  - reflexivity.
  - discriminate.
  - left. reflexivity.
  - reflexivity.
  - unfold SUBWAY_LINE_COLORS. repeat (constructor; [discriminate |]). constructor.
Defined.

Lemma unknown_line_takes_previous_colour_witness :
  draw_map [drawn_leg "WALK" "도보" 1 [];
            drawn_leg "SUBWAY" "신림선" 2 [(38 # 1, 127 # 1)]]
           (37 # 1, 127 # 1) (38 # 1, 128 # 1) = Raise.
Proof.
  apply (proj2 (unknown_line_takes_previous_colour
                  (drawn_leg "SUBWAY" "신림선" 2 [(38 # 1, 127 # 1)]) "신림선"
                  ltac:(unfold line_unknown, SUBWAY_LINE_COLORS;
                        repeat (constructor; [split; reflexivity |]); constructor)
                  ltac:(reflexivity) ltac:(reflexivity) ltac:(discriminate))
           [drawn_leg "WALK" "도보" 1 []] []).
  constructor; [reflexivity | constructor].
Defined.

Lemma draw_map_paints_every_segment_witness :
  exists m,
    draw_map drawn_route (37 # 1, 127 # 1) (38 # 1, 128 # 1) = Ok m /\
    outlines (children m) = [BUS_COLOR; "#00A84D"].
Proof.
  destruct (draw_map_paints_every_segment drawn_route (37 # 1, 127 # 1) (38 # 1, 128 # 1))
    as (m & E & Ho).
  - unfold drawn_route. constructor; [| constructor; [| constructor; [| constructor]]].
    + right. left. discriminate.
    + left. reflexivity.
    + right. right. exists "수도권 2호선". split; [reflexivity |]. split.
      * apply Exists_cons_tl, Exists_cons_hd. reflexivity.
      * unfold SUBWAY_LINE_COLORS.
        repeat (constructor;
                [vm_compute; intros Hc; first [exact Hc | reflexivity] |]).
        constructor.
  - exists m. split; [exact E | exact Ho].
Defined.
